(** * resilient-sdk validation helpers: a shallow embedding

    The development follows
    [resilient_sdk/util/sdk_validate_helpers.py],
    [resilient_sdk/util/sdk_validate_configs.py] and
    [resilient_sdk/util/constants.py].

    Python [str] values are modelled as [string]; a character is a code
    point below 256.  Python [int] values are modelled as [Z]. *)

From Stdlib Require Import ZArith QArith Lia.
From Stdlib Require Import Ascii.
From stdpp Require Import gmap strings list.

Local Open Scope Z_scope.

(** ** Python string built-ins used by the helpers *)

Module Py.

Definition LF : ascii := "010"%char.
Definition CR : ascii := "013"%char.
Definition TAB : ascii := "009"%char.
Definition DQUOTE : ascii := "034"%char.

Definition ord (c : ascii) : N := Ascii.N_of_ascii c.

(** [str.isspace] on one character (code points below 256). *)
Definition isspace (c : ascii) : bool :=
  let n := ord c in
  ((9 <=? n) && (n <=? 13) || (28 <=? n) && (n <=? 32)
   || (n =? 133) || (n =? 160))%N.

Definition len (s : string) : Z := Z.of_nat (String.length s).

Fixpoint lstrip (s : string) : string :=
  match s with
  | String c r => if isspace c then lstrip r else s
  | EmptyString => EmptyString
  end.

Fixpoint rstrip (s : string) : string :=
  match s with
  | EmptyString => EmptyString
  | String c r =>
      match rstrip r with
      | EmptyString => if isspace c then EmptyString else String c EmptyString
      | r' => String c r'
      end
  end.

(** [s.strip()] *)
Definition strip (s : string) : string := rstrip (lstrip s).

(** [s.startswith(p)] *)
Fixpoint startswith (s p : string) : bool :=
  match p, s with
  | EmptyString, _ => true
  | String a p', String b s' => if decide (a = b) then startswith s' p' else false
  | String _ _, EmptyString => false
  end.

Fixpoint find_at (s sub : string) (i : Z) : Z :=
  if startswith s sub then i
  else match s with
       | EmptyString => -1
       | String _ r => find_at r sub (i + 1)
       end.

(** [s.find(sub)]: lowest index, or -1. *)
Definition find (s sub : string) : Z := find_at s sub 0.

Fixpoint rfind_at (s sub : string) (i : Z) : Z :=
  match s with
  | EmptyString => if startswith s sub then i else -1
  | String _ r =>
      let k := rfind_at r sub (i + 1) in
      if 0 <=? k then k else if startswith s sub then i else -1
  end.

(** [s.rfind(sub)]: highest index, or -1. *)
Definition rfind (s sub : string) : Z := rfind_at s sub 0.

(** [sub in s] *)
Definition contains (sub s : string) : bool := negb (find s sub =? -1).

Fixpoint drop (n : nat) (s : string) : string :=
  match n, s with
  | O, _ => s
  | S n', String _ r => drop n' r
  | S _, EmptyString => EmptyString
  end.

Fixpoint take (n : nat) (s : string) : string :=
  match n, s with
  | O, _ => EmptyString
  | S n', String c r => String c (take n' r)
  | S _, EmptyString => EmptyString
  end.

(** A slice bound as Python normalises it: a negative bound counts
    from the end, and the result is clipped to [0, len]. *)
Definition bound (n i : Z) : Z :=
  if i <? 0 then Z.max 0 (i + n) else Z.min i n.

(** [s[a:b]]; [None] stands for an omitted bound. *)
Definition slice (s : string) (a b : option Z) : string :=
  let n := len s in
  let lo := from_option (bound n) 0 a in
  let hi := from_option (bound n) n b in
  take (Z.to_nat (hi - lo)) (drop (Z.to_nat lo) s).

(** [s.replace(old, new)] for a one-character [old], which is the only
    way the helpers call it. *)
Fixpoint replace (s : string) (old : ascii) (new : string) : string :=
  match s with
  | EmptyString => EmptyString
  | String c r =>
      if decide (c = old) then new +:+ replace r old new
      else String c (replace r old new)
  end.

(** [s.split(sep)] for a one-character separator. *)
Fixpoint split (s : string) (sep : ascii) : list string :=
  match s with
  | EmptyString => [EmptyString]
  | String c r =>
      if decide (c = sep) then EmptyString :: split r sep
      else match split r sep with
           | [] => [String c EmptyString]
           | w :: ws => String c w :: ws
           end
  end.

(** [sep.join(l)] *)
Fixpoint join (sep : string) (l : list string) : string :=
  match l with
  | [] => EmptyString
  | [x] => x
  | x :: xs => x +:+ sep +:+ join sep xs
  end.

(** Line boundaries of [str.splitlines] below code point 256. *)
Definition is_linebreak (c : ascii) : bool :=
  let n := ord c in
  ((10 <=? n) && (n <=? 13) || (28 <=? n) && (n <=? 30) || (n =? 133))%N.

(** [s.splitlines(True)]: the lines with their line endings kept. *)
Fixpoint splitlines (s : string) : list string :=
  match s with
  | EmptyString => []
  | String c r =>
      if is_linebreak c then
        match r with
        | String d r' =>
            if bool_decide (c = CR) && bool_decide (d = LF)
            then String c (String d EmptyString) :: splitlines r'
            else String c EmptyString :: splitlines r
        | EmptyString => [String c EmptyString]
        end
      else match splitlines r with
           | [] => [String c EmptyString]
           | l :: ls => String c l :: ls
           end
  end.

(** *** [str.format]

    The fragment modelled: literal text, the escapes [{{] and [}}],
    and positional fields [{N}] with a decimal index.  Every template
    of the rule catalogue the helpers format is in this fragment.
    [None] stands for a template outside it or a missing argument. *)

Inductive fstate := Lit | Open | Field (n : nat) | Close.

Definition digit (c : ascii) : option nat :=
  let n := ord c in
  if ((48 <=? n) && (n <=? 57))%N then Some (N.to_nat (n - 48)) else None.

Fixpoint format_go (st : fstate) (tpl : string) (args : list string)
  : option string :=
  match tpl with
  | EmptyString => match st with Lit => Some EmptyString | _ => None end
  | String c r =>
      match st with
      | Lit =>
          if decide (c = "{"%char) then format_go Open r args
          else if decide (c = "}"%char) then format_go Close r args
          else String c <$> format_go Lit r args
      | Open =>
          if decide (c = "{"%char) then String c <$> format_go Lit r args
          else match digit c with
               | Some d => format_go (Field d) r args
               | None => None
               end
      | Field n =>
          if decide (c = "}"%char) then
            match args !! n with
            | Some a => String.append a <$> format_go Lit r args
            | None => None
            end
          else match digit c with
               | Some d => format_go (Field (10 * n + d)%nat) r args
               | None => None
               end
      | Close =>
          if decide (c = "}"%char) then String c <$> format_go Lit r args
          else None
      end
  end.

Definition format (tpl : string) (args : list string) : option string :=
  format_go Lit tpl args.

(** *** [repr] of a [str] and [str] of a list of [str] *)

Definition hex_digit (n : N) : ascii :=
  Ascii.ascii_of_N (if (n <? 10)%N then 48 + n else 87 + n).

Definition isprintable (c : ascii) : bool :=
  let n := ord c in
  ((32 <=? n) && (n <=? 126) || (161 <=? n) && negb (n =? 173))%N.

Fixpoint repr_body (q : ascii) (s : string) : string :=
  match s with
  | EmptyString => EmptyString
  | String c r =>
      let rest := repr_body q r in
      if decide (c = "\"%char) then String "\" (String "\" rest)
      else if decide (c = q) then String "\" (String c rest)
      else if decide (c = TAB) then String "\" (String "t" rest)
      else if decide (c = LF) then String "\" (String "n" rest)
      else if decide (c = CR) then String "\" (String "r" rest)
      else if isprintable c then String c rest
      else String "\" (String "x"
             (String (hex_digit (ord c / 16)) (String (hex_digit (ord c mod 16)) rest)))
  end.

Definition has_char (c : ascii) (s : string) : bool :=
  contains (String c EmptyString) s.

Definition repr (s : string) : string :=
  let q := if has_char "'" s && negb (has_char DQUOTE s) then DQUOTE else "'"%char in
  String q (repr_body q s +:+ String q EmptyString).

(** [str(l)] for a list of [str]. *)
Definition str_list (l : list string) : string :=
  "[" +:+ join ", " (repr <$> l) +:+ "]".

End Py.

Example strip_ex : Py.strip "  ab c	 " = "ab c".
Proof. reflexivity. Qed.

Example rfind_ex : Py.rfind "a{b{c}d" "{" = 3.
Proof. reflexivity. Qed.

Example rfind_absent_ex : Py.rfind "abc" "{" = -1.
Proof. reflexivity. Qed.

Example slice_ex : Py.slice "a{b{c}d" (Some 4) (Some 5) = "c".
Proof. reflexivity. Qed.

Example slice_neg : Py.slice "abcd" (Some (-1)) None = "d".
Proof. reflexivity. Qed.

Example format_ex : Py.format "x {0} y {1}{{}}" ["A"; "B"] = Some "x A y B{}".
Proof. reflexivity. Qed.

Example format_missing : Py.format "{2}" ["A"; "B"] = None.
Proof. reflexivity. Qed.

Example str_list_ex :
  Py.str_list ["a b"; "it's"]
  = "['a b', " +:+ String Py.DQUOTE ("it's" +:+ String Py.DQUOTE "]").
Proof. reflexivity. Qed.

Example splitlines_ex :
  Py.splitlines (String "a" (String Py.CR (String Py.LF (String "b" (String Py.LF "c")))))
  = [String "a" (String Py.CR (String Py.LF EmptyString));
     String "b" (String Py.LF EmptyString); "c"].
Proof. reflexivity. Qed.

(** ** constants.py *)

Module constants.
Definition LOGGER_NAME : string := "resilient_sdk_log".
Definition ENV_VAR_APP_CONFIG_FILE : string := "APP_CONFIG_FILE".
Definition RESILIENT_LIBRARIES_VERSION : string := "43.0.0".
Definition MIN_SUPPORTED_PY_VERSION : Z * Z := (3, 6).
Definition CIRCUITS_PACKAGE_NAME : string := "resilient-circuits".
Definition PACKAGE_TEMPLATE_PATH : string := "data/codegen/templates/package_template".
Definition DOCGEN_PLACEHOLDER_STRING : string := "::CHANGE_ME::".
End constants.

(** ** Data model *)

(** Modelled from the spec: the severity levels of [SDKValidateIssue]
    ([sdk_validate_issue.py] is not among the sources).  The spec gives
    a closed ordered set, CRITICAL > WARNING > INFO > DEBUG, the last
    one standing for a pass. *)
Inductive severity_level :=
| SEVERITY_LEVEL_CRITICAL
| SEVERITY_LEVEL_WARN
| SEVERITY_LEVEL_INFO
| SEVERITY_LEVEL_DEBUG.

Definition severity_rank (s : severity_level) : nat :=
  match s with
  | SEVERITY_LEVEL_DEBUG => 0
  | SEVERITY_LEVEL_INFO => 1
  | SEVERITY_LEVEL_WARN => 2
  | SEVERITY_LEVEL_CRITICAL => 3
  end.

(** The Python values a rule dictionary holds and an issue is built from. *)
Inductive pyval :=
| PNone
| PStr (s : string)
| PSev (s : severity_level)
| PFunc (name : string).

(** A constructor argument: passed, or left to the default of the class. *)
Inductive arg :=
| Given (v : pyval)
| Omitted.

(** The call [SDKValidateIssue(name, description, severity=..., solution=...)]. *)
Record SDKValidateIssue := mkIssue {
  name : pyval;
  description : pyval;
  severity : arg;
  solution : arg
}.

Definition is_pass (i : SDKValidateIssue) : bool :=
  match severity i with
  | Given (PSev SEVERITY_LEVEL_DEBUG) => true
  | _ => false
  end.

Inductive exn :=
| SDKException (message : string)
| AttributeError
| ValueError
| FormatError.

Inductive result (A : Type) :=
| Return (a : A)
| Raise (e : exn).
Arguments Return {A} a.
Arguments Raise {A} e.

(** A finished subprocess as [selftest_run_selftestpy] observes it:
    [polls] is the number of times [proc.poll()] answers [None] before
    the process has exited. *)
Record Proc := mkProc {
  polls : nat;
  returncode : Z;
  proc_stderr : string
}.

(** The ambient state of a validation run. *)
Record World := mkWorld {
  environ : gmap string string;
  files : gmap string (list string);
  stdout : list string;
  debug_log : list string;
  launched : list (list string * gmap string string)
}.

(** ** A state and exception monad *)

Definition M (A : Type) : Type := World -> result A * World.

Definition ret {A} (a : A) : M A := fun w => (Return a, w).
Definition raise {A} (e : exn) : M A := fun w => (Raise e, w).
Definition bind {A B} (m : M A) (k : A -> M B) : M B :=
  fun w => match m w with
           | (Return a, w') => k a w'
           | (Raise e, w') => (Raise e, w')
           end.
Definition gets {A} (f : World -> A) : M A := fun w => (Return (f w), w).
Definition reads {A} (f : World -> result A) : M A := fun w => (f w, w).
Definition modify (f : World -> World) : M unit := fun w => (Return tt, f w).

(** [try: m except SDKException as e: h e] *)
Definition try_except_SDKException {A} (m : M A) (h : string -> M A) : M A :=
  fun w => match m w with
           | (Raise (SDKException msg), w') => h msg w'
           | r => r
           end.

Notation "x <- m ;; k" := (bind m (fun x => k))
  (at level 100, m at next level, right associativity).
Notation "m ;;; k" := (bind m (fun _ => k))
  (at level 100, right associativity).

Definition setenv (k v : string) : M unit :=
  modify (fun w => mkWorld (<[k := v]> (environ w)) (files w) (stdout w)
                           (debug_log w) (launched w)).

Definition stdout_write (s : string) : M unit :=
  modify (fun w => mkWorld (environ w) (files w) (stdout w ++ [s])
                           (debug_log w) (launched w)).

Definition LOG_debug (s : string) : M unit :=
  modify (fun w => mkWorld (environ w) (files w) (stdout w)
                           (debug_log w ++ [s]) (launched w)).

(** ** Collaborators

    The modules [sdk_helpers], [package_file_helpers] and
    [sdk_exception], and the libraries [pkg_resources], [difflib] and
    [subprocess], are outside the sources.  The helpers are stated over
    any implementation of them.  The ones that look at the file system
    or the Python environment read the [files] of the [World]; that
    they write nothing themselves is part of the model.  The subprocess
    is one that starts and exits. *)

Class Collaborators := {
  Version : Type;
  parse_version : string -> Version;
  version_ge : Version -> Version -> bool;
  version_lt : Version -> Version -> bool;
  version_str : Version -> string;
  get_package_version : gmap string (list string) -> string -> option Version;
  check_package_installed : gmap string (list string) -> string -> bool;
  validate_file_paths : gmap string (list string) -> string -> result unit;
  read_file : gmap string (list string) -> string -> result (list string);
  setup_env_and_render_jinja_file :
    gmap string (list string) -> string -> string -> list (string * string) -> result string;
  get_resilient_libraries_version_to_use : gmap string (list string) -> string;
  get_configs_from_config_py : gmap string (list string) -> string -> result string;
  get_import_definition_from_customize_py : gmap string (list string) -> string -> result string;
  parse_file_paths_from_readme : list string -> result (list string);
  BASE_PERMISSIONS : list string;
  (** [difflib.SequenceMatcher(None, a, b).ratio()] on lists of lines
      and on two strings *)
  lines_ratio : list string -> list string -> Q;
  str_ratio : string -> string -> Q;
  (** [difflib.unified_diff] followed by [color_diff_output] *)
  colored_unified_diff : list string -> list string -> string -> string -> list string;
  (** [str] of a float *)
  str_float : Q -> string;
  (** [subprocess.Popen(cmd)] under an environment, run to its exit *)
  Popen : list string -> gmap string string -> Proc;
  (** [str(e)] for an [SDKException] built with a message *)
  SDKException_str : string -> string
}.

(** [attr_dict.get(key)] *)
Definition get (attr_dict : gmap string pyval) (key : string) : pyval :=
  default PNone (attr_dict !! key).

(** [v.format(args)] on a value read from a rule dictionary *)
Definition format (v : pyval) (args : list string) : M pyval :=
  match v with
  | PStr t =>
      match Py.format t args with
      | Some s => ret (PStr s)
      | None => raise FormatError
      end
  | _ => raise AttributeError
  end.

(** A template formatted when the module is loaded. *)
Definition preformat (tpl : string) (args : list string) : string :=
  default EmptyString (Py.format tpl args).

(** ** sdk_validate_configs.py: the selftest rules *)

Module sdk_validate_configs.
Import constants.

(** check 1: verify that resilient-circuits is installed in python env *)
Definition selftest_attributes_0 : gmap string pyval :=
  list_to_map [
    ("func", PFunc "selftest_validate_resilient_circuits_installed");
    ("fail_name", PStr (preformat "'{0}' version is too low" [CIRCUITS_PACKAGE_NAME]));
    ("fail_msg", PStr (preformat "'{0}=={1}' is not supported" [CIRCUITS_PACKAGE_NAME; "{0}"]));
    ("fail_solution",
      PStr (preformat "Upgrade '{0}' by running 'pip install '{0}>={1}''"
              [CIRCUITS_PACKAGE_NAME; RESILIENT_LIBRARIES_VERSION]));
    ("missing_name", PStr (preformat "'{0}' not found" [CIRCUITS_PACKAGE_NAME]));
    ("missing_msg",
      PStr (preformat "'{0}' is not installed in your python environment"
              [CIRCUITS_PACKAGE_NAME]));
    ("missing_solution",
      PStr (preformat "Please install '{0}' by running 'pip install '{0}''"
              [CIRCUITS_PACKAGE_NAME]));
    ("severity", PSev SEVERITY_LEVEL_CRITICAL);
    ("pass_name", PStr (preformat "'{0}' found in env" [CIRCUITS_PACKAGE_NAME]));
    ("pass_msg",
      PStr (preformat
              "'{0}' was found in the python environment with the minimum version installed"
              [CIRCUITS_PACKAGE_NAME]))
  ].

(** check 2: check that the given package is actually installed in the env *)
Definition selftest_attributes_1 : gmap string pyval :=
  list_to_map [
    ("func", PFunc "selftest_validate_package_installed");
    ("fail_name", PStr "'{0}' not found");
    ("fail_msg", PStr "'{0}' is not installed in your python environment");
    ("solution", PStr "Please install '{0}' by running 'pip install {1}'");
    ("severity", PSev SEVERITY_LEVEL_CRITICAL);
    ("pass_name", PStr "'{0}' found in env");
    ("pass_msg", PStr "'{0}' is correctly installed in your python environment")
  ].

(** check 3: validate that the selftest file exists *)
Definition selftest_attributes_2 : gmap string pyval :=
  list_to_map [
    ("func", PFunc "selftest_validate_selftestpy_file_exists");
    ("fail_name", PStr "selftest.py not found");
    ("fail_msg", PStr "selftest.py is a required file");
    ("solution",
      PStr "Please run codegen --reload and implement the templated selftest function");
    ("severity", PSev SEVERITY_LEVEL_CRITICAL);
    ("pass_name", PStr "selftest.py found");
    ("pass_msg", PStr "selftest.py file found at path '{0}'")
  ].

(** check 4: execute selftest and check how it went *)
Definition selftest_attributes_3 : gmap string pyval :=
  list_to_map [
    ("func", PFunc "selftest_run_selftestpy");
    ("fail_name", PStr "selftest.py failed");
    ("fail_msg", PStr "selftest.py failed  for {0}. Details: {1}");
    ("fail_solution",
      PStr "Please check your configuration values and make sure selftest.py is properly implemented");
    ("fail_severity", PSev SEVERITY_LEVEL_CRITICAL);
    ("missing_name", PStr "selftest.py not implemented");
    ("missing_msg", PStr "selftest.py not implemented for {0}");
    ("missing_severity", PSev SEVERITY_LEVEL_CRITICAL);
    ("missing_solution",
      PStr "selftest.py is a recommended check that should be implemented. More info <TODO: LINK>");
    ("error_name", PStr "selftest.py failed");
    ("error_msg",
      PStr "While running selftest.py, 'resilient-circuits' failed to connect to server. Details: {0}");
    ("error_severity", PSev SEVERITY_LEVEL_CRITICAL);
    ("pass_name", PStr "selftest.py success");
    ("pass_msg", PStr "selftest.py successfully ran for '{0}'")
  ].

(** NOTE: selftest_attributes needs to be a list as the order of these
    checks MATTERS *)
Definition selftest_attributes : list (gmap string pyval) :=
  [selftest_attributes_0; selftest_attributes_1;
   selftest_attributes_2; selftest_attributes_3].

End sdk_validate_configs.

Example fail_msg_0 :
  get sdk_validate_configs.selftest_attributes_0 "fail_msg"
  = PStr "'resilient-circuits=={0}' is not supported".
Proof. vm_compute. reflexivity. Qed.

Example fail_solution_0 :
  get sdk_validate_configs.selftest_attributes_0 "fail_solution"
  = PStr "Upgrade 'resilient-circuits' by running 'pip install 'resilient-circuits>=43.0.0''".
Proof. vm_compute. reflexivity. Qed.

(** ** sdk_validate_helpers.py: the selftest helpers *)

Section helpers.
Context `{C : Collaborators}.
Import constants.

Definition nl (s : string) : string := s +:+ String Py.LF EmptyString.

Definition selftest_validate_resilient_circuits_installed
    (attr_dict : gmap string pyval) : M (bool * SDKValidateIssue) :=
  LOG_debug (nl "validating that 'resilient-circuits' is installed in the env...") ;;;
  res_circuits_version <- gets (fun w => get_package_version (files w) CIRCUITS_PACKAGE_NAME) ;;
  match res_circuits_version with
  | Some v =>
      if version_ge v (parse_version RESILIENT_LIBRARIES_VERSION) then
        (* installed and correct version *)
        ret (true, mkIssue (get attr_dict "pass_name") (get attr_dict "pass_msg")
                           (Given (PSev SEVERITY_LEVEL_DEBUG))
                           (Given (PStr EmptyString)))
      else if version_lt v (parse_version RESILIENT_LIBRARIES_VERSION) then
        (* resilient-circuits installed but version not supported *)
        d <- format (get attr_dict "fail_msg") [version_str v] ;;
        ret (false, mkIssue (get attr_dict "fail_name") d
                            (Given (get attr_dict "severity"))
                            (Given (get attr_dict "fail_solution")))
      else
        (* unknown other error *)
        raise (SDKException
                 (preformat "Unknown error while checking for {0}" [CIRCUITS_PACKAGE_NAME]))
  | None =>
      (* if 'resilient-circuits' not installed *)
      ret (false, mkIssue (get attr_dict "missing_name") (get attr_dict "missing_msg")
                          (Given (get attr_dict "severity"))
                          (Given (get attr_dict "missing_solution")))
  end.

Definition selftest_validate_package_installed
    (attr_dict : gmap string pyval) (package_name path_package : string)
  : M (bool * SDKValidateIssue) :=
  LOG_debug (nl "validating that the package is installed...") ;;;
  installed <- gets (fun w => check_package_installed (files w) package_name) ;;
  if installed : bool then
    n <- format (get attr_dict "pass_name") [package_name] ;;
    d <- format (get attr_dict "pass_msg") [package_name] ;;
    ret (true, mkIssue n d (Given (PSev SEVERITY_LEVEL_DEBUG)) (Given (PStr EmptyString)))
  else
    n <- format (get attr_dict "fail_name") [package_name] ;;
    d <- format (get attr_dict "fail_msg") [package_name] ;;
    s <- format (get attr_dict "solution") [package_name; path_package] ;;
    ret (false, mkIssue n d (Given (get attr_dict "severity")) (Given s)).

Definition selftest_validate_selftestpy_file_exists
    (attr_dict : gmap string pyval) (path_selftest_py_file : string)
  : M (bool * SDKValidateIssue) :=
  LOG_debug (nl "validating selftest.py file exists...") ;;;
  try_except_SDKException
    (reads (fun w => validate_file_paths (files w) path_selftest_py_file) ;;;
     d <- format (get attr_dict "pass_msg") [path_selftest_py_file] ;;
     ret (true, mkIssue (get attr_dict "pass_name") d
                        (Given (PSev SEVERITY_LEVEL_DEBUG)) (Given (PStr EmptyString))))
    (fun _ =>
       ret (false, mkIssue (get attr_dict "fail_name") (get attr_dict "fail_msg")
                           (Given (get attr_dict "severity"))
                           (Given (get attr_dict "solution")))).

(** The "waiting bar" loop: one turn for each [proc.poll()] that
    answers [None]. *)
Definition waiting_bar : list string := ["-"; "\"; "|"; "/"; "-"; "\"; "|"; "/"].

Fixpoint waiting_loop (n : nat) (i : nat) : M unit :=
  match n with
  | O => ret tt
  | S n' =>
      stdout_write (String Py.CR EmptyString) ;;;
      stdout_write (preformat "Running selftest... {0}       "
                      [default EmptyString (waiting_bar !! i)]) ;;;
      waiting_loop n' ((i + 1) mod length waiting_bar)%nat
  end.

(** [subprocess.Popen(cmd, ...)]: the process runs under the
    environment of the moment. *)
Definition popen (cmd : list string) : M Proc :=
  fun w => (Return (Popen cmd (environ w)),
            mkWorld (environ w) (files w) (stdout w) (debug_log w)
                    (launched w ++ [(cmd, environ w)])).

(** The two ways the output of the subprocess is cut and cleaned. *)
Definition clean (s : string) : string :=
  Py.replace (Py.replace (Py.strip s) Py.LF ". ") Py.TAB " ".

Definition failure_details (details : string) : string :=
  clean (Py.slice details (Some (Py.rfind details "{" + 1)) (Some (Py.rfind details "}"))).

Definition error_details (details : string) : string :=
  clean (Py.slice details (Some (Py.rfind details "ERROR")) None).

Definition selftest_run_selftestpy
    (attr_dict : gmap string pyval) (package_name : string)
    (kwargs_path_app_config : option string) : M (bool * SDKValidateIssue) :=
  (* Set env var *)
  let path_app_config := default EmptyString kwargs_path_app_config in
  LOG_debug (nl (String Py.LF "Setting $APP_CONFIG_FILE to '" +:+ path_app_config +:+ "'")) ;;;
  setenv ENV_VAR_APP_CONFIG_FILE path_app_config ;;;
  (* run selftest in package as a subprocess *)
  let selftest_cmd :=
    ["resilient-circuits"; "selftest"; "-l"; Py.replace package_name "_" "-"] in
  proc <- popen selftest_cmd ;;
  waiting_loop (polls proc) 0 ;;;
  (* Unset env var *)
  setenv ENV_VAR_APP_CONFIG_FILE EmptyString ;;;
  stdout_write (String Py.CR EmptyString) ;;;
  stdout_write (nl "selftest run complete") ;;;
  let details := proc_stderr proc in
  LOG_debug details ;;;
  if returncode proc =? 1 then
    d <- format (get attr_dict "fail_msg") [package_name; failure_details details] ;;
    ret (false, mkIssue (get attr_dict "fail_name") d
                        (Given (get attr_dict "fail_severity"))
                        (Given (get attr_dict "fail_solution")))
  else if returncode proc >? 1 then
    (* return code is a failure of REST or STOMP connection *)
    d <- format (get attr_dict "error_msg") [error_details details] ;;
    ret (false, mkIssue (get attr_dict "error_name") d
                        (Given (get attr_dict "error_severity")) Omitted)
  else if returncode proc =? 0 then
    if negb (Py.find details "'state': 'unimplemented'" =? -1) then
      d <- format (get attr_dict "missing_msg") [package_name] ;;
      ret (false, mkIssue (get attr_dict "missing_name") d
                          (Given (get attr_dict "missing_severity"))
                          (Given (get attr_dict "missing_solution")))
    else
      d <- format (get attr_dict "pass_msg") [package_name] ;;
      ret (true, mkIssue (get attr_dict "pass_name") d
                         (Given (PSev SEVERITY_LEVEL_DEBUG)) (Given (PStr EmptyString)))
  else
    raise (SDKException
             (preformat "Unknown error while running '{0}'" [Py.join " " selftest_cmd])).

End helpers.

(** ** sdk_validate_helpers.py: the package file helpers *)

Module difflib.
Section matches.
Variable ratio : string -> string -> Q.

(** The candidates that reach the cutoff, with their scores. *)
Definition scored (word : string) (possibilities : list string) (cutoff : Q)
  : list (Q * string) :=
  omap (fun x => let r := ratio x word in
                 if Qle_bool cutoff r then Some (r, x) else None) possibilities.

(** The order of the tuples [(score, x)]. *)
Definition tuple_gtb (a b : Q * string) : bool :=
  match Qcompare (fst a) (fst b) with
  | Gt => true
  | Lt => false
  | Eq => String.ltb (snd b) (snd a)
  end.

Fixpoint insert_desc (a : Q * string) (l : list (Q * string)) : list (Q * string) :=
  match l with
  | [] => [a]
  | b :: r => if tuple_gtb a b then a :: l else b :: insert_desc a r
  end.

(** [heapq.nlargest(n, l)] *)
Definition nlargest (n : nat) (l : list (Q * string)) : list (Q * string) :=
  take n (foldr insert_desc [] l).

(** [difflib.get_close_matches(word, possibilities, n, cutoff)] *)
Definition get_close_matches (word : string) (possibilities : list string)
    (n : nat) (cutoff : Q) : list string :=
  snd <$> nlargest n (scored word possibilities cutoff).
End matches.
End difflib.

Module os_path.
Fixpoint ends_with_slash (s : string) : bool :=
  match s with
  | EmptyString => false
  | String c EmptyString => bool_decide (c = "/"%char)
  | String _ r => ends_with_slash r
  end.

(** [os.path.join(a, b)] on a POSIX system *)
Definition join (a b : string) : string :=
  if Py.startswith b "/" then b
  else if bool_decide (a = EmptyString) || ends_with_slash a then a +:+ b
  else a +:+ "/" +:+ b.
End os_path.

Section package_files.
Context `{C : Collaborators}.
Import constants.

(** The loop of [package_files_manifest] over the template lines. *)
Definition manifest_diffs (file_contents template_contents : list string)
  : list string :=
  foldl (fun diffs line =>
           if bool_decide (Py.strip line = EmptyString) then diffs
           else match difflib.get_close_matches str_ratio line file_contents 3 (9 # 10) with
                | [] => diffs ++ [Py.strip line]
                | _ => diffs
                end)
        [] template_contents.

Definition package_files_manifest
    (package_name path_file filename : string) (attr_dict : gmap string pyval)
  : M SDKValidateIssue :=
  (* render jinja file of MANIFEST *)
  file_rendered <- reads (fun w => setup_env_and_render_jinja_file (files w) PACKAGE_TEMPLATE_PATH
                                     filename [("package_name", package_name)]) ;;
  (* read the contents of the package's MANIFEST file *)
  file_contents <- reads (fun w => read_file (files w) path_file) ;;
  (* split template file into list of lines *)
  let template_contents := Py.splitlines file_rendered in
  (* compare given file to template *)
  let diffs := manifest_diffs file_contents template_contents in
  match diffs with
  | _ :: _ =>
      d <- format (get attr_dict "fail_msg") [Py.str_list diffs] ;;
      ret (mkIssue (get attr_dict "fail_name") d
                   (Given (get attr_dict "fail_severity"))
                   (Given (get attr_dict "fail_solution")))
  | [] =>
      ret (mkIssue (get attr_dict "pass_name") (get attr_dict "pass_msg")
                   (Given (PSev SEVERITY_LEVEL_DEBUG)) (Given (PStr EmptyString)))
  end.

Definition package_files_apikey_pem
    (path_file : string) (attr_dict : gmap string pyval) : M SDKValidateIssue :=
  (* read package's apikey_permissions.txt file *)
  file_contents <- reads (fun w => read_file (files w) path_file) ;;
  (* filter out commented lines *)
  let file_contents :=
    Py.strip <$> filter (fun line => Py.startswith line "#" = false) file_contents in
  (* compare given file to constant BASE_PERMISSIONS *)
  let missing_permissions :=
    filter (fun perm => perm ∉ file_contents) BASE_PERMISSIONS in
  match missing_permissions with
  | _ :: _ =>
      d <- format (get attr_dict "fail_msg") [Py.str_list missing_permissions] ;;
      ret (mkIssue (get attr_dict "fail_name") d
                   (Given (get attr_dict "fail_severity"))
                   (Given (get attr_dict "fail_solution")))
  | [] =>
      s <- format (get attr_dict "pass_solution") [Py.str_list file_contents] ;;
      ret (mkIssue (get attr_dict "pass_name") (get attr_dict "pass_msg")
                   (Given (PSev SEVERITY_LEVEL_DEBUG)) (Given s))
  end.

Definition package_files_template_match
    (package_name package_version path_file filename : string)
    (attr_dict : gmap string pyval) : M SDKValidateIssue :=
  (* render jinja file *)
  file_rendered <- reads (fun w => setup_env_and_render_jinja_file (files w) PACKAGE_TEMPLATE_PATH
                                     filename
                                     [("package_name", package_name);
                                      ("version", package_version);
                                      ("resilient_libraries_version",
                                        get_resilient_libraries_version_to_use (files w))]) ;;
  (* read the package's file *)
  file_contents <- reads (fun w => read_file (files w) path_file) ;;
  let template_contents := Py.splitlines file_rendered in
  (* if less than a perfect match, the match fails *)
  let comp_ratio := lines_ratio file_contents template_contents in
  if negb (Qle_bool 1 comp_ratio) then
    let diff := colored_unified_diff template_contents file_contents
                  ("template_" +:+ filename) filename in
    d <- format (get attr_dict "fail_msg")
           [str_float (comp_ratio * 100)%Q;
            Py.join (String Py.TAB (String Py.TAB EmptyString)) diff] ;;
    ret (mkIssue (get attr_dict "fail_name") d
                 (Given (get attr_dict "fail_severity"))
                 (Given (get attr_dict "fail_solution")))
  else
    ret (mkIssue (get attr_dict "pass_name") (get attr_dict "pass_msg")
                 (Given (PSev SEVERITY_LEVEL_DEBUG)) (Given (PStr EmptyString))).

Definition package_files_validate_config_py
    (path_file : string) (attr_dict : gmap string pyval) : M SDKValidateIssue :=
  try_except_SDKException
    (config_str <- reads (fun w => get_configs_from_config_py (files w) path_file) ;;
     if bool_decide (config_str <> EmptyString) then
       (* if config data was found *)
       s <- format (get attr_dict "pass_solution")
              [Py.join (String Py.LF (String Py.TAB (String Py.TAB EmptyString)))
                       (Py.split config_str Py.LF)] ;;
       ret (mkIssue (get attr_dict "pass_name") (get attr_dict "pass_msg")
                    (Given (PSev SEVERITY_LEVEL_DEBUG)) (Given s))
     else
       (* it is allowed to not have any configs, just uncommon *)
       ret (mkIssue (get attr_dict "warn_name") (get attr_dict "warn_msg")
                    (Given (get attr_dict "warn_severity"))
                    (Given (get attr_dict "warn_solution"))))
    (fun e =>
       d <- format (get attr_dict "fail_msg")
              [Py.replace (SDKException_str e) Py.LF " "] ;;
       ret (mkIssue (get attr_dict "fail_name") d
                    (Given (get attr_dict "fail_severity"))
                    (Given (get attr_dict "fail_solution")))).

(** [s.index(sub)] *)
Definition index (s sub : string) : M Z :=
  let i := Py.find s sub in
  if i =? -1 then raise ValueError else ret i.

Definition package_files_validate_customize_py
    (path_file : string) (attr_dict : gmap string pyval) : M SDKValidateIssue :=
  try_except_SDKException
    (import_def <- reads (fun w => get_import_definition_from_customize_py (files w) path_file) ;;
     s <- format (get attr_dict "pass_solution") [import_def] ;;
     ret (mkIssue (get attr_dict "pass_name") (get attr_dict "pass_msg")
                  (Given (PSev SEVERITY_LEVEL_DEBUG)) (Given s)))
    (fun e =>
       (* parse out the exception message from "ERROR" to the end *)
       let message := Py.replace (SDKException_str e) Py.LF " " in
       i <- index message "ERROR" ;;
       let message := Py.slice message (Some i) None in
       d <- format (get attr_dict "fail_msg") [message] ;;
       ret (mkIssue (get attr_dict "fail_name") d
                    (Given (get attr_dict "fail_severity"))
                    (Given (get attr_dict "fail_solution")))).

(** The loop of [package_files_validate_readme] over the screenshot paths. *)
Fixpoint readme_invalid_paths (path_package : string) (paths invalid_paths : list string)
  : M (list string) :=
  match paths with
  | [] => ret invalid_paths
  | path :: rest =>
      invalid_paths <-
        try_except_SDKException
          (reads (fun w => validate_file_paths (files w) (os_path.join path_package path)) ;;;
           ret invalid_paths)
          (fun _ => ret (invalid_paths ++ [path])) ;;
      readme_invalid_paths path_package rest invalid_paths
  end.

Definition placeholder_comment : string :=
  preformat "<!-- {0} -->" [DOCGEN_PLACEHOLDER_STRING].

Definition package_files_validate_readme
    (path_package path_file filename : string) (attr_dict : gmap string pyval)
  : M SDKValidateIssue :=
  (* read the package's file *)
  file_contents <- reads (fun w => read_file (files w) path_file) ;;
  (* render codegen jinja file *)
  codegen_readme_rendered <-
    reads (fun w => setup_env_and_render_jinja_file (files w) PACKAGE_TEMPLATE_PATH filename []) ;;
  let template_contents := Py.splitlines codegen_readme_rendered in
  (* if the package file matches the codegen template, give "fail_msg", etc.. *)
  let comp_ratio := lines_ratio file_contents template_contents in
  if Qeq_bool comp_ratio 1 then
    s <- format (get attr_dict "fail_codegen_solution") [path_package] ;;
    ret (mkIssue (get attr_dict "fail_codegen_name") (get attr_dict "fail_codegen_msg")
                 (Given (get attr_dict "fail_codegen_severity")) (Given s))
  (* if placeholder string is still in the readme *)
  else if existsb (Py.contains placeholder_comment) file_contents then
    d <- format (get attr_dict "fail_placeholder_msg") [DOCGEN_PLACEHOLDER_STRING] ;;
    s <- format (get attr_dict "fail_placeholder_solution") [DOCGEN_PLACEHOLDER_STRING] ;;
    ret (mkIssue (get attr_dict "fail_placeholder_name") d
                 (Given (get attr_dict "fail_placeholder_severity")) (Given s))
  (* check if there are any "TODO"'s remaining *)
  else if existsb (Py.contains "TODO") file_contents then
    ret (mkIssue (get attr_dict "fail_todo_name") (get attr_dict "fail_todo_msg")
                 (Given (get attr_dict "fail_todo_severity"))
                 (Given (get attr_dict "fail_todo_solution")))
  else
    (* gather list of screenshots in the readme file *)
    match parse_file_paths_from_readme file_contents with
    | Raise (SDKException e) =>
        (* if links aren't properly formatted in the readme, they won't pass *)
        let err_msg := Py.replace (SDKException_str e) Py.LF " " in
        i <- index err_msg "ERROR: " ;;
        let err_msg := Py.slice err_msg (Some (i + Py.len "ERROR: ")) None in
        ret (mkIssue (PStr "README.md link syntax error") (PStr err_msg) Omitted Omitted)
    | Raise e => raise e
    | Return screenshot_paths =>
        (* for each gathered path, check if the file path is valid *)
        invalid_paths <- readme_invalid_paths path_package screenshot_paths [] ;;
        match invalid_paths with
        | _ :: _ =>
            d <- format (get attr_dict "fail_screenshots_msg") [Py.str_list invalid_paths] ;;
            ret (mkIssue (get attr_dict "fail_screenshots_name") d
                         (Given (get attr_dict "fail_screenshots_severity"))
                         (Given (get attr_dict "fail_screenshots_solution")))
        | [] =>
            (* the readme passes our checks *)
            ret (mkIssue (get attr_dict "pass_name") (get attr_dict "pass_msg")
                         (Given (PSev SEVERITY_LEVEL_DEBUG))
                         (Given (get attr_dict "pass_solution")))
        end
    end.

End package_files.

(** ** package_file_helpers.py: two parsers used by the setup.py rules *)

Module package_helpers.

(** Modelled from the spec: [get_dependency_from_install_requires]
    ([package_file_helpers.py] is not among the sources).  The spec
    speaks of an [install_requires] list "containing" a spelling of
    the dependency name; the entry found is the first one in which
    the name occurs, and [None] when there is none. *)
Definition get_dependency_from_install_requires
    (install_requires : list string) (dependency_name : string) : option string :=
  List.find (Py.contains dependency_name) install_requires.

(** The longest prefix of decimal digits and what follows it. *)
Fixpoint read_digits (acc : option Z) (s : string) : option Z * string :=
  match s with
  | String c r =>
      match Py.digit c with
      | Some d => read_digits (Some (10 * default 0 acc + Z.of_nat d)) r
      | None => (acc, s)
      end
  | EmptyString => (acc, s)
  end.

Definition bad_python_requires : exn :=
  SDKException "'python_requires' version not given in correct format".

(** Modelled from the spec: [get_required_python_version]
    ([package_file_helpers.py] is not among the sources).  The spec
    gives two cases: a string of the form [>=X.Y] yields the pair
    (X, Y), and any other specifier is a parse error, raised as the
    domain exception. *)
Definition get_required_python_version (python_requires_str : string)
  : result (Z * Z) :=
  match python_requires_str with
  | String ">" (String "=" rest) =>
      match read_digits None rest with
      | (Some x, String "." rest') =>
          match read_digits None rest' with
          | (Some y, EmptyString) => Return (x, y)
          | _ => Raise bad_python_requires
          end
      | _ => Raise bad_python_requires
      end
  | _ => Raise bad_python_requires
  end.

End package_helpers.

(** ** sdk_validate_configs.py: two predicates of the setup.py rules *)

Module setup_py_attributes.

(** ["install_requires"]["fail_func"] *)
Definition install_requires_fail_func (x : list string) : bool :=
  if bool_decide
       (package_helpers.get_dependency_from_install_requires x "resilient_circuits" <> None)
  then false
  else if bool_decide
            (package_helpers.get_dependency_from_install_requires x "resilient-circuits" <> None)
       then false
       else true.

(** [a < b] on pairs of integers, as Python compares tuples. *)
Definition tuple_lt (a b : Z * Z) : bool :=
  (fst a <? fst b) || ((fst a =? fst b) && (snd a <? snd b)).

(** ["python_requires"]["fail_func"] *)
Definition python_requires_fail_func (x : string) : result bool :=
  match package_helpers.get_required_python_version x with
  | Return v => Return (tuple_lt v constants.MIN_SUPPORTED_PY_VERSION)
  | Raise e => Raise e
  end.

End setup_py_attributes.

Example install_requires_underscore :
  setup_py_attributes.install_requires_fail_func ["resilient_circuits>=30.0.0"; "boto3"] = false.
Proof. reflexivity. Qed.

Example install_requires_hyphen :
  setup_py_attributes.install_requires_fail_func ["resilient-circuits>=30.0.0"; "fn-utilities"]
  = false.
Proof. reflexivity. Qed.

Example install_requires_neither :
  setup_py_attributes.install_requires_fail_func ["'only-this-package'"] = true.
Proof. reflexivity. Qed.

Example python_requires_36 :
  setup_py_attributes.python_requires_fail_func ">=3.6" = Return false.
Proof. reflexivity. Qed.

Example python_requires_20 :
  setup_py_attributes.python_requires_fail_func ">=2.0" = Return true.
Proof. reflexivity. Qed.

Example python_requires_lt :
  setup_py_attributes.python_requires_fail_func "<2"
  = Raise package_helpers.bad_python_requires.
Proof. reflexivity. Qed.

Example python_requires_le :
  setup_py_attributes.python_requires_fail_func "<=2.7"
  = Raise package_helpers.bad_python_requires.
Proof. reflexivity. Qed.

(** ** A small implementation of the collaborators

    It serves to run the helpers on concrete inputs.  Versions are one
    number, or nothing when the text does not start with a digit; a
    package [p] is installed when the file [site-packages/p] exists,
    its first line giving the version; the subprocess is a given one. *)

Module demo.

Definition version_of (s : string) : option Z :=
  fst (package_helpers.read_digits None s).

Definition ge (a b : option Z) : bool :=
  match a, b with Some x, Some y => y <=? x | _, _ => false end.

Definition lt (a b : option Z) : bool :=
  match a, b with Some x, Some y => x <? y | _, _ => false end.

Definition site (p : string) : string := "site-packages/" +:+ p.

Definition not_found {A} (p : string) : result A :=
  Raise (SDKException ("Could not find file: " +:+ p)).

Definition lines_of {A} (f : list string -> A) (fs : gmap string (list string))
    (p : string) : result A :=
  match fs !! p with
  | Some l => Return (f l)
  | None => not_found p
  end.

Definition text (l : list string) : string := Py.join EmptyString l.

Definition screenshot (line : string) : option string :=
  if Py.startswith line "!" then Some (Py.strip (Py.drop 1 line)) else None.

(** A [customize.py] whose first line is [corrupt] does not parse; the
    rest of the file is the message of the exception. *)
Definition import_definition (fs : gmap string (list string)) (p : string) : result string :=
  match fs !! p with
  | Some (first :: rest) =>
      if bool_decide (first = "corrupt") then Raise (SDKException (text rest))
      else Return (text (first :: rest))
  | Some [] => Return EmptyString
  | None => not_found p
  end.

Definition eq_ratio {A} `{EqDecision A} (a b : A) : Q :=
  if decide (a = b) then 1%Q else 0%Q.

Definition collaborators (p : Proc) : Collaborators := {|
  Version := option Z;
  parse_version := version_of;
  version_ge := ge;
  version_lt := lt;
  version_str := fun _ => "0";
  get_package_version := fun fs n =>
    match fs !! site n with
    | Some (v :: _) => Some (version_of v)
    | _ => None
    end;
  check_package_installed := fun fs n => bool_decide (is_Some (fs !! site n));
  validate_file_paths := lines_of (fun _ => tt);
  read_file := lines_of id;
  setup_env_and_render_jinja_file := fun fs dir filename _ =>
    lines_of text fs (dir +:+ "/" +:+ filename);
  get_resilient_libraries_version_to_use := fun _ => constants.RESILIENT_LIBRARIES_VERSION;
  get_configs_from_config_py := lines_of text;
  get_import_definition_from_customize_py := import_definition;
  parse_file_paths_from_readme := fun l => Return (omap screenshot l);
  BASE_PERMISSIONS := ["read_data"; "read_function"];
  lines_ratio := eq_ratio;
  str_ratio := eq_ratio;
  colored_unified_diff := fun _ b _ _ => b;
  str_float := fun _ => "0.0";
  Popen := fun _ _ => p;
  SDKException_str := fun m =>
    String Py.LF ("resilient-sdk FAILED" +:+ String Py.LF ("ERROR: " +:+ m))
|}.

Definition world (fs : list (string * list string)) : World :=
  mkWorld ∅ (list_to_map fs) [] [] [].

End demo.

(** * Properties

    ** Facts about the string built-ins *)

Module PyFacts.
Import Py.

Lemma app_empty_r (s : string) : s +:+ EmptyString = s.
Proof. induction s as [|c s IH]; [done|]. cbv [String.append]. fold String.append. by rewrite IH. Qed.

Lemma app_cons c (s t : string) : String c s +:+ t = String c (s +:+ t).
Proof. done. Qed.

Lemma app_nil (t : string) : EmptyString +:+ t = t.
Proof. done. Qed.

Lemma app_assoc (a b c : string) : (a +:+ b) +:+ c = a +:+ b +:+ c.
Proof. induction a as [|x a IH]; [done|]. rewrite !app_cons. by rewrite IH. Qed.

Lemma len_app (a b : string) : len (a +:+ b) = len a + len b.
Proof.
  unfold len. induction a as [|x a IH]; [done|].
  rewrite app_cons. cbn [String.length]. lia.
Qed.

Lemma len_nonneg s : 0 <= len s.
Proof. unfold len. lia. Qed.

Lemma drop_app (a b : string) : drop (String.length a) (a +:+ b) = b.
Proof. induction a as [|x a IH]; [done|]. rewrite app_cons. done. Qed.

Lemma take_app (a b : string) : take (String.length a) (a +:+ b) = a.
Proof. induction a as [|x a IH]; [done|]. rewrite app_cons. cbn. by rewrite IH. Qed.

Lemma take_all (a : string) : take (String.length a) a = a.
Proof. induction a as [|x a IH]; [done|]. cbn. by rewrite IH. Qed.

(** Slices with both bounds inside the string. *)
Lemma slice_middle (a m p : string) :
  slice (a +:+ m +:+ p) (Some (len a)) (Some (len a + len m)) = m.
Proof.
  unfold slice, bound. cbn [from_option].
  rewrite !len_app.
  pose proof (len_nonneg a). pose proof (len_nonneg m). pose proof (len_nonneg p).
  destruct (Z.ltb_spec (len a) 0); [lia|].
  destruct (Z.ltb_spec (len a + len m) 0); [lia|].
  rewrite !Z.min_l by lia.
  replace (len a + len m - len a) with (len m) by lia.
  unfold len. rewrite !Nat2Z.id.
  by rewrite drop_app, take_app.
Qed.

Lemma slice_from (a t : string) : slice (a +:+ t) (Some (len a)) None = t.
Proof.
  unfold slice, bound. cbn [from_option].
  rewrite !len_app.
  pose proof (len_nonneg a). pose proof (len_nonneg t).
  destruct (Z.ltb_spec (len a) 0); [lia|].
  rewrite !Z.min_l by lia.
  replace (len a + len t - len a) with (len t) by lia.
  unfold len. rewrite !Nat2Z.id.
  by rewrite drop_app, take_all.
Qed.

(** [rfind_at] answers -1 or an index from the start index on. *)
Lemma rfind_at_range sub s : forall i, 0 <= i -> rfind_at s sub i = -1 \/ i <= rfind_at s sub i.
Proof.
  induction s as [|c s IH]; intros i Hi; cbn [rfind_at].
  - destruct (startswith _ _); lia.
  - destruct (IH (i + 1)) as [E|E]; [lia| |].
    + rewrite E. change (0 <=? -1) with false. cbv iota.
      destruct (startswith _ _); lia.
    + destruct (Z.leb_spec 0 (rfind_at s sub (i + 1))); lia.
Qed.

Lemma rfind_at_none sub s : forall i j,
  0 <= i -> 0 <= j -> rfind_at s sub i = -1 -> rfind_at s sub j = -1.
Proof.
  induction s as [|c s IH]; intros i j Hi Hj; cbn [rfind_at].
  - destruct (startswith _ _); [lia|done].
  - destruct (rfind_at_range sub s (i + 1)) as [E|E]; [lia| |].
    + rewrite E. rewrite (IH (i + 1) (j + 1)) by (lia || done).
      change (0 <=? -1) with false. cbv iota.
      destruct (startswith _ _); [lia|done].
    + destruct (Z.leb_spec 0 (rfind_at s sub (i + 1))); lia.
Qed.

(** The last occurrence: [sub] starts at the head of [s] and does not
    occur further on. *)
Lemma rfind_at_head sub c s i :
  0 <= i -> startswith (String c s) sub = true -> rfind s sub = -1 ->
  rfind_at (String c s) sub i = i.
Proof.
  intros Hi Hs Hn. cbn [rfind_at].
  rewrite (rfind_at_none sub s 0 (i + 1)) by (lia || done).
  change (0 <=? -1) with false. cbv iota. by rewrite Hs.
Qed.

Lemma rfind_at_app sub a s : forall i,
  0 <= i -> rfind_at s sub (i + len a) = i + len a ->
  rfind_at (a +:+ s) sub i = i + len a.
Proof.
  induction a as [|x a IH]; intros i Hi H.
  - rewrite app_nil. unfold len in *. cbn in *. by rewrite Z.add_0_r in H |- *.
  - rewrite app_cons. cbn [rfind_at].
    assert (len (String x a) = 1 + len a) as E by (unfold len; cbn [String.length]; lia).
    rewrite E in *. pose proof (len_nonneg a).
    replace (i + (1 + len a)) with (i + 1 + len a) in * by lia.
    rewrite (IH (i + 1)) by (lia || done).
    destruct (Z.leb_spec 0 (i + 1 + len a)); lia.
Qed.

Lemma rfind_last sub a c s :
  startswith (String c s) sub = true -> rfind s sub = -1 ->
  rfind (a +:+ String c s) sub = len a.
Proof.
  intros Hs Hn. unfold rfind. pose proof (len_nonneg a).
  rewrite rfind_at_app; [lia|lia|].
  apply rfind_at_head; [lia|done|done].
Qed.

(** [sub] occurs somewhere in [s]. *)
Fixpoint occurs (sub s : string) : bool :=
  startswith s sub
  || match s with
     | EmptyString => false
     | String _ r => occurs sub r
     end.

Lemma find_at_range sub s : forall i, 0 <= i -> find_at s sub i = -1 \/ i <= find_at s sub i.
Proof.
  induction s as [|c s IH]; intros i Hi; cbn [find_at].
  - destruct (startswith _ _); lia.
  - destruct (startswith _ _); [lia|]. destruct (IH (i + 1)); lia.
Qed.

Lemma find_at_none sub s : forall i, 0 <= i -> find_at s sub i = -1 <-> occurs sub s = false.
Proof.
  induction s as [|c s IH]; intros i Hi; cbn [find_at occurs].
  - destruct (startswith _ _); cbn; split; (lia || done).
  - destruct (startswith _ _); cbn [orb]; [split; (lia || done)|].
    apply IH. lia.
Qed.

Lemma rfind_at_none_iff sub s : forall i, 0 <= i -> rfind_at s sub i = -1 <-> occurs sub s = false.
Proof.
  induction s as [|c s IH]; intros i Hi; cbn [rfind_at occurs].
  - destruct (startswith _ _); cbn; split; (lia || done).
  - specialize (IH (i + 1)).
    destruct (rfind_at_range sub s (i + 1)) as [E|E]; [lia| |].
    + rewrite E. change (0 <=? -1) with false. cbv iota.
      assert (occurs sub s = false) as -> by (apply IH; [lia|done]).
      rewrite orb_false_r. destruct (startswith _ _); split; (lia || done).
    + destruct (Z.leb_spec 0 (rfind_at s sub (i + 1))); [|lia].
      destruct (occurs sub s) eqn:Eo.
      * rewrite orb_true_r. split; (lia || done).
      * destruct IH as [_ IH]; [lia|]. specialize (IH eq_refl). lia.
Qed.

Lemma contains_occurs sub s : contains sub s = occurs sub s.
Proof.
  unfold contains, find. destruct (occurs sub s) eqn:E.
  - destruct (Z.eqb_spec (find_at s sub 0) (-1)) as [H|H]; [|done].
    apply find_at_none in H; [congruence|lia].
  - apply (find_at_none sub s 0) in E; [|lia]. by rewrite E.
Qed.

Lemma rfind_none sub s : contains sub s = false -> rfind s sub = -1.
Proof. rewrite contains_occurs. intros H. by apply rfind_at_none_iff. Qed.

Lemma has_char_cons c x s :
  has_char c (String x s) = bool_decide (c = x) || has_char c s.
Proof.
  unfold has_char. rewrite !contains_occurs. cbn [occurs startswith].
  destruct (decide (c = x)) as [->|Hne].
  - rewrite bool_decide_true by done. by destruct s.
  - rewrite bool_decide_false by done. done.
Qed.

Lemma replace_absent c new s : has_char c s = false -> replace s c new = s.
Proof.
  induction s as [|x s IH]; [done|].
  rewrite has_char_cons. intros [H1 H2]%orb_false_elim.
  cbn [replace]. apply bool_decide_eq_false in H1.
  destruct (decide (x = c)) as [->|_]; [done|]. by rewrite IH.
Qed.

Lemma startswith_app sub t : startswith (sub +:+ t) sub = true.
Proof.
  induction sub as [|x sub IH]; [by destruct t|].
  rewrite app_cons. cbn [startswith]. by destruct (decide (x = x)).
Qed.

Lemma startswith_spec s sub : startswith s sub = true <-> exists t, s = sub +:+ t.
Proof.
  split.
  - revert s. induction sub as [|x sub IH]; intros s H.
    + by exists s.
    + destruct s as [|y s]; [done|]. cbn [startswith] in H.
      destruct (decide (x = y)) as [->|]; [|done].
      destruct (IH s H) as [t ->]. by exists t.
  - intros [t ->]. apply startswith_app.
Qed.

(** What [find] answers is the first occurrence. *)
Lemma find_at_found sub s : forall i k,
  find_at s sub i = k -> k <> -1 -> 0 <= i ->
  exists a t, s = a +:+ sub +:+ t /\ k = i + len a
              /\ forall a' t', s = a' +:+ sub +:+ t' -> len a <= len a'.
Proof.
  induction s as [|c s IH]; intros i k Hk Hne Hi; cbn [find_at] in Hk.
  - destruct (startswith EmptyString sub) eqn:E; [|lia].
    apply startswith_spec in E as [t E]. exists EmptyString, t.
    split; [done|]. split; [unfold len; cbn; lia|].
    intros a' t' _. apply len_nonneg.
  - destruct (startswith (String c s) sub) eqn:E.
    + apply startswith_spec in E as [t E]. exists EmptyString, t.
      split; [done|]. split; [unfold len; cbn; lia|].
      intros a' t' _. apply len_nonneg.
    + destruct (IH (i + 1) k Hk Hne) as (a & t & -> & -> & Hmin); [lia|].
      exists (String c a), t. split; [done|].
      split; [unfold len; cbn [String.length]; lia|].
      intros a' t' H. destruct a' as [|x a'].
      * rewrite app_nil in H. rewrite H, startswith_app in E. done.
      * rewrite app_cons in H. injection H as _ H.
        specialize (Hmin a' t' H). unfold len in *. cbn [String.length]. lia.
Qed.
End PyFacts.


(** ** The monad: results and frames *)

Lemma format_PStr (t : string) (args : list string) (s : string) (w : World) :
  Py.format t args = Some s -> format (PStr t) args w = (Return (PStr s), w).
Proof. intros H. unfold format. by rewrite H. Qed.

(** What [v.format(args)] yields when it returns. *)
Definition formatted (v : pyval) (args : list string) (r : pyval) : Prop :=
  exists t s, v = PStr t /\ Py.format t args = Some s /\ r = PStr s.

Lemma format_Return (v : pyval) (args : list string) (w w' : World) (r : pyval) :
  format v args w = (Return r, w') -> formatted v args r /\ w' = w.
Proof.
  unfold format, formatted. destruct v as [|t| |]; try (cbv [raise]; congruence).
  destruct (Py.format t args) as [s|] eqn:E; cbv [ret raise]; [|congruence].
  intros [= <- <-]. eauto 6.
Qed.

Lemma format_world (v : pyval) (args : list string) (w : World) :
  snd (format v args w) = w.
Proof.
  unfold format. destruct v as [|t| |]; try done. by destruct (Py.format t args).
Qed.

(** A computation that leaves the environment, the files and the list
    of launched processes as they are. *)
Definition read_only {A} (m : M A) : Prop :=
  forall w, environ (snd (m w)) = environ w
            /\ files (snd (m w)) = files w
            /\ launched (snd (m w)) = launched w.

Lemma read_only_ret {A} (a : A) : read_only (ret a).
Proof. done. Qed.

Lemma read_only_raise {A} (e : exn) : read_only (raise (A:=A) e).
Proof. done. Qed.

Lemma read_only_gets {A} (f : World -> A) : read_only (gets f).
Proof. done. Qed.

Lemma read_only_reads {A} (f : World -> result A) : read_only (reads f).
Proof. done. Qed.

Lemma read_only_LOG_debug (s : string) : read_only (LOG_debug s).
Proof. done. Qed.

Lemma read_only_format (v : pyval) (args : list string) : read_only (format v args).
Proof. intros w. by rewrite format_world. Qed.

Lemma read_only_bind {A B} (m : M A) (k : A -> M B) :
  read_only m -> (forall a, read_only (k a)) -> read_only (bind m k).
Proof.
  intros Hm Hk w. unfold bind. specialize (Hm w).
  destruct (m w) as [[a|e] w1]; cbn [snd] in *.
  - destruct (Hk a w1) as (-> & -> & ->). done.
  - done.
Qed.

Lemma read_only_try {A} (m : M A) (h : string -> M A) :
  read_only m -> (forall e, read_only (h e)) -> read_only (try_except_SDKException m h).
Proof.
  intros Hm Hh w. unfold try_except_SDKException. specialize (Hm w).
  destruct (m w) as [[a|[msg| | |]] w1]; cbn [snd] in *; try done.
  destruct (Hh msg w1) as (-> & -> & ->). done.
Qed.

Create HintDb frame.
#[local] Hint Resolve read_only_ret read_only_raise read_only_gets read_only_reads
  read_only_LOG_debug read_only_format : frame.

Ltac frame_step :=
  first
    [ apply read_only_bind; [|intros ?]
    | apply read_only_try; [|intros ?]
    | solve [auto with frame]
    | match goal with
      | |- read_only (match ?x with _ => _ end) => destruct x
      | |- read_only (if ?b then _ else _) => destruct b
      end ].

Ltac frame := repeat frame_step.

(** Case analysis over a helper that has been unfolded. *)
Ltac destruct_call :=
  match goal with
  | |- context [format ?v ?a ?w0] => destruct (format v a w0) as [[?|?] ?]
  | |- context [validate_file_paths ?a ?b] => destruct (validate_file_paths a b)
  | |- context [read_file ?a ?b] => destruct (read_file a b)
  | |- context [setup_env_and_render_jinja_file ?a ?b ?c ?d] =>
      destruct (setup_env_and_render_jinja_file a b c d)
  | |- context [get_configs_from_config_py ?a ?b] => destruct (get_configs_from_config_py a b)
  | |- context [get_import_definition_from_customize_py ?a ?b] =>
      destruct (get_import_definition_from_customize_py a b)
  | |- context [parse_file_paths_from_readme ?a] => destruct (parse_file_paths_from_readme a)
  | |- context [get_package_version ?a ?b] => destruct (get_package_version a b)
  | |- context [check_package_installed ?a ?b] => destruct (check_package_installed a b)
  end.

Ltac destruct_format :=
  match goal with
  | |- context [format ?v ?a ?w0] => destruct (format v a w0) as [[?|?] ?] eqn:?
  end.

(** The innermost scrutinee first. *)
Ltac destruct_inner :=
  match goal with
  | |- context [match ?x with _ => _ end] =>
      lazymatch x with
      | context [match _ with _ => _ end] => fail
      | _ => destruct x
      end
  end.

(** The same, keeping what [format] returned. *)
Ltac destruct_shapes :=
  repeat (first [destruct_format | destruct_call | progress cbv beta iota | destruct_inner]).

Ltac destruct_head :=
  repeat (first [destruct_call | progress cbv beta iota | destruct_inner]).

(** ** The selftest helpers *)

Section selftest_facts.
Context `{C : Collaborators}.
Import constants sdk_validate_configs.

(** What the waiting bar writes during [n] turns, starting at bar [i]. *)
Fixpoint waiting_output (n i : nat) : list string :=
  match n with
  | O => []
  | S n' =>
      String Py.CR EmptyString
      :: preformat "Running selftest... {0}       " [default EmptyString (waiting_bar !! i)]
      :: waiting_output n' ((i + 1) mod length waiting_bar)%nat
  end.

Lemma waiting_loop_eq (n : nat) : forall i w,
  waiting_loop n i w
  = (Return tt, mkWorld (environ w) (files w) (stdout w ++ waiting_output n i)
                        (debug_log w) (launched w)).
Proof.
  induction n as [|n IH]; intros i w.
  - simpl. unfold ret. rewrite app_nil_r. by destruct w.
  - cbn [waiting_loop waiting_output]. cbv [bind stdout_write modify].
    rewrite IH. cbn [environ files stdout debug_log launched].
    by rewrite <- !app_assoc.
Qed.

(** The command line, the environment of the launch and the process
    that [selftest_run_selftestpy] waits for. *)
Definition selftest_cmd (package_name : string) : list string :=
  ["resilient-circuits"; "selftest"; "-l"; Py.replace package_name "_" "-"].

Definition launch_env (w : World) (path_app_config : option string) : gmap string string :=
  <[ENV_VAR_APP_CONFIG_FILE := default EmptyString path_app_config]> (environ w).

Definition selftest_proc (w : World) (package_name : string)
    (path_app_config : option string) : Proc :=
  Popen (selftest_cmd package_name) (launch_env w path_app_config).

Ltac run_steps w package_name kw :=
  unfold selftest_run_selftestpy;
  cbv [bind LOG_debug setenv popen modify stdout_write];
  cbn [environ files stdout debug_log launched];
  rewrite waiting_loop_eq;
  cbn [environ files stdout debug_log launched];
  fold (selftest_cmd package_name); fold (launch_env w kw);
  fold (selftest_proc w package_name kw).

Lemma selftest_run_world attr package_name kw w :
  snd (selftest_run_selftestpy attr package_name kw w)
  = mkWorld
      (<[ENV_VAR_APP_CONFIG_FILE := EmptyString]> (launch_env w kw))
      (files w)
      ((stdout w ++ waiting_output (polls (selftest_proc w package_name kw)) 0)
         ++ [String Py.CR EmptyString] ++ [nl "selftest run complete"])
      ((debug_log w
          ++ [nl (String Py.LF "Setting $APP_CONFIG_FILE to '"
                  +:+ default EmptyString kw +:+ "'")])
         ++ [proc_stderr (selftest_proc w package_name kw)])
      (launched w ++ [(selftest_cmd package_name, launch_env w kw)]).
Proof.
  run_steps w package_name kw.
  repeat match goal with
         | |- context [if ?b then _ else _] => destruct b
         end;
    cbv [bind ret raise];
    repeat match goal with
           | |- context [format ?v ?a ?w0] =>
               let H := fresh in
               pose proof (format_world v a w0) as H;
               destruct (format v a w0) as [[?|?] ?]; cbn [snd] in H; subst
           end;
    cbn [snd]; rewrite <- ?app_assoc; reflexivity.
Qed.

(** C8. An outcome outside the documented ones is raised as an
    [SDKException]: [selftest_run_selftestpy] raises for every exit code
    that is not 0, not 1 and not above 1, and
    [selftest_validate_resilient_circuits_installed] raises when a
    version is found that is neither at least nor below the minimum. *)
Theorem unknown_outcomes_raise :
  (forall attr_dict package_name kw w,
      let rc := returncode (selftest_proc w package_name kw) in
      rc <> 0 -> rc <> 1 -> ~ rc > 1 ->
      fst (selftest_run_selftestpy attr_dict package_name kw w)
      = Raise (SDKException
                 (preformat "Unknown error while running '{0}'"
                    [Py.join " " (selftest_cmd package_name)])))
  /\ (forall attr_dict w v,
        get_package_version (files w) CIRCUITS_PACKAGE_NAME = Some v ->
        version_ge v (parse_version RESILIENT_LIBRARIES_VERSION) = false ->
        version_lt v (parse_version RESILIENT_LIBRARIES_VERSION) = false ->
        fst (selftest_validate_resilient_circuits_installed attr_dict w)
        = Raise (SDKException "Unknown error while checking for resilient-circuits")).
Proof.
  split.
  - intros attr_dict package_name kw w rc H0 H1 H2. subst rc.
    run_steps w package_name kw.
    destruct (Z.eqb_spec (returncode (selftest_proc w package_name kw)) 1); [done|].
    destruct (Z.gtb_spec (returncode (selftest_proc w package_name kw)) 1); [lia|].
    destruct (Z.eqb_spec (returncode (selftest_proc w package_name kw)) 0); [done|].
    reflexivity.
  - intros attr_dict w v Hv Hge Hlt.
    unfold selftest_validate_resilient_circuits_installed.
    cbv [bind LOG_debug gets modify]. cbn [environ files stdout debug_log launched].
    rewrite Hv, Hge, Hlt. reflexivity.
Qed.

Lemma read_only_readme_invalid_paths (path_package : string) (paths : list string) :
  forall invalid_paths, read_only (readme_invalid_paths path_package paths invalid_paths).
Proof.
  induction paths as [|p ps IH]; intros invalid_paths; cbn [readme_invalid_paths]; frame.
Qed.

#[local] Hint Resolve read_only_readme_invalid_paths : frame.

(** C9. [selftest_run_selftestpy] launches the subprocess under the
    environment in which APP_CONFIG_FILE is the given path (the empty
    string when there is none), leaves the variable at the empty string,
    every other variable as it was, and the files as they were; the
    other helpers change neither the environment nor the files. *)
Theorem selftest_run_frame :
  (forall attr_dict package_name kw w,
      let w' := snd (selftest_run_selftestpy attr_dict package_name kw w) in
      launched w'
      = launched w
          ++ [(selftest_cmd package_name,
               <[ENV_VAR_APP_CONFIG_FILE := default EmptyString kw]> (environ w))]
      /\ environ w' = <[ENV_VAR_APP_CONFIG_FILE := EmptyString]> (environ w)
      /\ files w' = files w)
  /\ (forall attr_dict, read_only (selftest_validate_resilient_circuits_installed attr_dict))
  /\ (forall attr_dict package_name path_package,
        read_only (selftest_validate_package_installed attr_dict package_name path_package))
  /\ (forall attr_dict path,
        read_only (selftest_validate_selftestpy_file_exists attr_dict path))
  /\ (forall package_name path_file filename attr_dict,
        read_only (package_files_manifest package_name path_file filename attr_dict))
  /\ (forall path_file attr_dict, read_only (package_files_apikey_pem path_file attr_dict))
  /\ (forall package_name package_version path_file filename attr_dict,
        read_only (package_files_template_match package_name package_version path_file
                     filename attr_dict))
  /\ (forall path_file attr_dict,
        read_only (package_files_validate_config_py path_file attr_dict))
  /\ (forall path_file attr_dict,
        read_only (package_files_validate_customize_py path_file attr_dict))
  /\ (forall path_package path_file filename attr_dict,
        read_only (package_files_validate_readme path_package path_file filename attr_dict)).
Proof.
  repeat apply conj.
  - intros attr_dict package_name kw w w'. subst w'.
    rewrite selftest_run_world. cbn [environ files launched].
    unfold launch_env. by rewrite insert_insert_eq.
  - intros. unfold selftest_validate_resilient_circuits_installed. frame.
  - intros. unfold selftest_validate_package_installed. frame.
  - intros. unfold selftest_validate_selftestpy_file_exists. frame.
  - intros. unfold package_files_manifest. frame.
  - intros. unfold package_files_apikey_pem. frame.
  - intros. unfold package_files_template_match. frame.
  - intros. unfold package_files_validate_config_py. frame.
  - intros. unfold package_files_validate_customize_py, index. frame.
  - intros. unfold package_files_validate_readme, index. frame.
Qed.

(** The verdict of a selftest helper agrees with its issue: success
    goes with the DEBUG level, and a failure carries the severity that
    the rule configures, which is CRITICAL. *)
Definition success_iff_debug (attr_dict : gmap string pyval)
    (r : result (bool * SDKValidateIssue)) : Prop :=
  forall b i,
    r = Return (b, i) ->
    (b = true <-> severity i = Given (PSev SEVERITY_LEVEL_DEBUG))
    /\ (b = false ->
        exists key, severity i = Given (get attr_dict key)
                    /\ get attr_dict key = PSev SEVERITY_LEVEL_CRITICAL).

Lemma configured_severities :
  get selftest_attributes_0 "severity" = PSev SEVERITY_LEVEL_CRITICAL
  /\ get selftest_attributes_1 "severity" = PSev SEVERITY_LEVEL_CRITICAL
  /\ get selftest_attributes_2 "severity" = PSev SEVERITY_LEVEL_CRITICAL
  /\ get selftest_attributes_3 "fail_severity" = PSev SEVERITY_LEVEL_CRITICAL
  /\ get selftest_attributes_3 "error_severity" = PSev SEVERITY_LEVEL_CRITICAL
  /\ get selftest_attributes_3 "missing_severity" = PSev SEVERITY_LEVEL_CRITICAL.
Proof. repeat apply conj; vm_compute; reflexivity. Qed.

Ltac settle_verdict key :=
  let Hb := fresh "Hb" in
  destruct configured_severities as (? & ? & ? & ? & ? & ?);
  cbv [ret raise]; cbn [fst]; intros b i [= <- <-]; cbn [severity];
  (split; [split; (congruence || done)
          |intros Hb; first [discriminate Hb|exists key; split; [reflexivity|done]]]).

(** C10. Each of the four selftest helpers, run on its rule of
    [selftest_attributes], returns a pair whose success flag is true
    exactly when the issue has the DEBUG level, and whose issue, when the
    flag is false, has the severity configured by the rule, CRITICAL. *)
Theorem selftest_success_iff_debug :
  (forall w,
      success_iff_debug selftest_attributes_0
        (fst (selftest_validate_resilient_circuits_installed selftest_attributes_0 w)))
  /\ (forall package_name path_package w,
        success_iff_debug selftest_attributes_1
          (fst (selftest_validate_package_installed selftest_attributes_1
                  package_name path_package w)))
  /\ (forall path w,
        success_iff_debug selftest_attributes_2
          (fst (selftest_validate_selftestpy_file_exists selftest_attributes_2 path w)))
  /\ (forall package_name kw w,
        success_iff_debug selftest_attributes_3
          (fst (selftest_run_selftestpy selftest_attributes_3 package_name kw w))).
Proof.
  unfold success_iff_debug. repeat apply conj.
  - intros w. unfold selftest_validate_resilient_circuits_installed.
    cbv [bind LOG_debug gets modify]. cbn [environ files stdout debug_log launched].
    destruct_head; try (cbv [raise]; cbn [fst]; intros b i Hr; discriminate Hr);
      settle_verdict "severity".
  - intros package_name path_package w. unfold selftest_validate_package_installed.
    cbv [bind LOG_debug gets modify]. cbn [environ files stdout debug_log launched].
    destruct_head; try (cbv [raise]; cbn [fst]; intros b i Hr; discriminate Hr);
      settle_verdict "severity".
  - intros path w. unfold selftest_validate_selftestpy_file_exists.
    cbv [bind LOG_debug reads modify try_except_SDKException ret raise].
    cbn [environ files stdout debug_log launched].
    destruct_head; try (cbv [raise]; cbn [fst]; intros b i Hr; discriminate Hr);
      settle_verdict "severity".
  - intros package_name kw w. run_steps w package_name kw.
    destruct (returncode (selftest_proc w package_name kw) =? 1);
      [|destruct (returncode (selftest_proc w package_name kw) >? 1);
        [|destruct (returncode (selftest_proc w package_name kw) =? 0);
          [destruct (negb _)|]]];
      cbv [bind]; destruct_head;
      try (cbv [raise]; cbn [fst]; intros b i Hr; discriminate Hr).
    + settle_verdict "fail_severity".
    + settle_verdict "error_severity".
    + settle_verdict "missing_severity".
    + settle_verdict "fail_severity".
Qed.

(** The run-selftest rule as [get] reads it. *)
Lemma rule_3 :
  get selftest_attributes_3 "fail_name" = PStr "selftest.py failed"
  /\ get selftest_attributes_3 "fail_msg" = PStr "selftest.py failed  for {0}. Details: {1}"
  /\ get selftest_attributes_3 "fail_solution"
     = PStr "Please check your configuration values and make sure selftest.py is properly implemented"
  /\ get selftest_attributes_3 "missing_name" = PStr "selftest.py not implemented"
  /\ get selftest_attributes_3 "missing_msg" = PStr "selftest.py not implemented for {0}"
  /\ get selftest_attributes_3 "missing_solution"
     = PStr "selftest.py is a recommended check that should be implemented. More info <TODO: LINK>"
  /\ get selftest_attributes_3 "error_name" = PStr "selftest.py failed"
  /\ get selftest_attributes_3 "error_msg"
     = PStr "While running selftest.py, 'resilient-circuits' failed to connect to server. Details: {0}"
  /\ get selftest_attributes_3 "pass_name" = PStr "selftest.py success"
  /\ get selftest_attributes_3 "pass_msg" = PStr "selftest.py successfully ran for '{0}'".
Proof. repeat apply conj; vm_compute; reflexivity. Qed.

Ltac format_eq := unfold Py.format; simpl; rewrite ?PyFacts.app_empty_r; reflexivity.

Lemma format_fail_msg (package_name details : string) :
  Py.format "selftest.py failed  for {0}. Details: {1}" [package_name; details]
  = Some ("selftest.py failed  for " +:+ package_name +:+ ". Details: " +:+ details).
Proof. format_eq. Qed.

Lemma format_missing_msg (package_name : string) :
  Py.format "selftest.py not implemented for {0}" [package_name]
  = Some ("selftest.py not implemented for " +:+ package_name).
Proof. format_eq. Qed.

Lemma format_error_msg (details : string) :
  Py.format
    "While running selftest.py, 'resilient-circuits' failed to connect to server. Details: {0}"
    [details]
  = Some ("While running selftest.py, 'resilient-circuits' failed to connect to server. Details: "
          +:+ details).
Proof. format_eq. Qed.

Lemma format_pass_msg (package_name : string) :
  Py.format "selftest.py successfully ran for '{0}'" [package_name]
  = Some ("selftest.py successfully ran for '" +:+ package_name +:+ "'").
Proof. format_eq. Qed.

Lemma clean_id (t : string) :
  Py.strip t = t -> Py.has_char Py.LF t = false -> Py.has_char Py.TAB t = false ->
  clean t = t.
Proof.
  intros Hs Hl Ht. unfold clean. rewrite Hs.
  rewrite (PyFacts.replace_absent Py.LF) by done.
  by rewrite (PyFacts.replace_absent Py.TAB).
Qed.

Lemma failure_details_between (a m p : string) :
  Py.has_char "{" (m +:+ "}" +:+ p) = false -> Py.has_char "}" p = false ->
  failure_details (a +:+ "{" +:+ m +:+ "}" +:+ p) = clean m.
Proof.
  intros Hopen Hclose. unfold failure_details. f_equal.
  assert (Py.rfind (a +:+ "{" +:+ m +:+ "}" +:+ p) "{" = Py.len a) as ->.
  { apply (PyFacts.rfind_last "{" a "{" (m +:+ "}" +:+ p)).
    - apply (PyFacts.startswith_app "{").
    - by apply PyFacts.rfind_none. }
  assert (Py.rfind (a +:+ "{" +:+ m +:+ "}" +:+ p) "}" = Py.len (a +:+ "{" +:+ m)) as ->.
  { replace (a +:+ "{" +:+ m +:+ "}" +:+ p) with ((a +:+ "{" +:+ m) +:+ "}" +:+ p)
      by (by rewrite !PyFacts.app_assoc).
    apply (PyFacts.rfind_last "}" (a +:+ "{" +:+ m) "}" p).
    - apply (PyFacts.startswith_app "}").
    - by apply PyFacts.rfind_none. }
  replace (a +:+ "{" +:+ m +:+ "}" +:+ p) with ((a +:+ "{") +:+ m +:+ "}" +:+ p)
    by (by rewrite !PyFacts.app_assoc).
  replace (Py.len a + 1) with (Py.len (a +:+ "{"))
    by (rewrite PyFacts.len_app; reflexivity).
  replace (Py.len (a +:+ "{" +:+ m)) with (Py.len (a +:+ "{") + Py.len m)
    by (rewrite <- PyFacts.app_assoc, (PyFacts.len_app (a +:+ "{") m); reflexivity).
  apply PyFacts.slice_middle.
Qed.

Lemma error_details_from (a t : string) :
  Py.contains "ERROR" ("RROR" +:+ t) = false ->
  error_details (a +:+ "ERROR" +:+ t) = clean ("ERROR" +:+ t).
Proof.
  intros Hlast. unfold error_details. f_equal.
  assert (Py.rfind (a +:+ "ERROR" +:+ t) "ERROR" = Py.len a) as ->.
  { apply (PyFacts.rfind_last "ERROR" a "E" ("RROR" +:+ t)).
    - apply (PyFacts.startswith_app "ERROR").
    - by apply PyFacts.rfind_none. }
  apply PyFacts.slice_from.
Qed.

(** C2, as amended.  With the run-selftest rule of the catalogue:
    exit code 1 gives (False, CRITICAL) whose description embeds the
    text cut between the last opening and the last closing brace of
    stderr; exit code 0 gives (False, CRITICAL "not implemented") when
    stderr contains ['state': 'unimplemented'], and (True, DEBUG)
    otherwise; an exit code above 1 gives (False, CRITICAL) whose
    description embeds stderr from the last ERROR on.  In both embedded
    texts surrounding white space is stripped, a newline becomes a full
    stop and a space, and a tab becomes a space; a text with none of
    these is embedded as it is. *)
Theorem selftest_run_classification :
  (forall package_name kw w,
      let proc := selftest_proc w package_name kw in
      let details := proc_stderr proc in
      let outcome := fst (selftest_run_selftestpy selftest_attributes_3 package_name kw w) in
      (returncode proc = 1 ->
       outcome
       = Return (false,
                 mkIssue (PStr "selftest.py failed")
                   (PStr ("selftest.py failed  for " +:+ package_name +:+ ". Details: "
                          +:+ failure_details details))
                   (Given (PSev SEVERITY_LEVEL_CRITICAL))
                   (Given (PStr "Please check your configuration values and make sure selftest.py is properly implemented"))))
      /\ (returncode proc = 0 ->
          Py.contains "'state': 'unimplemented'" details = true ->
          outcome
          = Return (false,
                    mkIssue (PStr "selftest.py not implemented")
                      (PStr ("selftest.py not implemented for " +:+ package_name))
                      (Given (PSev SEVERITY_LEVEL_CRITICAL))
                      (Given (PStr "selftest.py is a recommended check that should be implemented. More info <TODO: LINK>"))))
      /\ (returncode proc = 0 ->
          Py.contains "'state': 'unimplemented'" details = false ->
          outcome
          = Return (true,
                    mkIssue (PStr "selftest.py success")
                      (PStr ("selftest.py successfully ran for '" +:+ package_name +:+ "'"))
                      (Given (PSev SEVERITY_LEVEL_DEBUG))
                      (Given (PStr EmptyString))))
      /\ (returncode proc > 1 ->
          outcome
          = Return (false,
                    mkIssue (PStr "selftest.py failed")
                      (PStr ("While running selftest.py, 'resilient-circuits' failed to connect to server. Details: "
                             +:+ error_details details))
                      (Given (PSev SEVERITY_LEVEL_CRITICAL))
                      Omitted)))
  /\ (forall a m p,
        Py.has_char "{" (m +:+ "}" +:+ p) = false -> Py.has_char "}" p = false ->
        failure_details (a +:+ "{" +:+ m +:+ "}" +:+ p) = clean m)
  /\ (forall a t,
        Py.contains "ERROR" ("RROR" +:+ t) = false ->
        error_details (a +:+ "ERROR" +:+ t) = clean ("ERROR" +:+ t))
  /\ (forall t,
        Py.strip t = t -> Py.has_char Py.LF t = false -> Py.has_char Py.TAB t = false ->
        clean t = t).
Proof.
  split; [|split; [exact failure_details_between|split; [exact error_details_from|exact clean_id]]].
  intros package_name kw w proc details outcome. subst outcome details proc.
  destruct rule_3 as (E1 & E2 & E3 & E4 & E5 & E6 & E7 & E8 & E9 & E10).
  destruct configured_severities as (_ & _ & _ & S1 & S2 & S3).
  run_steps w package_name kw.
  rewrite E1, E2, E3, E4, E5, E6, E7, E8, E9, E10, S1, S2, S3.
  unfold Py.contains.
  repeat apply conj.
  - intros ->. cbn [Z.eqb Pos.eqb]. cbv [bind].
    rewrite (format_PStr _ _ _ _ (format_fail_msg _ _)). reflexivity.
  - intros -> ->. cbn [Z.eqb Z.gtb Z.compare]. cbv [bind].
    rewrite (format_PStr _ _ _ _ (format_missing_msg _)). reflexivity.
  - intros -> ->. cbn [Z.eqb Z.gtb Z.compare]. cbv [bind].
    rewrite (format_PStr _ _ _ _ (format_pass_msg _)). reflexivity.
  - intros H.
    destruct (Z.eqb_spec (returncode (selftest_proc w package_name kw)) 1); [lia|].
    destruct (Z.gtb_spec (returncode (selftest_proc w package_name kw)) 1); [|lia].
    cbv [bind].
    rewrite (format_PStr _ _ _ _ (format_error_msg _)). reflexivity.
Qed.

End selftest_facts.

(** ** The selftest helpers on concrete runs *)

Section selftest_runs.
Import sdk_validate_configs.

(** The subprocess of the unit tests: a failure with its reason, a
    connection error, a success, and a selftest that is not
    implemented. *)
Definition failed_run : Proc :=
  mkProc 2 1
    "failure {'state': 'failure', 'reason': 'failed for test reasons'} and more text here...".

Definition connection_error_run : Proc :=
  mkProc 2 20 "ERROR: (fake) issue connecting to SOAR".

Definition success_run : Proc := mkProc 0 0 "Success".

Definition unimplemented_run : Proc :=
  mkProc 1 0 "fn_demo: {'state': 'unimplemented'}".

Definition killed_run : Proc := mkProc 3 (-9) EmptyString.

Definition run_on (p : Proc) : result (bool * SDKValidateIssue) :=
  fst (selftest_run_selftestpy (C := demo.collaborators p) selftest_attributes_3
         "fake_package_name" None (demo.world [])).

Definition circuits_world (version : string) : World :=
  demo.world [("site-packages/resilient-circuits", [version])].

Lemma unknown_outcomes_raise_witness :
  run_on killed_run
  = Raise (SDKException
             "Unknown error while running 'resilient-circuits selftest -l fake-package-name'")
  /\ fst (selftest_validate_resilient_circuits_installed
            (C := demo.collaborators killed_run) selftest_attributes_0
            (circuits_world "unknown"))
     = Raise (SDKException "Unknown error while checking for resilient-circuits").
Proof.
  split.
  - apply (proj1 (unknown_outcomes_raise (C := demo.collaborators killed_run))
             selftest_attributes_3 "fake_package_name" None (demo.world []));
      vm_compute; intros H; discriminate H.
  - apply (proj2 (unknown_outcomes_raise (C := demo.collaborators killed_run))
             selftest_attributes_0 (circuits_world "unknown") None);
      vm_compute; reflexivity.
Defined.

Lemma selftest_success_iff_debug_witness :
  (exists b i,
      fst (selftest_validate_resilient_circuits_installed
             (C := demo.collaborators killed_run) selftest_attributes_0 (circuits_world "42"))
      = Return (b, i)
      /\ b = false /\ severity i = Given (PSev SEVERITY_LEVEL_CRITICAL))
  /\ (exists b i,
        fst (selftest_validate_package_installed
               (C := demo.collaborators killed_run) selftest_attributes_1
               "fn_demo" "path/to/fn_demo" (demo.world []))
        = Return (b, i)
        /\ b = false /\ severity i = Given (PSev SEVERITY_LEVEL_CRITICAL))
  /\ (exists b i,
        fst (selftest_validate_selftestpy_file_exists
               (C := demo.collaborators killed_run) selftest_attributes_2
               "fn_demo/util/selftest.py" (demo.world [("fn_demo/util/selftest.py", [])]))
        = Return (b, i)
        /\ b = true /\ severity i = Given (PSev SEVERITY_LEVEL_DEBUG))
  /\ (exists b i,
        run_on failed_run = Return (b, i)
        /\ b = false /\ severity i = Given (PSev SEVERITY_LEVEL_CRITICAL)).
Proof.
  pose proof (selftest_success_iff_debug (C := demo.collaborators killed_run))
    as (H0 & H1 & H2 & _).
  pose proof (selftest_success_iff_debug (C := demo.collaborators failed_run))
    as (_ & _ & _ & H3).
  repeat apply conj.
  - eexists _, _. split; [vm_compute; reflexivity|].
    split; [reflexivity|].
    destruct (H0 (circuits_world "42") false _ eq_refl) as [_ Hs].
    destruct (Hs eq_refl) as (key & E1 & E2). rewrite E2 in E1. exact E1.
  - eexists _, _. split; [vm_compute; reflexivity|].
    split; [reflexivity|].
    destruct (H1 "fn_demo" "path/to/fn_demo" (demo.world []) false _ eq_refl) as [_ Hs].
    destruct (Hs eq_refl) as (key & E1 & E2). rewrite E2 in E1. exact E1.
  - eexists _, _. split; [vm_compute; reflexivity|].
    split; [reflexivity|].
    destruct (H2 "fn_demo/util/selftest.py" (demo.world [("fn_demo/util/selftest.py", [])])
                true _ eq_refl) as [Hs _].
    apply Hs. reflexivity.
  - eexists _, _. split; [vm_compute; reflexivity|].
    split; [reflexivity|].
    destruct (H3 "fake_package_name" None (demo.world []) false _ eq_refl) as [_ Hs].
    destruct (Hs eq_refl) as (key & E1 & E2). rewrite E2 in E1. exact E1.
Defined.

(** C2 as stated fails.  After a connection error whose text has a
    newline the description does not contain that text as it was, and a
    stderr that only has the word [unimplemented] passes. *)
Lemma selftest_run_claim_fails :
  let original := "ERROR: line one" +:+ String Py.LF "line two" in
  (exists d,
      run_on (mkProc 0 2 original)
      = Return (false,
                mkIssue (PStr "selftest.py failed") (PStr d)
                  (Given (PSev SEVERITY_LEVEL_CRITICAL)) Omitted)
      /\ Py.slice original (Some (Py.rfind original "ERROR")) None = original
      /\ Py.contains original d = false)
  /\ (exists i,
        Py.contains "unimplemented" "selftest: unimplemented" = true
        /\ run_on (mkProc 0 0 "selftest: unimplemented") = Return (true, i)
        /\ severity i = Given (PSev SEVERITY_LEVEL_DEBUG)).
Proof.
  split.
  - eexists. split; [vm_compute; reflexivity|]. split; vm_compute; reflexivity.
  - eexists. split; [vm_compute; reflexivity|]. split; vm_compute; reflexivity.
Qed.

Lemma selftest_run_classification_witness :
  run_on failed_run
  = Return (false,
            mkIssue (PStr "selftest.py failed")
              (PStr "selftest.py failed  for fake_package_name. Details: 'state': 'failure', 'reason': 'failed for test reasons'")
              (Given (PSev SEVERITY_LEVEL_CRITICAL))
              (Given (PStr "Please check your configuration values and make sure selftest.py is properly implemented")))
  /\ run_on unimplemented_run
     = Return (false,
               mkIssue (PStr "selftest.py not implemented")
                 (PStr "selftest.py not implemented for fake_package_name")
                 (Given (PSev SEVERITY_LEVEL_CRITICAL))
                 (Given (PStr "selftest.py is a recommended check that should be implemented. More info <TODO: LINK>")))
  /\ run_on success_run
     = Return (true,
               mkIssue (PStr "selftest.py success")
                 (PStr "selftest.py successfully ran for 'fake_package_name'")
                 (Given (PSev SEVERITY_LEVEL_DEBUG)) (Given (PStr EmptyString)))
  /\ run_on connection_error_run
     = Return (false,
               mkIssue (PStr "selftest.py failed")
                 (PStr "While running selftest.py, 'resilient-circuits' failed to connect to server. Details: ERROR: (fake) issue connecting to SOAR")
                 (Given (PSev SEVERITY_LEVEL_CRITICAL)) Omitted)
  /\ failure_details ("failure " +:+ "{" +:+ "'reason': 'none'" +:+ "}" +:+ " and more")
     = clean "'reason': 'none'"
  /\ error_details ("INFO: starting. " +:+ "ERROR" +:+ ": no route to host")
     = clean ("ERROR" +:+ ": no route to host")
  /\ clean "ERROR: no route to host" = "ERROR: no route to host".
Proof.
  repeat apply conj.
  - apply (proj1 (selftest_run_classification (C := demo.collaborators failed_run))
             "fake_package_name" None (demo.world [])).
    vm_compute; reflexivity.
  - apply (proj1 (selftest_run_classification (C := demo.collaborators unimplemented_run))
             "fake_package_name" None (demo.world []));
      vm_compute; reflexivity.
  - apply (proj1 (selftest_run_classification (C := demo.collaborators success_run))
             "fake_package_name" None (demo.world []));
      vm_compute; reflexivity.
  - apply (proj1 (selftest_run_classification (C := demo.collaborators connection_error_run))
             "fake_package_name" None (demo.world [])).
    vm_compute; reflexivity.
  - apply (proj1 (proj2 (selftest_run_classification (C := demo.collaborators success_run))));
      vm_compute; reflexivity.
  - apply (proj1 (proj2 (proj2
             (selftest_run_classification (C := demo.collaborators success_run)))));
      vm_compute; reflexivity.
  - apply (proj2 (proj2 (proj2
             (selftest_run_classification (C := demo.collaborators success_run)))));
      vm_compute; reflexivity.
Defined.

End selftest_runs.

(** ** The setup.py predicates *)

Section setup_py_facts.
Import package_helpers setup_py_attributes.

Lemma find_is_Some {A} (f : A -> bool) (l : list A) :
  List.find f l <> None <-> exists d, d ∈ l /\ f d = true.
Proof.
  induction l as [|x l IH]; cbn [List.find].
  - split; [done|]. intros (d & Hd & _). by apply elem_of_nil in Hd.
  - destruct (f x) eqn:E.
    + split; [|done]. intros _. exists x. split; [apply list_elem_of_here|done].
    + rewrite IH. split.
      * intros (d & Hd & Hf). exists d. split; [by apply list_elem_of_further|done].
      * intros (d & Hd & Hf). apply elem_of_cons in Hd as [->|Hd]; [congruence|].
        by exists d.
Qed.

(** C7. The [install_requires] predicate answers false when an entry
    of the list has the dependency under the spelling with an
    underscore or under the one with a hyphen, and true when no entry
    has either. *)
Theorem install_requires_fail_func_spec (x : list string) :
  ((exists d, d ∈ x /\ (Py.contains "resilient_circuits" d = true
                        \/ Py.contains "resilient-circuits" d = true)) ->
   install_requires_fail_func x = false)
  /\ ((forall d, d ∈ x -> Py.contains "resilient_circuits" d = false
                         /\ Py.contains "resilient-circuits" d = false) ->
      install_requires_fail_func x = true).
Proof.
  unfold install_requires_fail_func, get_dependency_from_install_requires.
  split.
  - intros (d & Hd & [H|H]).
    + rewrite bool_decide_true; [done|]. apply find_is_Some. eauto.
    + destruct (bool_decide _); [done|].
      rewrite bool_decide_true; [done|]. apply find_is_Some. eauto.
  - intros H.
    rewrite bool_decide_false.
    + rewrite bool_decide_false; [done|].
      intros (d & Hd & Hf)%find_is_Some. destruct (H d Hd). congruence.
    + intros (d & Hd & Hf)%find_is_Some. destruct (H d Hd). congruence.
Qed.

Lemma install_requires_fail_func_spec_witness :
  install_requires_fail_func ["resilient-circuits>=30.0.0"; "fn-utilities"] = false
  /\ install_requires_fail_func ["boto3"; "requests"] = true.
Proof.
  split.
  - apply (proj1 (install_requires_fail_func_spec _)).
    exists "resilient-circuits>=30.0.0". split; [apply list_elem_of_here|]. by right.
  - apply (proj2 (install_requires_fail_func_spec _)).
    intros d Hd. repeat (apply elem_of_cons in Hd as [->|Hd]; [by vm_compute|]).
    by apply elem_of_nil in Hd.
Defined.

(** Decimal numerals. *)
Fixpoint all_digits (s : string) : bool :=
  match s with
  | EmptyString => true
  | String c r => bool_decide (is_Some (Py.digit c)) && all_digits r
  end.

Definition is_number (s : string) : Prop := s <> EmptyString /\ all_digits s = true.

Fixpoint digits_value (acc : Z) (s : string) : Z :=
  match s with
  | EmptyString => acc
  | String c r =>
      match Py.digit c with
      | Some d => digits_value (10 * acc + Z.of_nat d) r
      | None => acc
      end
  end.

Definition decimal (s : string) : Z := digits_value 0 s.

(** No digit at the head. *)
Definition stops (s : string) : Prop :=
  match s with
  | EmptyString => True
  | String c _ => Py.digit c = None
  end.

Lemma read_digits_stops (acc : option Z) (s : string) :
  stops s -> read_digits acc s = (acc, s).
Proof. destruct s as [|c r]; cbn; [done|]. by intros ->. Qed.

Lemma read_digits_number (ds rest : string) : forall acc,
  is_number ds -> stops rest ->
  read_digits acc (ds +:+ rest) = (Some (digits_value (default 0 acc) ds), rest).
Proof.
  induction ds as [|c r IH]; intros acc [Hne Hd] Hrest; [done|].
  cbn [all_digits] in Hd. apply andb_true_iff in Hd as [Hc Hr].
  apply bool_decide_eq_true in Hc as [d Hc].
  rewrite PyFacts.app_cons. cbn [read_digits digits_value]. rewrite Hc.
  destruct r as [|c' r'].
  - rewrite PyFacts.app_nil. by rewrite read_digits_stops.
  - by rewrite IH.
Qed.

(** C3.  For a specifier [>=X.Y] the [python_requires] predicate
    answers false when (X, Y) is at or above (3, 6) and true when it is
    below; for a specifier in which no [>=] occurs it raises an
    [SDKException]. *)
Theorem python_requires_fail_func_spec :
  (forall X Y,
      is_number X -> is_number Y ->
      let x := decimal X in
      let y := decimal Y in
      ((3 < x \/ (x = 3 /\ 6 <= y)) ->
       python_requires_fail_func (">=" +:+ X +:+ "." +:+ Y) = Return false)
      /\ ((x < 3 \/ (x = 3 /\ y < 6)) ->
          python_requires_fail_func (">=" +:+ X +:+ "." +:+ Y) = Return true))
  /\ (forall s,
        Py.contains ">=" s = false ->
        exists message, python_requires_fail_func s = Raise (SDKException message)).
Proof.
  split.
  - intros X Y HX HY x y.
    assert (python_requires_fail_func (">=" +:+ X +:+ "." +:+ Y)
            = Return (tuple_lt (x, y) constants.MIN_SUPPORTED_PY_VERSION)) as ->.
    { unfold python_requires_fail_func, get_required_python_version.
      change (">=" +:+ X +:+ "." +:+ Y) with (String ">" (String "=" (X +:+ "." +:+ Y))).
      cbv beta iota.
      rewrite (read_digits_number X ("." +:+ Y) None HX) by done.
      change ("." +:+ Y) with (String "." Y).
      rewrite <- (PyFacts.app_empty_r Y) at 1.
      rewrite (read_digits_number Y EmptyString None HY) by done.
      reflexivity. }
    unfold tuple_lt, constants.MIN_SUPPORTED_PY_VERSION. cbn [fst snd].
    split; intros H; f_equal.
    + destruct (Z.ltb_spec x 3); [lia|]. destruct (Z.eqb_spec x 3); [|done].
      destruct (Z.ltb_spec y 6); [lia|done].
    + destruct (Z.ltb_spec x 3); [done|]. destruct (Z.eqb_spec x 3); [|lia].
      destruct (Z.ltb_spec y 6); [done|lia].
  - intros s Hs. exists "'python_requires' version not given in correct format".
    unfold python_requires_fail_func, get_required_python_version.
    destruct s as [|a s]; [reflexivity|].
    destruct a as [[] [] [] [] [] [] [] []]; try reflexivity.
    destruct s as [|b rest]; [reflexivity|].
    destruct b as [[] [] [] [] [] [] [] []]; try reflexivity.
    rewrite PyFacts.contains_occurs in Hs. cbn in Hs. by destruct rest.
Qed.

Lemma python_requires_fail_func_spec_witness :
  python_requires_fail_func ">=3.10" = Return false
  /\ python_requires_fail_func ">=2.7" = Return true
  /\ exists message, python_requires_fail_func "<=2.7" = Raise (SDKException message).
Proof.
  repeat apply conj.
  - apply (proj1 (proj1 python_requires_fail_func_spec "3" "10" ltac:(done) ltac:(done))).
    vm_compute. right. split; [reflexivity|discriminate].
  - apply (proj2 (proj1 python_requires_fail_func_spec "2" "7" ltac:(done) ltac:(done))).
    vm_compute. by left.
  - apply (proj2 python_requires_fail_func_spec). reflexivity.
Defined.

End setup_py_facts.

(** ** The package file helpers *)

Module difflib_facts.
Import difflib.

Section matches.
Variable ratio : string -> string -> Q.

Lemma insert_desc_cons a l : insert_desc a l <> [].
Proof. destruct l as [|b r]; cbn; [done|]. by destruct (tuple_gtb a b). Qed.

Lemma nlargest_nil n l : nlargest (S n) l = [] <-> l = [].
Proof.
  unfold nlargest. destruct l as [|a l]; [done|]. cbn [foldr].
  pose proof (insert_desc_cons a (foldr insert_desc [] l)) as H.
  destruct (insert_desc a (foldr insert_desc [] l)); done.
Qed.

Lemma scored_nil word possibilities cutoff :
  scored ratio word possibilities cutoff = []
  <-> forall x, x ∈ possibilities -> Qle_bool cutoff (ratio x word) = false.
Proof.
  unfold scored. induction possibilities as [|y l IH]; cbn [omap list_omap].
  - split; [|done]. intros _ x Hx. by apply elem_of_nil in Hx.
  - destruct (Qle_bool cutoff (ratio y word)) eqn:E.
    + split; [done|]. intros H. specialize (H y (list_elem_of_here _ _)). congruence.
    + rewrite IH. split.
      * intros H x [->|Hx]%elem_of_cons; [done|by apply H].
      * intros H x Hx. apply H. by apply list_elem_of_further.
Qed.

(** No close match: no candidate reaches the cutoff. *)
Lemma get_close_matches_nil word possibilities n cutoff :
  get_close_matches ratio word possibilities (S n) cutoff = []
  <-> forall x, x ∈ possibilities -> Qle_bool cutoff (ratio x word) = false.
Proof.
  unfold get_close_matches. rewrite <- scored_nil, <- (nlargest_nil n).
  split; [apply fmap_nil_inv|by intros ->].
Qed.

End matches.
End difflib_facts.

Section package_files_facts.
Context `{C : Collaborators}.
Import constants sdk_validate_configs.

(** A template line that the manifest check reports: not blank, and no
    line of the file is similar to it at the cutoff 0.90. *)
Definition unmatched (file_contents : list string) (line : string) : Prop :=
  Py.strip line <> EmptyString
  /\ forall x, x ∈ file_contents -> Qle_bool (9 # 10) (str_ratio x line) = false.

Lemma manifest_loop (file_contents : list string) (lines : list string) :
  forall acc s,
    s ∈ foldl (fun diffs line =>
                 if bool_decide (Py.strip line = EmptyString) then diffs
                 else match difflib.get_close_matches str_ratio line file_contents 3 (9 # 10)
                      with
                      | [] => diffs ++ [Py.strip line]
                      | _ => diffs
                      end) acc lines
    <-> s ∈ acc \/ exists line, line ∈ lines /\ unmatched file_contents line
                                 /\ s = Py.strip line.
Proof.
  induction lines as [|l lines IH]; intros acc s; cbn [foldl].
  - split; [by left|]. intros [H|(line & H & _)]; [done|]. by apply elem_of_nil in H.
  - rewrite IH. clear IH.
    pose proof (difflib_facts.get_close_matches_nil str_ratio l file_contents 2 (9 # 10))
      as Hnil.
    destruct (bool_decide_reflect (Py.strip l = EmptyString)) as [Hblank|Hblank].
    + split.
      * intros [H|(line & H & Hu)]; [by left|]. right. exists line.
        split; [by apply list_elem_of_further|done].
      * intros [H|(line & [->|H]%elem_of_cons & Hu)]; [by left| |right; by exists line].
        by destruct Hu as [[Hne _] _].
    + destruct (difflib.get_close_matches str_ratio l file_contents 3 (9 # 10)) as [|m ms].
      * split.
        -- intros [[H|H%list_elem_of_singleton]%elem_of_app|(line & H & Hu)].
           ++ by left.
           ++ right. exists l. split; [apply list_elem_of_here|].
              split; [|done]. split; [done|]. by apply Hnil.
           ++ right. exists line. split; [by apply list_elem_of_further|done].
        -- intros [H|(line & [->|H]%elem_of_cons & Hu)].
           ++ left. apply elem_of_app. by left.
           ++ left. apply elem_of_app. right. apply list_elem_of_singleton. by destruct Hu.
           ++ right. by exists line.
      * split.
        -- intros [H|(line & H & Hu)]; [by left|]. right. exists line.
           split; [by apply list_elem_of_further|done].
        -- intros [H|(line & [->|H]%elem_of_cons & Hu)]; [by left| |right; by exists line].
           destruct Hu as [[_ Hu] _]. apply Hnil in Hu. done.
Qed.

Lemma manifest_diffs_spec (file_contents template_contents : list string) (s : string) :
  s ∈ manifest_diffs file_contents template_contents
  <-> exists line, line ∈ template_contents /\ unmatched file_contents line
                   /\ s = Py.strip line.
Proof.
  unfold manifest_diffs. rewrite manifest_loop. split; [|by right].
  intros [H|H]; [|done]. by apply elem_of_nil in H.
Qed.

(** C6.  The MANIFEST.in check reports the template lines that are
    not blank and have no line of the file similar at the cutoff 0.90:
    when there is one, the result is the one issue of the rule's
    failure, with the severity the rule configures (WARNING) and a
    description rendered from the list of exactly those lines; when
    there is none, the result is the DEBUG pass issue. *)
Theorem package_files_manifest_spec
    (package_name path_file filename : string) (attr_dict : gmap string pyval)
    (w : World) (file_rendered : string) (file_contents : list string) :
  setup_env_and_render_jinja_file (files w) PACKAGE_TEMPLATE_PATH filename
    [("package_name", package_name)] = Return file_rendered ->
  read_file (files w) path_file = Return file_contents ->
  let missing := manifest_diffs file_contents (Py.splitlines file_rendered) in
  let outcome := fst (package_files_manifest package_name path_file filename attr_dict w) in
  (forall s, s ∈ missing
             <-> exists line, line ∈ Py.splitlines file_rendered
                              /\ Py.strip line <> EmptyString
                              /\ (forall x, x ∈ file_contents ->
                                            Qle_bool (9 # 10) (str_ratio x line) = false)
                              /\ s = Py.strip line)
  /\ (missing <> [] ->
      forall t d,
        get attr_dict "fail_msg" = PStr t ->
        Py.format t [Py.str_list missing] = Some d ->
        get attr_dict "fail_severity" = PSev SEVERITY_LEVEL_WARN ->
        outcome = Return (mkIssue (get attr_dict "fail_name") (PStr d)
                            (Given (PSev SEVERITY_LEVEL_WARN))
                            (Given (get attr_dict "fail_solution"))))
  /\ (missing = [] ->
      outcome = Return (mkIssue (get attr_dict "pass_name") (get attr_dict "pass_msg")
                          (Given (PSev SEVERITY_LEVEL_DEBUG)) (Given (PStr EmptyString)))).
Proof.
  intros Hrender Hread missing outcome. subst outcome.
  unfold package_files_manifest. cbv [bind reads]. rewrite Hrender, Hread.
  fold missing. repeat apply conj.
  - intros s. unfold missing. rewrite manifest_diffs_spec. unfold unmatched.
    split; intros (line & H1 & H2); exists line; tauto.
  - intros Hne t d Ht Hd Hsev. destruct missing as [|m ms]; [done|].
    rewrite Ht, Hsev. by rewrite (format_PStr _ _ _ _ Hd).
  - intros ->. reflexivity.
Qed.

(** C4.  The README.md check takes the first of its conditions that
    holds, in the order: same lines as the codegen template, docgen
    placeholder present, TODO present, a screenshot path that is not a
    readable file.  A README with the lines of the template gets the
    issue of the first one, with the severity the rule configures
    (CRITICAL), whatever else it contains. *)
Theorem package_files_validate_readme_order
    (path_package path_file filename : string) (attr_dict : gmap string pyval)
    (w : World) (file_contents : list string) (codegen_readme_rendered : string) :
  read_file (files w) path_file = Return file_contents ->
  setup_env_and_render_jinja_file (files w) PACKAGE_TEMPLATE_PATH filename []
  = Return codegen_readme_rendered ->
  let template_contents := Py.splitlines codegen_readme_rendered in
  let outcome :=
    fst (package_files_validate_readme path_package path_file filename attr_dict w) in
  let is_template := Qeq_bool (lines_ratio file_contents template_contents) 1 in
  let has_placeholder := existsb (Py.contains "<!-- ::CHANGE_ME:: -->") file_contents in
  let has_todo := existsb (Py.contains "TODO") file_contents in
  (file_contents = template_contents ->
   Qeq_bool (lines_ratio template_contents template_contents) 1 = true ->
   forall t s,
     get attr_dict "fail_codegen_solution" = PStr t ->
     Py.format t [path_package] = Some s ->
     get attr_dict "fail_codegen_severity" = PSev SEVERITY_LEVEL_CRITICAL ->
     outcome = Return (mkIssue (get attr_dict "fail_codegen_name")
                         (get attr_dict "fail_codegen_msg")
                         (Given (PSev SEVERITY_LEVEL_CRITICAL)) (Given (PStr s))))
  /\ (is_template = false -> has_placeholder = true ->
      forall t d t' s,
        get attr_dict "fail_placeholder_msg" = PStr t ->
        Py.format t [DOCGEN_PLACEHOLDER_STRING] = Some d ->
        get attr_dict "fail_placeholder_solution" = PStr t' ->
        Py.format t' [DOCGEN_PLACEHOLDER_STRING] = Some s ->
        outcome = Return (mkIssue (get attr_dict "fail_placeholder_name") (PStr d)
                            (Given (get attr_dict "fail_placeholder_severity"))
                            (Given (PStr s))))
  /\ (is_template = false -> has_placeholder = false -> has_todo = true ->
      outcome = Return (mkIssue (get attr_dict "fail_todo_name")
                          (get attr_dict "fail_todo_msg")
                          (Given (get attr_dict "fail_todo_severity"))
                          (Given (get attr_dict "fail_todo_solution"))))
  /\ (is_template = false -> has_placeholder = false -> has_todo = false ->
      forall screenshot_paths invalid_paths w',
        parse_file_paths_from_readme file_contents = Return screenshot_paths ->
        readme_invalid_paths path_package screenshot_paths [] w = (Return invalid_paths, w') ->
        (invalid_paths <> [] ->
         forall t d,
           get attr_dict "fail_screenshots_msg" = PStr t ->
           Py.format t [Py.str_list invalid_paths] = Some d ->
           outcome = Return (mkIssue (get attr_dict "fail_screenshots_name") (PStr d)
                               (Given (get attr_dict "fail_screenshots_severity"))
                               (Given (get attr_dict "fail_screenshots_solution"))))
        /\ (invalid_paths = [] ->
            outcome = Return (mkIssue (get attr_dict "pass_name") (get attr_dict "pass_msg")
                                (Given (PSev SEVERITY_LEVEL_DEBUG))
                                (Given (get attr_dict "pass_solution"))))).
Proof.
  intros Hread Hrender template_contents outcome is_template has_placeholder has_todo.
  subst outcome. unfold package_files_validate_readme. cbv [bind reads].
  rewrite Hread, Hrender. fold template_contents. fold is_template.
  change (existsb (Py.contains placeholder_comment) file_contents) with has_placeholder.
  fold has_todo.
  repeat apply conj.
  - intros Heq Hrefl t s Ht Hs Hsev. subst is_template. rewrite Heq, Hrefl.
    rewrite Ht, Hsev. by rewrite (format_PStr _ _ _ _ Hs).
  - intros -> -> t d t' s Ht Hd Ht' Hs. rewrite Ht, Ht'.
    rewrite (format_PStr _ _ _ _ Hd). by rewrite (format_PStr _ _ _ _ Hs).
  - intros -> -> ->. reflexivity.
  - intros -> -> -> screenshot_paths invalid_paths w' Hparse Hinv.
    rewrite Hparse, Hinv. split.
    + intros Hne t d Ht Hd. destruct invalid_paths as [|x xs]; [done|].
      rewrite Ht. by rewrite (format_PStr _ _ _ _ Hd).
    + intros ->. reflexivity.
Qed.

(** C5, as amended.  When the parser of the import definition returns,
    [package_files_validate_customize_py] returns the DEBUG issue, its
    solution rendered from the definition.  When the parser raises an
    [SDKException] whose text, newlines replaced by spaces, contains
    ERROR, it returns the issue of the rule's failure, with the severity
    the rule configures (CRITICAL), the description rendered from that
    text cut to start at its first ERROR. *)
Theorem package_files_validate_customize_py_spec
    (path_file : string) (attr_dict : gmap string pyval) (w : World) :
  let outcome := fst (package_files_validate_customize_py path_file attr_dict w) in
  (forall import_def t s,
      get_import_definition_from_customize_py (files w) path_file = Return import_def ->
      get attr_dict "pass_solution" = PStr t ->
      Py.format t [import_def] = Some s ->
      outcome = Return (mkIssue (get attr_dict "pass_name") (get attr_dict "pass_msg")
                          (Given (PSev SEVERITY_LEVEL_DEBUG)) (Given (PStr s))))
  /\ (forall e t d,
        get_import_definition_from_customize_py (files w) path_file
        = Raise (SDKException e) ->
        let message := Py.replace (SDKException_str e) Py.LF " " in
        Py.contains "ERROR" message = true ->
        get attr_dict "fail_msg" = PStr t ->
        get attr_dict "fail_severity" = PSev SEVERITY_LEVEL_CRITICAL ->
        Py.format t [Py.slice message (Some (Py.find message "ERROR")) None] = Some d ->
        outcome = Return (mkIssue (get attr_dict "fail_name") (PStr d)
                            (Given (PSev SEVERITY_LEVEL_CRITICAL))
                            (Given (get attr_dict "fail_solution"))))
  /\ (forall message,
        Py.contains "ERROR" message = true ->
        exists before rest,
          message = before +:+ "ERROR" +:+ rest
          /\ (forall before' rest',
                 message = before' +:+ "ERROR" +:+ rest' -> Py.len before <= Py.len before')
          /\ Py.slice message (Some (Py.find message "ERROR")) None = "ERROR" +:+ rest).
Proof.
  intros outcome. subst outcome.
  unfold package_files_validate_customize_py.
  cbv [bind reads try_except_SDKException index]. repeat apply conj.
  - intros import_def t s Hparse Ht Hs. rewrite Hparse, Ht.
    by rewrite (format_PStr _ _ _ _ Hs).
  - intros e t d Hparse Hfound Ht Hsev Hd. rewrite Hparse.
    set (message := Py.replace (SDKException_str e) Py.LF " ") in *.
    unfold Py.contains in Hfound.
    destruct (Z.eqb_spec (Py.find message "ERROR") (-1)) as [|Hne]; [done|].
    cbv [ret]. rewrite Ht, Hsev. by rewrite (format_PStr _ _ _ _ Hd).
  - intros message Hfound. unfold Py.contains in Hfound.
    destruct (Z.eqb_spec (Py.find message "ERROR") (-1)) as [|Hne]; [done|].
    destruct (PyFacts.find_at_found "ERROR" message 0 (Py.find message "ERROR") eq_refl Hne)
      as (before & rest & Hmsg & Hidx & Hfirst); [lia|].
    exists before, rest. split; [done|]. split; [done|].
    rewrite Hidx, Z.add_0_l. rewrite Hmsg at 1. apply PyFacts.slice_from.
Qed.

(** *** The shapes of the issues *)

Definition pass_empty (i : SDKValidateIssue) : Prop :=
  severity i = Given (PSev SEVERITY_LEVEL_DEBUG) /\ solution i = Given (PStr EmptyString).

Definition pass_with (attr_dict : gmap string pyval) (i : SDKValidateIssue) : Prop :=
  severity i = Given (PSev SEVERITY_LEVEL_DEBUG)
  /\ exists args s, formatted (get attr_dict "pass_solution") args s /\ solution i = Given s.

Definition fail_with (attr_dict : gmap string pyval) (severity_key solution_key : string)
    (i : SDKValidateIssue) : Prop :=
  severity i = Given (get attr_dict severity_key)
  /\ solution i = Given (get attr_dict solution_key).

Definition fail_formatted (attr_dict : gmap string pyval)
    (severity_key solution_key : string) (i : SDKValidateIssue) : Prop :=
  severity i = Given (get attr_dict severity_key)
  /\ exists args s, formatted (get attr_dict solution_key) args s /\ solution i = Given s.

Definition fail_unsolved (attr_dict : gmap string pyval) (severity_key : string)
    (i : SDKValidateIssue) : Prop :=
  severity i = Given (get attr_dict severity_key) /\ solution i = Omitted.

Ltac shape_step :=
  match goal with
  | |- _ /\ _ => split
  | |- exists _, _ => eexists
  | |- _ => eassumption
  | |- _ => reflexivity
  end.

Ltac shape :=
  unfold pass_empty, pass_with, fail_with, fail_formatted, fail_unsolved;
  cbn [severity solution]; repeat shape_step.

Ltac pick := first [solve [shape] | left; pick | right; pick].

Ltac settle_shape :=
  cbn [fst];
  first
    [ let H := fresh in intros H; discriminate H
    | intros [= <- <-];
      repeat match goal with
             | H : format _ _ _ = (Return _, _) |- _ => apply format_Return in H as [H ->]
             end;
      pick
    | intros [= <-];
      repeat match goal with
             | H : format _ _ _ = (Return _, _) |- _ => apply format_Return in H as [H ->]
             end;
      pick ].

Ltac unfold_helper :=
  cbv [bind LOG_debug gets reads modify try_except_SDKException ret raise index];
  cbn [environ files stdout debug_log launched].

(** A solution that is a string and not the empty one. *)
Definition has_solution (i : SDKValidateIssue) : Prop :=
  exists s, solution i = Given (PStr s) /\ s <> EmptyString.

(** The solutions that the selftest rules configure. *)
Lemma configured_solutions :
  get selftest_attributes_0 "fail_solution"
  = PStr "Upgrade 'resilient-circuits' by running 'pip install 'resilient-circuits>=43.0.0''"
  /\ get selftest_attributes_0 "missing_solution"
     = PStr "Please install 'resilient-circuits' by running 'pip install 'resilient-circuits''"
  /\ get selftest_attributes_1 "solution"
     = PStr "Please install '{0}' by running 'pip install {1}'"
  /\ get selftest_attributes_2 "solution"
     = PStr "Please run codegen --reload and implement the templated selftest function"
  /\ get selftest_attributes_3 "fail_solution"
     = PStr "Please check your configuration values and make sure selftest.py is properly implemented"
  /\ get selftest_attributes_3 "missing_solution"
     = PStr "selftest.py is a recommended check that should be implemented. More info <TODO: LINK>".
Proof. repeat apply conj; vm_compute; reflexivity. Qed.

Lemma format_install_solution (package_name path_package s : string) :
  Py.format "Please install '{0}' by running 'pip install {1}'" [package_name; path_package]
  = Some s ->
  s <> EmptyString.
Proof. unfold Py.format. simpl. by intros [= <-]. Qed.

Ltac settle_solution :=
  cbn [fst];
  first
    [ let H := fresh in intros H; discriminate H
    | let Hb := fresh "Hb" in
      intros [= <- <-] Hb; first [discriminate Hb|idtac];
      unfold has_solution; cbn [solution];
      destruct configured_solutions as (? & ? & ? & ? & ? & ?);
      first
        [ by left
        | eexists; split; [f_equal; eassumption|done]
        | right; eexists; split; [f_equal; eassumption|done] ] ].

(** C1, as amended.  An issue built for a pass has the DEBUG level.
    Its solution is the empty string in the four selftest helpers, the
    manifest check and the template check; in the permissions,
    config.py and customize.py checks it is rendered from the rule's
    [pass_solution], and in the README check it is the rule's
    [pass_solution].  An issue built for a failure has the severity and
    the solution that the rule configures, but for the connection error
    of the selftest, built without a solution, and the link error of
    the README, built without severity and solution.  For the selftest
    rules of the catalogue the configured solution is a string that is
    not empty. *)
Theorem issue_shapes :
  (forall attr_dict w b i,
      fst (selftest_validate_resilient_circuits_installed attr_dict w) = Return (b, i) ->
      (b = true /\ pass_empty i)
      \/ (b = false /\ fail_with attr_dict "severity" "fail_solution" i)
      \/ (b = false /\ fail_with attr_dict "severity" "missing_solution" i))
  /\ (forall attr_dict package_name path_package w b i,
        fst (selftest_validate_package_installed attr_dict package_name path_package w)
        = Return (b, i) ->
        (b = true /\ pass_empty i)
        \/ (b = false /\ fail_formatted attr_dict "severity" "solution" i))
  /\ (forall attr_dict path w b i,
        fst (selftest_validate_selftestpy_file_exists attr_dict path w) = Return (b, i) ->
        (b = true /\ pass_empty i)
        \/ (b = false /\ fail_with attr_dict "severity" "solution" i))
  /\ (forall attr_dict package_name kw w b i,
        fst (selftest_run_selftestpy attr_dict package_name kw w) = Return (b, i) ->
        (b = true /\ pass_empty i)
        \/ (b = false /\ fail_with attr_dict "fail_severity" "fail_solution" i)
        \/ (b = false /\ fail_with attr_dict "missing_severity" "missing_solution" i)
        \/ (b = false /\ fail_unsolved attr_dict "error_severity" i))
  /\ (forall package_name path_file filename attr_dict w i,
        fst (package_files_manifest package_name path_file filename attr_dict w) = Return i ->
        pass_empty i \/ fail_with attr_dict "fail_severity" "fail_solution" i)
  /\ (forall path_file attr_dict w i,
        fst (package_files_apikey_pem path_file attr_dict w) = Return i ->
        pass_with attr_dict i \/ fail_with attr_dict "fail_severity" "fail_solution" i)
  /\ (forall package_name package_version path_file filename attr_dict w i,
        fst (package_files_template_match package_name package_version path_file filename
               attr_dict w) = Return i ->
        pass_empty i \/ fail_with attr_dict "fail_severity" "fail_solution" i)
  /\ (forall path_file attr_dict w i,
        fst (package_files_validate_config_py path_file attr_dict w) = Return i ->
        pass_with attr_dict i
        \/ fail_with attr_dict "warn_severity" "warn_solution" i
        \/ fail_with attr_dict "fail_severity" "fail_solution" i)
  /\ (forall path_file attr_dict w i,
        fst (package_files_validate_customize_py path_file attr_dict w) = Return i ->
        pass_with attr_dict i \/ fail_with attr_dict "fail_severity" "fail_solution" i)
  /\ (forall path_package path_file filename attr_dict w i,
        fst (package_files_validate_readme path_package path_file filename attr_dict w)
        = Return i ->
        (severity i = Given (PSev SEVERITY_LEVEL_DEBUG)
         /\ solution i = Given (get attr_dict "pass_solution"))
        \/ fail_formatted attr_dict "fail_codegen_severity" "fail_codegen_solution" i
        \/ fail_formatted attr_dict "fail_placeholder_severity" "fail_placeholder_solution" i
        \/ fail_with attr_dict "fail_todo_severity" "fail_todo_solution" i
        \/ fail_with attr_dict "fail_screenshots_severity" "fail_screenshots_solution" i
        \/ (severity i = Omitted /\ solution i = Omitted))
  /\ (forall w b i,
        fst (selftest_validate_resilient_circuits_installed selftest_attributes_0 w)
        = Return (b, i) ->
        b = false -> has_solution i)
  /\ (forall package_name path_package w b i,
        fst (selftest_validate_package_installed selftest_attributes_1 package_name
               path_package w) = Return (b, i) ->
        b = false -> has_solution i)
  /\ (forall path w b i,
        fst (selftest_validate_selftestpy_file_exists selftest_attributes_2 path w)
        = Return (b, i) ->
        b = false -> has_solution i)
  /\ (forall package_name kw w b i,
        fst (selftest_run_selftestpy selftest_attributes_3 package_name kw w)
        = Return (b, i) ->
        b = false -> solution i = Omitted \/ has_solution i).
Proof.
  repeat apply conj.
  - intros attr_dict w b i. unfold selftest_validate_resilient_circuits_installed.
    unfold_helper. destruct_shapes; settle_shape.
  - intros attr_dict package_name path_package w b i.
    unfold selftest_validate_package_installed.
    unfold_helper. destruct_shapes; settle_shape.
  - intros attr_dict path w b i. unfold selftest_validate_selftestpy_file_exists.
    unfold_helper. destruct_shapes; settle_shape.
  - intros attr_dict package_name kw w b i. unfold selftest_run_selftestpy.
    cbv [bind LOG_debug setenv popen modify stdout_write ret raise].
    cbn [environ files stdout debug_log launched].
    rewrite waiting_loop_eq. cbn [environ files stdout debug_log launched].
    destruct_shapes; settle_shape.
  - intros package_name path_file filename attr_dict w i. unfold package_files_manifest.
    unfold_helper. destruct_shapes; settle_shape.
  - intros path_file attr_dict w i. unfold package_files_apikey_pem.
    unfold_helper. destruct_shapes; settle_shape.
  - intros package_name package_version path_file filename attr_dict w i.
    unfold package_files_template_match.
    unfold_helper. destruct_shapes; settle_shape.
  - intros path_file attr_dict w i. unfold package_files_validate_config_py.
    unfold_helper. destruct_shapes; settle_shape.
  - intros path_file attr_dict w i. unfold package_files_validate_customize_py.
    unfold_helper. destruct_shapes; settle_shape.
  - intros path_package path_file filename attr_dict w i.
    unfold package_files_validate_readme.
    unfold_helper. destruct_shapes; settle_shape.
  - intros w b i. unfold selftest_validate_resilient_circuits_installed.
    unfold_helper. destruct_shapes; settle_solution.
  - intros package_name path_package w b i. unfold selftest_validate_package_installed.
    unfold_helper. destruct_shapes; try settle_solution.
    cbn [fst]. intros [= <- <-] _. unfold has_solution. cbn [solution].
    apply format_Return in Heqp1 as [(t & s & Ht & Hs & ->) _].
    destruct configured_solutions as (_ & _ & E & _). rewrite E in Ht.
    injection Ht as <-. exists s. split; [done|]. by eapply format_install_solution.
  - intros path w b i. unfold selftest_validate_selftestpy_file_exists.
    unfold_helper. destruct_shapes; settle_solution.
  - intros package_name kw w b i. unfold selftest_run_selftestpy.
    cbv [bind LOG_debug setenv popen modify stdout_write ret raise].
    cbn [environ files stdout debug_log launched].
    rewrite waiting_loop_eq. cbn [environ files stdout debug_log launched].
    destruct_shapes; settle_solution.
Qed.

End package_files_facts.

(** ** The package file helpers on concrete packages *)

Module demo_rules.

(** Modelled from the spec: four rules of [package_files], the part of
    the catalogue that is not among the sources.  The spec gives their
    severities: WARNING for MANIFEST.in; for README.md CRITICAL but for
    the TODO check, which is WARNING; INFO and CRITICAL for config.py;
    CRITICAL for customize.py.  The unit tests give one text, the one on
    screenshots; the other texts stand for those of the catalogue, and
    the solution of a pass renders what was found. *)
Definition manifest : gmap string pyval :=
  list_to_map [
    ("fail_name", PStr "MANIFEST.in");
    ("fail_msg", PStr "Template lines missing from MANIFEST.in: {0}");
    ("fail_severity", PSev SEVERITY_LEVEL_WARN);
    ("fail_solution", PStr "Add the missing lines to MANIFEST.in");
    ("pass_name", PStr "MANIFEST.in");
    ("pass_msg", PStr "MANIFEST.in has the template lines")
  ].

Definition readme : gmap string pyval :=
  list_to_map [
    ("fail_codegen_name", PStr "README.md");
    ("fail_codegen_msg", PStr "README.md is the codegen template");
    ("fail_codegen_severity", PSev SEVERITY_LEVEL_CRITICAL);
    ("fail_codegen_solution", PStr "Run docgen on {0}");
    ("fail_placeholder_name", PStr "README.md");
    ("fail_placeholder_msg", PStr "README.md still has the placeholder {0}");
    ("fail_placeholder_severity", PSev SEVERITY_LEVEL_CRITICAL);
    ("fail_placeholder_solution", PStr "Replace every {0}");
    ("fail_todo_name", PStr "README.md");
    ("fail_todo_msg", PStr "README.md still has a TODO");
    ("fail_todo_severity", PSev SEVERITY_LEVEL_WARN);
    ("fail_todo_solution", PStr "Complete every TODO");
    ("fail_screenshots_name", PStr "README.md");
    ("fail_screenshots_msg",
      PStr "Cannot find the following screenshot(s) referenced in the README: {0}");
    ("fail_screenshots_severity", PSev SEVERITY_LEVEL_CRITICAL);
    ("fail_screenshots_solution", PStr "Add the screenshots");
    ("pass_name", PStr "README.md");
    ("pass_msg", PStr "README.md is valid");
    ("pass_solution", PStr "Check the README by hand as well")
  ].

Definition config_py : gmap string pyval :=
  list_to_map [
    ("pass_name", PStr "config.py");
    ("pass_msg", PStr "config.py has configs");
    ("pass_solution", PStr "{0}");
    ("warn_name", PStr "config.py");
    ("warn_msg", PStr "config.py has no configs");
    ("warn_severity", PSev SEVERITY_LEVEL_INFO);
    ("warn_solution", PStr "Add configs if the app needs them");
    ("fail_name", PStr "config.py");
    ("fail_msg", PStr "{0}");
    ("fail_severity", PSev SEVERITY_LEVEL_CRITICAL);
    ("fail_solution", PStr "Fix config.py")
  ].

Definition customize_py : gmap string pyval :=
  list_to_map [
    ("pass_name", PStr "customize.py");
    ("pass_msg", PStr "customize.py has an import definition");
    ("pass_solution", PStr "{0}");
    ("fail_name", PStr "customize.py");
    ("fail_msg", PStr "{0}");
    ("fail_severity", PSev SEVERITY_LEVEL_CRITICAL);
    ("fail_solution", PStr "Fix customize.py")
  ].

Definition template (filename : string) : string :=
  constants.PACKAGE_TEMPLATE_PATH +:+ "/" +:+ filename.

(** A package whose MANIFEST.in lacks the second line of the template,
    whose README.md is the template as generated, whose config.py has
    the config of the unit test, and whose customize.py is corrupt. *)
Definition package : World :=
  demo.world [
    (template "MANIFEST.in", [nl "include a.txt"; nl EmptyString; nl "include b.txt"]);
    ("fn_demo/MANIFEST.in", [nl "include a.txt"]);
    (template "README.md", [nl "# TODO: title"; nl "![shot](doc/missing.png)"]);
    ("fn_demo/README.md", [nl "# TODO: title"; nl "![shot](doc/missing.png)"]);
    ("fn_demo/fn_demo/util/config.py", [nl "[fake_config]"; "fake=fake"]);
    ("fn_demo/fn_demo/util/customize.py", ["corrupt"; nl "bad import"; "definition"])
  ].

Definition C : Collaborators := demo.collaborators (mkProc 0 0 EmptyString).

End demo_rules.

Lemma package_files_manifest_spec_witness :
  fst (package_files_manifest (C := demo_rules.C) "fn_demo" "fn_demo/MANIFEST.in"
         "MANIFEST.in" demo_rules.manifest demo_rules.package)
  = Return (mkIssue (PStr "MANIFEST.in")
              (PStr "Template lines missing from MANIFEST.in: ['include b.txt']")
              (Given (PSev SEVERITY_LEVEL_WARN))
              (Given (PStr "Add the missing lines to MANIFEST.in"))).
Proof.
  pose proof (package_files_manifest_spec (C := demo_rules.C) "fn_demo"
                "fn_demo/MANIFEST.in" "MANIFEST.in" demo_rules.manifest demo_rules.package
                (Py.join EmptyString [nl "include a.txt"; nl EmptyString; nl "include b.txt"])
                [nl "include a.txt"] eq_refl eq_refl) as (_ & H & _).
  apply (H ltac:(vm_compute; discriminate)
           "Template lines missing from MANIFEST.in: {0}"
           "Template lines missing from MANIFEST.in: ['include b.txt']");
    vm_compute; reflexivity.
Defined.

Lemma package_files_validate_readme_order_witness :
  fst (package_files_validate_readme (C := demo_rules.C) "fn_demo" "fn_demo/README.md"
         "README.md" demo_rules.readme demo_rules.package)
  = Return (mkIssue (PStr "README.md") (PStr "README.md is the codegen template")
              (Given (PSev SEVERITY_LEVEL_CRITICAL)) (Given (PStr "Run docgen on fn_demo")))
  /\ existsb (Py.contains "TODO") [nl "# TODO: title"; nl "![shot](doc/missing.png)"] = true.
Proof.
  split; [|reflexivity].
  pose proof (package_files_validate_readme_order (C := demo_rules.C) "fn_demo"
                "fn_demo/README.md" "README.md" demo_rules.readme demo_rules.package
                [nl "# TODO: title"; nl "![shot](doc/missing.png)"]
                (Py.join EmptyString [nl "# TODO: title"; nl "![shot](doc/missing.png)"])
                eq_refl eq_refl) as (H & _).
  apply (H eq_refl eq_refl "Run docgen on {0}" "Run docgen on fn_demo");
    vm_compute; reflexivity.
Defined.

(** The text of the exception that the corrupt customize.py raises. *)
Definition corrupt_text : string :=
  SDKException_str (Collaborators := demo_rules.C) (nl "bad import" +:+ "definition").

Example corrupt_text_eq :
  corrupt_text
  = String Py.LF ("resilient-sdk FAILED" +:+ String Py.LF
                    ("ERROR: bad import" +:+ String Py.LF "definition")).
Proof. reflexivity. Qed.

(** C5 as stated fails.  The description is not the text of the
    exception cut at its first ERROR: the newlines of the text have
    become spaces. *)
Lemma customize_py_claim_fails :
  exists d,
    fst (package_files_validate_customize_py (C := demo_rules.C)
           "fn_demo/fn_demo/util/customize.py" demo_rules.customize_py demo_rules.package)
    = Return (mkIssue (PStr "customize.py") (PStr d)
                (Given (PSev SEVERITY_LEVEL_CRITICAL)) (Given (PStr "Fix customize.py")))
    /\ Py.slice corrupt_text (Some (Py.find corrupt_text "ERROR")) None
       = "ERROR: bad import" +:+ String Py.LF "definition"
    /\ d = "ERROR: bad import definition"
    /\ d <> Py.slice corrupt_text (Some (Py.find corrupt_text "ERROR")) None.
Proof.
  eexists. split; [vm_compute; reflexivity|].
  split; [vm_compute; reflexivity|]. split; [reflexivity|]. vm_compute. discriminate.
Qed.

Lemma package_files_validate_customize_py_spec_witness :
  fst (package_files_validate_customize_py (C := demo_rules.C)
         "fn_demo/fn_demo/util/customize.py" demo_rules.customize_py demo_rules.package)
  = Return (mkIssue (PStr "customize.py") (PStr "ERROR: bad import definition")
              (Given (PSev SEVERITY_LEVEL_CRITICAL)) (Given (PStr "Fix customize.py")))
  /\ fst (package_files_validate_customize_py (C := demo_rules.C)
            "fn_demo/fn_demo/util/config.py" demo_rules.customize_py demo_rules.package)
     = Return (mkIssue (PStr "customize.py") (PStr "customize.py has an import definition")
                 (Given (PSev SEVERITY_LEVEL_DEBUG))
                 (Given (PStr ("[fake_config]" +:+ String Py.LF "fake=fake"))))
  /\ exists before rest,
       " resilient-sdk FAILED ERROR: bad import definition" = before +:+ "ERROR" +:+ rest
       /\ (forall before' rest',
              " resilient-sdk FAILED ERROR: bad import definition"
              = before' +:+ "ERROR" +:+ rest' -> Py.len before <= Py.len before')
       /\ Py.slice " resilient-sdk FAILED ERROR: bad import definition"
            (Some (Py.find " resilient-sdk FAILED ERROR: bad import definition" "ERROR")) None
          = "ERROR" +:+ rest.
Proof.
  pose proof (package_files_validate_customize_py_spec (C := demo_rules.C)) as H.
  repeat apply conj.
  - apply (proj1 (proj2 (H "fn_demo/fn_demo/util/customize.py" demo_rules.customize_py
                           demo_rules.package))
             (nl "bad import" +:+ "definition") "{0}");
      vm_compute; reflexivity.
  - apply (proj1 (H "fn_demo/fn_demo/util/config.py" demo_rules.customize_py
                    demo_rules.package)
             ("[fake_config]" +:+ String Py.LF "fake=fake") "{0}");
      vm_compute; reflexivity.
  - apply (proj2 (proj2 (H EmptyString demo_rules.customize_py demo_rules.package))).
    reflexivity.
Defined.

(** C1 as stated fails.  The config.py check, on the config of the
    unit test, passes with the DEBUG level and a solution that is not
    empty: the config found. *)
Lemma pass_with_solution :
  exists i,
    fst (package_files_validate_config_py (C := demo_rules.C)
           "fn_demo/fn_demo/util/config.py" demo_rules.config_py demo_rules.package)
    = Return i
    /\ is_pass i = true
    /\ solution i
       = Given (PStr ("[fake_config]" +:+ String Py.LF
                        (String Py.TAB (String Py.TAB "fake=fake"))))
    /\ solution i <> Given (PStr EmptyString).
Proof.
  eexists. split; [vm_compute; reflexivity|].
  split; [reflexivity|]. split; [reflexivity|]. discriminate.
Qed.

Lemma issue_shapes_witness :
  (let i := mkIssue (PStr "config.py") (PStr "config.py has configs")
              (Given (PSev SEVERITY_LEVEL_DEBUG))
              (Given (PStr ("[fake_config]" +:+ String Py.LF
                              (String Py.TAB (String Py.TAB "fake=fake"))))) in
   pass_with demo_rules.config_py i
   \/ fail_with demo_rules.config_py "warn_severity" "warn_solution" i
   \/ fail_with demo_rules.config_py "fail_severity" "fail_solution" i)
  /\ (let i := mkIssue (PStr "selftest.py failed")
                 (PStr "While running selftest.py, 'resilient-circuits' failed to connect to server. Details: ERROR: (fake) issue connecting to SOAR")
                 (Given (PSev SEVERITY_LEVEL_CRITICAL)) Omitted in
      solution i = Omitted \/ has_solution i)
  /\ (let i := mkIssue (PStr "'fn_demo' not found")
                 (PStr "'fn_demo' is not installed in your python environment")
                 (Given (PSev SEVERITY_LEVEL_CRITICAL))
                 (Given (PStr "Please install 'fn_demo' by running 'pip install path/to/fn_demo'")) in
      has_solution i).
Proof.
  repeat apply conj.
  - pose proof (issue_shapes (C := demo_rules.C)) as (_ & _ & _ & _ & _ & _ & _ & H & _).
    apply (H "fn_demo/fn_demo/util/config.py" demo_rules.config_py demo_rules.package).
    vm_compute. reflexivity.
  - pose proof (issue_shapes (C := demo.collaborators connection_error_run))
      as (_ & _ & _ & _ & _ & _ & _ & _ & _ & _ & _ & _ & _ & H).
    apply (H "fake_package_name" None (demo.world []) false); [|reflexivity].
    vm_compute. reflexivity.
  - pose proof (issue_shapes (C := demo_rules.C))
      as (_ & _ & _ & _ & _ & _ & _ & _ & _ & _ & _ & H & _).
    apply (H "fn_demo" "path/to/fn_demo" (demo.world []) false); [|reflexivity].
    vm_compute. reflexivity.
Defined.

(** * More of the helpers

    ** More facts about the string built-ins *)

Module PyMore.
Import Py.

Lemma has_char_app c (a b : string) : has_char c (a +:+ b) = has_char c a || has_char c b.
Proof.
  induction a as [|x a IH].
  - rewrite PyFacts.app_nil. reflexivity.
  - rewrite PyFacts.app_cons, !PyFacts.has_char_cons, IH. by rewrite orb_assoc.
Qed.

(** After [s.replace(c, new)] no [c] is left, when [new] has none. *)
Lemma replace_removes c new s : has_char c new = false -> has_char c (replace s c new) = false.
Proof.
  intros Hnew. induction s as [|x s IH]; [reflexivity|].
  cbn [replace]. destruct (decide (x = c)) as [->|Hne].
  - by rewrite has_char_app, Hnew, IH.
  - rewrite PyFacts.has_char_cons, IH, orb_false_r.
    apply bool_decide_eq_false. congruence.
Qed.


Lemma split_cons s c : exists w ws, split s c = w :: ws.
Proof.
  induction s as [|x s (w & ws & IH)]; cbn [split]; [eauto|].
  destruct (decide (x = c)); [eauto|]. rewrite IH. eauto.
Qed.

Lemma join_cons sep w v ws : join sep (w :: v :: ws) = w +:+ sep +:+ join sep (v :: ws).
Proof. reflexivity. Qed.

(** [sep.join(s.split(c))] is [s.replace(c, sep)]. *)
Lemma join_split sep s c : join sep (split s c) = replace s c sep.
Proof.
  induction s as [|x s IH]; [reflexivity|].
  cbn [split replace]. destruct (split_cons s c) as (w & ws & E).
  rewrite E in *. destruct (decide (x = c)) as [->|Hne].
  - rewrite join_cons, PyFacts.app_nil. by rewrite IH.
  - rewrite <- IH. destruct ws as [|v ws]; [reflexivity|].
    rewrite !join_cons. by rewrite PyFacts.app_cons.
Qed.

Lemma slice_after (a sub rest : string) :
  slice (a +:+ sub +:+ rest) (Some (len a + len sub)) None = rest.
Proof.
  rewrite <- PyFacts.len_app, <- PyFacts.app_assoc. apply PyFacts.slice_from.
Qed.

End PyMore.

(** ** The selftest helpers: every outcome on the rules of the catalogue *)

Module demo_versions.

(** The collaborators [C], with versions that are printed as they were
    read and compared by their leading number. *)
Definition with_versions (C : Collaborators) : Collaborators := {|
  Version := string;
  parse_version := id;
  version_ge := fun a b => demo.ge (demo.version_of a) (demo.version_of b);
  version_lt := fun a b => demo.lt (demo.version_of a) (demo.version_of b);
  version_str := id;
  get_package_version := fun fs n =>
    match fs !! demo.site n with
    | Some (v :: _) => Some v
    | _ => None
    end;
  check_package_installed := check_package_installed;
  validate_file_paths := validate_file_paths;
  read_file := read_file;
  setup_env_and_render_jinja_file := setup_env_and_render_jinja_file;
  get_resilient_libraries_version_to_use := get_resilient_libraries_version_to_use;
  get_configs_from_config_py := get_configs_from_config_py;
  get_import_definition_from_customize_py := get_import_definition_from_customize_py;
  parse_file_paths_from_readme := parse_file_paths_from_readme;
  BASE_PERMISSIONS := BASE_PERMISSIONS;
  lines_ratio := lines_ratio;
  str_ratio := str_ratio;
  colored_unified_diff := colored_unified_diff;
  str_float := str_float;
  Popen := Popen;
  SDKException_str := SDKException_str
|}.

Definition C : Collaborators := with_versions (demo.collaborators (mkProc 0 0 EmptyString)).

End demo_versions.

Section selftest_outcomes.
Context `{C : Collaborators}.
Import constants sdk_validate_configs.

Lemma rule_0 :
  get selftest_attributes_0 "fail_name" = PStr "'resilient-circuits' version is too low"
  /\ get selftest_attributes_0 "fail_msg" = PStr "'resilient-circuits=={0}' is not supported"
  /\ get selftest_attributes_0 "fail_solution"
     = PStr "Upgrade 'resilient-circuits' by running 'pip install 'resilient-circuits>=43.0.0''"
  /\ get selftest_attributes_0 "missing_name" = PStr "'resilient-circuits' not found"
  /\ get selftest_attributes_0 "missing_msg"
     = PStr "'resilient-circuits' is not installed in your python environment"
  /\ get selftest_attributes_0 "missing_solution"
     = PStr "Please install 'resilient-circuits' by running 'pip install 'resilient-circuits''"
  /\ get selftest_attributes_0 "severity" = PSev SEVERITY_LEVEL_CRITICAL
  /\ get selftest_attributes_0 "pass_name" = PStr "'resilient-circuits' found in env"
  /\ get selftest_attributes_0 "pass_msg"
     = PStr "'resilient-circuits' was found in the python environment with the minimum version installed".
Proof. repeat apply conj; vm_compute; reflexivity. Qed.

Lemma rule_1 :
  get selftest_attributes_1 "fail_name" = PStr "'{0}' not found"
  /\ get selftest_attributes_1 "fail_msg"
     = PStr "'{0}' is not installed in your python environment"
  /\ get selftest_attributes_1 "solution"
     = PStr "Please install '{0}' by running 'pip install {1}'"
  /\ get selftest_attributes_1 "severity" = PSev SEVERITY_LEVEL_CRITICAL
  /\ get selftest_attributes_1 "pass_name" = PStr "'{0}' found in env"
  /\ get selftest_attributes_1 "pass_msg"
     = PStr "'{0}' is correctly installed in your python environment".
Proof. repeat apply conj; vm_compute; reflexivity. Qed.

Lemma rule_2 :
  get selftest_attributes_2 "fail_name" = PStr "selftest.py not found"
  /\ get selftest_attributes_2 "fail_msg" = PStr "selftest.py is a required file"
  /\ get selftest_attributes_2 "solution"
     = PStr "Please run codegen --reload and implement the templated selftest function"
  /\ get selftest_attributes_2 "severity" = PSev SEVERITY_LEVEL_CRITICAL
  /\ get selftest_attributes_2 "pass_name" = PStr "selftest.py found"
  /\ get selftest_attributes_2 "pass_msg" = PStr "selftest.py file found at path '{0}'".
Proof. repeat apply conj; vm_compute; reflexivity. Qed.

Ltac render := unfold Py.format; simpl; rewrite ?PyFacts.app_empty_r; reflexivity.

Lemma format_unsupported (v : string) :
  Py.format "'resilient-circuits=={0}' is not supported" [v]
  = Some ("'resilient-circuits==" +:+ v +:+ "' is not supported").
Proof. render. Qed.

Lemma format_found (package_name : string) :
  Py.format "'{0}' found in env" [package_name] = Some ("'" +:+ package_name +:+ "' found in env").
Proof. render. Qed.

Lemma format_installed (package_name : string) :
  Py.format "'{0}' is correctly installed in your python environment" [package_name]
  = Some ("'" +:+ package_name +:+ "' is correctly installed in your python environment").
Proof. render. Qed.

Lemma format_not_found (package_name : string) :
  Py.format "'{0}' not found" [package_name] = Some ("'" +:+ package_name +:+ "' not found").
Proof. render. Qed.

Lemma format_not_installed (package_name : string) :
  Py.format "'{0}' is not installed in your python environment" [package_name]
  = Some ("'" +:+ package_name +:+ "' is not installed in your python environment").
Proof. render. Qed.

Lemma format_please_install (package_name path_package : string) :
  Py.format "Please install '{0}' by running 'pip install {1}'" [package_name; path_package]
  = Some ("Please install '" +:+ package_name +:+ "' by running 'pip install "
          +:+ path_package +:+ "'").
Proof. render. Qed.

Lemma format_found_at (path : string) :
  Py.format "selftest.py file found at path '{0}'" [path]
  = Some ("selftest.py file found at path '" +:+ path +:+ "'").
Proof. render. Qed.

(** X1.  On its rule of the catalogue,
    [selftest_validate_resilient_circuits_installed] has three results:
    resilient-circuits found at the minimum version or above gives
    (True, DEBUG); found below it gives (False, CRITICAL) with the found
    version in the description and the upgrade command as solution; not
    found gives (False, CRITICAL) with the install command.  The test
    for "at least" comes first. *)
Theorem circuits_installed_classification (w : World) :
  let found := get_package_version (files w) CIRCUITS_PACKAGE_NAME in
  let minimum := parse_version RESILIENT_LIBRARIES_VERSION in
  let outcome :=
    fst (selftest_validate_resilient_circuits_installed selftest_attributes_0 w) in
  (forall v, found = Some v -> version_ge v minimum = true ->
     outcome
     = Return (true,
               mkIssue (PStr "'resilient-circuits' found in env")
                 (PStr "'resilient-circuits' was found in the python environment with the minimum version installed")
                 (Given (PSev SEVERITY_LEVEL_DEBUG)) (Given (PStr EmptyString))))
  /\ (forall v, found = Some v -> version_ge v minimum = false ->
        version_lt v minimum = true ->
        outcome
        = Return (false,
                  mkIssue (PStr "'resilient-circuits' version is too low")
                    (PStr ("'resilient-circuits==" +:+ version_str v +:+ "' is not supported"))
                    (Given (PSev SEVERITY_LEVEL_CRITICAL))
                    (Given (PStr "Upgrade 'resilient-circuits' by running 'pip install 'resilient-circuits>=43.0.0''"))))
  /\ (found = None ->
      outcome
      = Return (false,
                mkIssue (PStr "'resilient-circuits' not found")
                  (PStr "'resilient-circuits' is not installed in your python environment")
                  (Given (PSev SEVERITY_LEVEL_CRITICAL))
                  (Given (PStr "Please install 'resilient-circuits' by running 'pip install 'resilient-circuits''")))).
Proof.
  intros found minimum outcome. subst outcome found minimum.
  destruct rule_0 as (E1 & E2 & E3 & E4 & E5 & E6 & E7 & E8 & E9).
  unfold selftest_validate_resilient_circuits_installed.
  cbv [bind LOG_debug gets modify]. cbn [environ files stdout debug_log launched].
  rewrite E1, E2, E3, E4, E5, E6, E7, E8, E9.
  repeat apply conj.
  - intros v -> ->. reflexivity.
  - intros v -> -> ->. by rewrite (format_PStr _ _ _ _ (format_unsupported _)).
  - intros ->. reflexivity.
Qed.

(** X2.  On its rule of the catalogue,
    [selftest_validate_package_installed] returns (True, DEBUG) for a
    package that is installed and (False, CRITICAL) for one that is not;
    name and description quote the package name, and the solution of the
    failure is the pip command on the path of the package. *)
Theorem package_installed_classification (package_name path_package : string) (w : World) :
  let outcome :=
    fst (selftest_validate_package_installed selftest_attributes_1 package_name
           path_package w) in
  (check_package_installed (files w) package_name = true ->
   outcome
   = Return (true,
             mkIssue (PStr ("'" +:+ package_name +:+ "' found in env"))
               (PStr ("'" +:+ package_name
                      +:+ "' is correctly installed in your python environment"))
               (Given (PSev SEVERITY_LEVEL_DEBUG)) (Given (PStr EmptyString))))
  /\ (check_package_installed (files w) package_name = false ->
      outcome
      = Return (false,
                mkIssue (PStr ("'" +:+ package_name +:+ "' not found"))
                  (PStr ("'" +:+ package_name
                         +:+ "' is not installed in your python environment"))
                  (Given (PSev SEVERITY_LEVEL_CRITICAL))
                  (Given (PStr ("Please install '" +:+ package_name
                                +:+ "' by running 'pip install " +:+ path_package +:+ "'"))))).
Proof.
  intros outcome. subst outcome.
  destruct rule_1 as (E1 & E2 & E3 & E4 & E5 & E6).
  unfold selftest_validate_package_installed.
  cbv [bind LOG_debug gets modify]. cbn [environ files stdout debug_log launched].
  rewrite E1, E2, E3, E4, E5, E6.
  split; intros ->.
  - rewrite (format_PStr _ _ _ _ (format_found _)).
    by rewrite (format_PStr _ _ _ _ (format_installed _)).
  - rewrite (format_PStr _ _ _ _ (format_not_found _)).
    rewrite (format_PStr _ _ _ _ (format_not_installed _)).
    by rewrite (format_PStr _ _ _ _ (format_please_install _ _)).
Qed.

(** X3.  On its rule of the catalogue,
    [selftest_validate_selftestpy_file_exists] returns (True, DEBUG)
    with the path in the description when the path is valid, returns
    (False, CRITICAL) when the validation raises an [SDKException],
    whatever its message, and lets any other exception through. *)
Theorem selftestpy_file_exists_classification (path : string) (w : World) :
  let outcome :=
    fst (selftest_validate_selftestpy_file_exists selftest_attributes_2 path w) in
  (validate_file_paths (files w) path = Return tt ->
   outcome
   = Return (true,
             mkIssue (PStr "selftest.py found")
               (PStr ("selftest.py file found at path '" +:+ path +:+ "'"))
               (Given (PSev SEVERITY_LEVEL_DEBUG)) (Given (PStr EmptyString))))
  /\ (forall message,
        validate_file_paths (files w) path = Raise (SDKException message) ->
        outcome
        = Return (false,
                  mkIssue (PStr "selftest.py not found") (PStr "selftest.py is a required file")
                    (Given (PSev SEVERITY_LEVEL_CRITICAL))
                    (Given (PStr "Please run codegen --reload and implement the templated selftest function"))))
  /\ (forall e,
        validate_file_paths (files w) path = Raise e ->
        (forall message, e <> SDKException message) ->
        outcome = Raise e).
Proof.
  intros outcome. subst outcome.
  destruct rule_2 as (E1 & E2 & E3 & E4 & E5 & E6).
  unfold selftest_validate_selftestpy_file_exists.
  cbv [bind LOG_debug reads modify try_except_SDKException].
  cbn [environ files stdout debug_log launched].
  rewrite E1, E2, E3, E4, E5, E6.
  repeat apply conj.
  - intros ->. by rewrite (format_PStr _ _ _ _ (format_found_at _)).
  - intros message ->. reflexivity.
  - intros e -> Hne. destruct e as [message| | |]; [by destruct (Hne message)|done..].
Qed.

End selftest_outcomes.

Lemma circuits_installed_classification_witness :
  fst (selftest_validate_resilient_circuits_installed (C := demo_versions.C)
         sdk_validate_configs.selftest_attributes_0
         (demo.world [("site-packages/resilient-circuits", ["44.1.0"])]))
  = Return (true,
            mkIssue (PStr "'resilient-circuits' found in env")
              (PStr "'resilient-circuits' was found in the python environment with the minimum version installed")
              (Given (PSev SEVERITY_LEVEL_DEBUG)) (Given (PStr EmptyString)))
  /\ fst (selftest_validate_resilient_circuits_installed (C := demo_versions.C)
            sdk_validate_configs.selftest_attributes_0
            (demo.world [("site-packages/resilient-circuits", ["42.0.0"])]))
     = Return (false,
               mkIssue (PStr "'resilient-circuits' version is too low")
                 (PStr "'resilient-circuits==42.0.0' is not supported")
                 (Given (PSev SEVERITY_LEVEL_CRITICAL))
                 (Given (PStr "Upgrade 'resilient-circuits' by running 'pip install 'resilient-circuits>=43.0.0''")))
  /\ fst (selftest_validate_resilient_circuits_installed (C := demo_versions.C)
            sdk_validate_configs.selftest_attributes_0 (demo.world []))
     = Return (false,
               mkIssue (PStr "'resilient-circuits' not found")
                 (PStr "'resilient-circuits' is not installed in your python environment")
                 (Given (PSev SEVERITY_LEVEL_CRITICAL))
                 (Given (PStr "Please install 'resilient-circuits' by running 'pip install 'resilient-circuits''"))).
Proof.
  repeat apply conj.
  - apply (proj1 (circuits_installed_classification (C := demo_versions.C)
                    (demo.world [("site-packages/resilient-circuits", ["44.1.0"])]))
             "44.1.0");
      vm_compute; reflexivity.
  - apply (proj1 (proj2 (circuits_installed_classification (C := demo_versions.C)
                           (demo.world [("site-packages/resilient-circuits", ["42.0.0"])])))
             "42.0.0");
      vm_compute; reflexivity.
  - apply (proj2 (proj2 (circuits_installed_classification (C := demo_versions.C)
                           (demo.world [])))).
    vm_compute; reflexivity.
Defined.

Lemma package_installed_classification_witness :
  fst (selftest_validate_package_installed (C := demo_versions.C)
         sdk_validate_configs.selftest_attributes_1 "fn_demo" "path/to/fn_demo"
         (demo.world [("site-packages/fn_demo", ["1.0.0"])]))
  = Return (true,
            mkIssue (PStr "'fn_demo' found in env")
              (PStr "'fn_demo' is correctly installed in your python environment")
              (Given (PSev SEVERITY_LEVEL_DEBUG)) (Given (PStr EmptyString)))
  /\ fst (selftest_validate_package_installed (C := demo_versions.C)
            sdk_validate_configs.selftest_attributes_1 "fn_demo" "path/to/fn_demo"
            (demo.world []))
     = Return (false,
               mkIssue (PStr "'fn_demo' not found")
                 (PStr "'fn_demo' is not installed in your python environment")
                 (Given (PSev SEVERITY_LEVEL_CRITICAL))
                 (Given (PStr "Please install 'fn_demo' by running 'pip install path/to/fn_demo'"))).
Proof.
  split.
  - apply (proj1 (package_installed_classification (C := demo_versions.C)
                    "fn_demo" "path/to/fn_demo"
                    (demo.world [("site-packages/fn_demo", ["1.0.0"])]))).
    vm_compute; reflexivity.
  - apply (proj2 (package_installed_classification (C := demo_versions.C)
                    "fn_demo" "path/to/fn_demo" (demo.world []))).
    vm_compute; reflexivity.
Defined.

Lemma selftestpy_file_exists_classification_witness :
  fst (selftest_validate_selftestpy_file_exists (C := demo_versions.C)
         sdk_validate_configs.selftest_attributes_2 "fn_demo/util/selftest.py"
         (demo.world [("fn_demo/util/selftest.py", [])]))
  = Return (true,
            mkIssue (PStr "selftest.py found")
              (PStr "selftest.py file found at path 'fn_demo/util/selftest.py'")
              (Given (PSev SEVERITY_LEVEL_DEBUG)) (Given (PStr EmptyString)))
  /\ fst (selftest_validate_selftestpy_file_exists (C := demo_versions.C)
            sdk_validate_configs.selftest_attributes_2 "fn_demo/util/selftest.py"
            (demo.world []))
     = Return (false,
               mkIssue (PStr "selftest.py not found") (PStr "selftest.py is a required file")
                 (Given (PSev SEVERITY_LEVEL_CRITICAL))
                 (Given (PStr "Please run codegen --reload and implement the templated selftest function"))).
Proof.
  split.
  - apply (proj1 (selftestpy_file_exists_classification (C := demo_versions.C)
                    "fn_demo/util/selftest.py"
                    (demo.world [("fn_demo/util/selftest.py", [])]))).
    vm_compute; reflexivity.
  - apply (proj1 (proj2 (selftestpy_file_exists_classification (C := demo_versions.C)
                           "fn_demo/util/selftest.py" (demo.world [])))
             "Could not find file: fn_demo/util/selftest.py").
    vm_compute; reflexivity.
Defined.

(** ** The selftest run: command line, waiting bar, incomplete rules *)

Section selftest_run_facts.
Context `{C : Collaborators}.
Import constants.

(** The bar of the [k]-th turn of the waiting loop. *)
Definition spinner (k : nat) : string :=
  default EmptyString (["-"; "\"; "|"; "/"] !! (k mod 4)%nat).

Definition waiting_frame (k : nat) : list string :=
  [String Py.CR EmptyString; "Running selftest... " +:+ spinner k +:+ "       "].

Lemma waiting_output_frames (n : nat) : forall i k,
  (i < 8)%nat -> (k mod 8 = i)%nat ->
  waiting_output n i = flat_map waiting_frame (seq k n).
Proof.
  induction n as [|n IH]; intros i k Hi Hk; [reflexivity|].
  cbn [waiting_output seq flat_map].
  rewrite (IH ((i + 1) mod length waiting_bar)%nat (S k)).
  - unfold waiting_frame at 2. cbn [app]. do 2 f_equal.
    unfold spinner.
    replace (k mod 4)%nat with (i mod 4)%nat.
    + do 8 (destruct i as [|i]; [reflexivity|]). lia.
    + subst i. change 8%nat with (4 * 2)%nat.
      rewrite Nat.Div0.mod_mul_r, (Nat.mul_comm 4), Nat.Div0.mod_add.
      by rewrite Nat.Div0.mod_mod.
  - apply Nat.mod_upper_bound. discriminate.
  - cbn [length waiting_bar]. subst i.
    rewrite Nat.Div0.add_mod_idemp_l. f_equal. lia.
Qed.

(** X4.  While it waits, [selftest_run_selftestpy] writes two strings
    per poll of the subprocess, a carriage return and the line
    [Running selftest... ] with a bar that cycles through - \ | / ; it
    ends with a carriage return and [selftest run complete].  What was
    on standard output before stays in front. *)
Theorem selftest_run_stdout (attr_dict : gmap string pyval) (package_name : string)
    (kw : option string) (w : World) :
  let proc := Popen ["resilient-circuits"; "selftest"; "-l"; Py.replace package_name "_" "-"]
                (<[ENV_VAR_APP_CONFIG_FILE := default EmptyString kw]> (environ w)) in
  stdout (snd (selftest_run_selftestpy attr_dict package_name kw w))
  = stdout w ++ flat_map waiting_frame (seq 0 (polls proc))
      ++ [String Py.CR EmptyString; nl "selftest run complete"].
Proof.
  intros proc. rewrite selftest_run_world. cbn [stdout].
  rewrite (waiting_output_frames _ 0 0) by (reflexivity || lia).
  by rewrite <- app_assoc.
Qed.


(** X6.  A rule that lacks the message template of the outcome makes
    [selftest_run_selftestpy] raise [AttributeError], the [format] of
    [None]: [fail_msg] for exit code 1, [error_msg] for an exit code
    above 1, [missing_msg] and [pass_msg] for exit code 0.  The
    subprocess has run by then, and the environment variable is reset. *)
Theorem selftest_run_missing_template (attr_dict : gmap string pyval)
    (package_name : string) (kw : option string) (w : World) :
  let proc := Popen ["resilient-circuits"; "selftest"; "-l"; Py.replace package_name "_" "-"]
                (<[ENV_VAR_APP_CONFIG_FILE := default EmptyString kw]> (environ w)) in
  let run := selftest_run_selftestpy attr_dict package_name kw w in
  ((returncode proc = 1 /\ attr_dict !! "fail_msg" = None)
   \/ (returncode proc > 1 /\ attr_dict !! "error_msg" = None)
   \/ (returncode proc = 0 /\ attr_dict !! "missing_msg" = None
       /\ Py.contains "'state': 'unimplemented'" (proc_stderr proc) = true)
   \/ (returncode proc = 0 /\ attr_dict !! "pass_msg" = None
       /\ Py.contains "'state': 'unimplemented'" (proc_stderr proc) = false)) ->
  fst run = Raise AttributeError
  /\ environ (snd run) !! ENV_VAR_APP_CONFIG_FILE = Some EmptyString
  /\ length (launched (snd run)) = S (length (launched w)).
Proof.
  intros proc run H. subst run. rewrite selftest_run_world. cbn [environ launched].
  split; [|split; [apply lookup_insert_eq|rewrite length_app; cbn [length]; lia]].
  unfold selftest_run_selftestpy.
  cbv [bind LOG_debug setenv popen modify stdout_write].
  cbn [environ files stdout debug_log launched].
  rewrite waiting_loop_eq. cbn [environ files stdout debug_log launched].
  fold proc. unfold Py.contains in H. unfold get.
  destruct H as [[-> ->]|[[Hrc ->]|[(-> & -> & ->)|(-> & -> & ->)]]]; try reflexivity.
  destruct (Z.eqb_spec (returncode proc) 1); [lia|].
  destruct (Z.gtb_spec (returncode proc) 1); [|lia].
  reflexivity.
Qed.

End selftest_run_facts.


Lemma selftest_run_missing_template_witness :
  let run := selftest_run_selftestpy (C := demo.collaborators failed_run) ∅
               "fake_package_name" (Some "app.config") (demo.world []) in
  fst run = Raise AttributeError
  /\ environ (snd run) !! constants.ENV_VAR_APP_CONFIG_FILE = Some EmptyString
  /\ length (launched (snd run)) = 1%nat.
Proof.
  apply (selftest_run_missing_template (C := demo.collaborators failed_run) ∅
           "fake_package_name" (Some "app.config") (demo.world [])).
  left. split; reflexivity.
Defined.

(** ** The package file helpers: the other checks and their edges *)

Section package_files_outcomes.
Context `{C : Collaborators}.
Import constants.

(** X7.  The permissions check reads the lines that do not start with
    [#], stripped.  A base permission is reported exactly when no such
    line is that permission; the report keeps the order of
    [BASE_PERMISSIONS].  With something to report the result is the
    failure of the rule, its description rendered from the reported
    list; with nothing to report it is the DEBUG issue, its solution
    rendered from the lines read. *)
Theorem package_files_apikey_pem_spec (path_file : string) (attr_dict : gmap string pyval)
    (w : World) (file_contents : list string) :
  read_file (files w) path_file = Return file_contents ->
  let present :=
    Py.strip <$> filter (fun line => Py.startswith line "#" = false) file_contents in
  let missing := filter (fun perm => perm ∉ present) BASE_PERMISSIONS in
  let outcome := fst (package_files_apikey_pem path_file attr_dict w) in
  (forall perm,
      perm ∈ missing
      <-> perm ∈ BASE_PERMISSIONS
          /\ forall line, line ∈ file_contents -> Py.startswith line "#" = false ->
                          Py.strip line <> perm)
  /\ (missing <> [] ->
      forall t d,
        get attr_dict "fail_msg" = PStr t ->
        Py.format t [Py.str_list missing] = Some d ->
        outcome = Return (mkIssue (get attr_dict "fail_name") (PStr d)
                            (Given (get attr_dict "fail_severity"))
                            (Given (get attr_dict "fail_solution"))))
  /\ (missing = [] ->
      forall t s,
        get attr_dict "pass_solution" = PStr t ->
        Py.format t [Py.str_list present] = Some s ->
        outcome = Return (mkIssue (get attr_dict "pass_name") (get attr_dict "pass_msg")
                            (Given (PSev SEVERITY_LEVEL_DEBUG)) (Given (PStr s)))).
Proof.
  intros Hread present missing outcome. subst outcome.
  unfold package_files_apikey_pem. cbv [bind reads]. rewrite Hread.
  fold present. fold missing. repeat apply conj.
  - intros perm. unfold missing. rewrite list_elem_of_filter.
    unfold present. rewrite list_elem_of_fmap.
    setoid_rewrite list_elem_of_filter. split.
    + intros [Hno Hin]. split; [done|]. intros line Hline Hc Hs.
      apply Hno. exists line. by rewrite Hs.
    + intros [Hin Hno]. split; [|done]. intros (line & -> & Hc & Hline).
      by apply (Hno line).
  - intros Hne t d Ht Hd. destruct missing as [|m ms]; [done|].
    rewrite Ht. by rewrite (format_PStr _ _ _ _ Hd).
  - intros -> t s Ht Hs. rewrite Ht. by rewrite (format_PStr _ _ _ _ Hs).
Qed.

(** X8.  The config.py check has three results and lets other
    exceptions through.  A config that is not empty gives the DEBUG
    issue, whose solution is rendered from the config with two tabs put
    after each newline; an empty config gives the warning of the rule;
    an [SDKException] gives the failure of the rule, rendered from the
    text of the exception, in which no newline is left. *)
Theorem package_files_validate_config_py_spec (path_file : string)
    (attr_dict : gmap string pyval) (w : World) :
  let parsed := get_configs_from_config_py (files w) path_file in
  let outcome := fst (package_files_validate_config_py path_file attr_dict w) in
  (forall config_str t s,
      parsed = Return config_str -> config_str <> EmptyString ->
      get attr_dict "pass_solution" = PStr t ->
      Py.format t [Py.replace config_str Py.LF
                     (String Py.LF (String Py.TAB (String Py.TAB EmptyString)))] = Some s ->
      outcome = Return (mkIssue (get attr_dict "pass_name") (get attr_dict "pass_msg")
                          (Given (PSev SEVERITY_LEVEL_DEBUG)) (Given (PStr s))))
  /\ (parsed = Return EmptyString ->
      outcome = Return (mkIssue (get attr_dict "warn_name") (get attr_dict "warn_msg")
                          (Given (get attr_dict "warn_severity"))
                          (Given (get attr_dict "warn_solution"))))
  /\ (forall e t d,
        parsed = Raise (SDKException e) ->
        get attr_dict "fail_msg" = PStr t ->
        Py.format t [Py.replace (SDKException_str e) Py.LF " "] = Some d ->
        outcome = Return (mkIssue (get attr_dict "fail_name") (PStr d)
                            (Given (get attr_dict "fail_severity"))
                            (Given (get attr_dict "fail_solution")))
        /\ Py.has_char Py.LF (Py.replace (SDKException_str e) Py.LF " ") = false)
  /\ (forall e,
        parsed = Raise e -> (forall message, e <> SDKException message) ->
        outcome = Raise e).
Proof.
  intros parsed outcome. subst outcome parsed.
  unfold package_files_validate_config_py.
  cbv [bind reads try_except_SDKException]. repeat apply conj.
  - intros config_str t s -> Hne Ht Hs.
    rewrite bool_decide_eq_true_2 by done.
    rewrite PyMore.join_split, Ht. by rewrite (format_PStr _ _ _ _ Hs).
  - intros ->. reflexivity.
  - intros e t d -> Ht Hd. split; [|by apply PyMore.replace_removes].
    rewrite Ht. by rewrite (format_PStr _ _ _ _ Hd).
  - intros e -> Hne. destruct e as [message| | |]; [by destruct (Hne message)|done..].
Qed.

(** X9.  When the parser of customize.py raises an [SDKException]
    whose text has no ERROR, the check raises [ValueError], whatever the
    rule; another exception of the parser goes through as it is. *)
Theorem package_files_validate_customize_py_errors (path_file : string)
    (attr_dict : gmap string pyval) (w : World) :
  let parsed := get_import_definition_from_customize_py (files w) path_file in
  let outcome := fst (package_files_validate_customize_py path_file attr_dict w) in
  (forall e,
      parsed = Raise (SDKException e) ->
      Py.contains "ERROR" (Py.replace (SDKException_str e) Py.LF " ") = false ->
      outcome = Raise ValueError)
  /\ (forall e,
        parsed = Raise e -> (forall message, e <> SDKException message) ->
        outcome = Raise e).
Proof.
  intros parsed outcome. subst outcome parsed.
  unfold package_files_validate_customize_py.
  cbv [bind reads try_except_SDKException index]. split.
  - intros e -> Hno. unfold Py.contains in Hno.
    apply negb_false_iff in Hno. by rewrite Hno.
  - intros e -> Hne. destruct e as [message| | |]; [by destruct (Hne message)|done..].
Qed.

(** Whether the README check counts a screenshot path as invalid. *)
Definition rejected (fs : gmap string (list string)) (path_package path : string) : bool :=
  match validate_file_paths fs (os_path.join path_package path) with
  | Raise (SDKException _) => true
  | _ => false
  end.

(** The validation of a path returns or raises an [SDKException]. *)
Definition validated (fs : gmap string (list string)) (path_package path : string) : Prop :=
  forall e, validate_file_paths fs (os_path.join path_package path) = Raise e ->
            exists message, e = SDKException message.

Lemma readme_invalid_paths_filter (path_package : string) (paths : list string) (w : World) :
  Forall (validated (files w) path_package) paths ->
  forall invalid_paths,
    readme_invalid_paths path_package paths invalid_paths w
    = (Return (invalid_paths
                 ++ filter (fun p => rejected (files w) path_package p = true) paths), w).
Proof.
  induction 1 as [|p ps Hp Hps IH]; intros invalid_paths; cbn [readme_invalid_paths].
  - unfold ret. by rewrite app_nil_r.
  - cbv [bind reads try_except_SDKException ret]. rewrite filter_cons.
    unfold validated in Hp.
    destruct (validate_file_paths (files w) (os_path.join path_package p)) as [[]|e] eqn:E.
    + rewrite IH. by rewrite decide_False by (unfold rejected; by rewrite E).
    + destruct (Hp e eq_refl) as [message ->]. rewrite IH.
      rewrite decide_True by (unfold rejected; by rewrite E). by rewrite <- app_assoc.
Qed.

(** X10.  The loop over the screenshot paths of the README returns the
    paths whose validation under the package path raises an
    [SDKException], in the order of the README and as often as they are
    linked, after the ones it was given; the world is as before.  The
    first other exception ends the loop and goes through. *)
Theorem readme_invalid_paths_spec (path_package : string) (w : World) :
  (forall paths invalid_paths,
      Forall (validated (files w) path_package) paths ->
      readme_invalid_paths path_package paths invalid_paths w
      = (Return (invalid_paths
                   ++ filter (fun p => rejected (files w) path_package p = true) paths), w))
  /\ (forall good path rest invalid_paths e,
        Forall (validated (files w) path_package) good ->
        validate_file_paths (files w) (os_path.join path_package path) = Raise e ->
        (forall message, e <> SDKException message) ->
        fst (readme_invalid_paths path_package (good ++ path :: rest) invalid_paths w)
        = Raise e).
Proof.
  split.
  - intros paths invalid_paths H. by apply readme_invalid_paths_filter.
  - intros good path rest invalid_paths e Hgood He Hne. revert invalid_paths.
    induction Hgood as [|p ps Hp Hps IH]; intros invalid_paths.
    + cbn [app readme_invalid_paths]. cbv [bind reads try_except_SDKException]. rewrite He.
      destruct e as [message| | |]; [by destruct (Hne message)|done..].
    + cbn [app readme_invalid_paths]. cbv [bind reads try_except_SDKException ret].
      unfold validated in Hp.
      destruct (validate_file_paths (files w) (os_path.join path_package p)) as [[]|e'].
      * apply IH.
      * destruct (Hp e' eq_refl) as [message ->]. apply IH.
Qed.

(** X11.  A README that is not the template and has neither the
    placeholder nor a TODO, and whose links do not parse, gets an issue
    that is not taken from the rule: the name [README.md link syntax
    error], no severity and no solution given, and as description the
    text of the exception, newlines turned into spaces, after its first
    [ERROR: ].  Without [ERROR: ] in that text the check raises
    [ValueError]. *)
Theorem package_files_validate_readme_link_error
    (path_package path_file filename : string) (attr_dict : gmap string pyval)
    (w : World) (file_contents : list string) (codegen_readme_rendered e : string) :
  read_file (files w) path_file = Return file_contents ->
  setup_env_and_render_jinja_file (files w) PACKAGE_TEMPLATE_PATH filename []
  = Return codegen_readme_rendered ->
  Qeq_bool (lines_ratio file_contents (Py.splitlines codegen_readme_rendered)) 1 = false ->
  existsb (Py.contains "<!-- ::CHANGE_ME:: -->") file_contents = false ->
  existsb (Py.contains "TODO") file_contents = false ->
  parse_file_paths_from_readme file_contents = Raise (SDKException e) ->
  let err_msg := Py.replace (SDKException_str e) Py.LF " " in
  let outcome :=
    fst (package_files_validate_readme path_package path_file filename attr_dict w) in
  (Py.contains "ERROR: " err_msg = true ->
   exists before rest,
     err_msg = before +:+ "ERROR: " +:+ rest
     /\ (forall before' rest',
            err_msg = before' +:+ "ERROR: " +:+ rest' -> Py.len before <= Py.len before')
     /\ outcome = Return (mkIssue (PStr "README.md link syntax error") (PStr rest)
                            Omitted Omitted))
  /\ (Py.contains "ERROR: " err_msg = false -> outcome = Raise ValueError).
Proof.
  intros Hread Hrender Hratio Hplace Htodo Hparse err_msg outcome. subst outcome.
  unfold package_files_validate_readme. cbv [bind reads index].
  rewrite Hread, Hrender, Hratio.
  change (existsb (Py.contains placeholder_comment) file_contents)
    with (existsb (Py.contains "<!-- ::CHANGE_ME:: -->") file_contents).
  rewrite Hplace, Htodo, Hparse. fold err_msg. unfold Py.contains. split.
  - intros Hfound. apply negb_true_iff in Hfound. rewrite Hfound.
    apply Z.eqb_neq in Hfound.
    destruct (PyFacts.find_at_found "ERROR: " err_msg 0 (Py.find err_msg "ERROR: ")
                eq_refl Hfound) as (before & rest & Hmsg & Hidx & Hfirst); [lia|].
    exists before, rest. split; [done|]. split; [done|].
    cbv [ret]. cbn [fst]. do 3 f_equal.
    rewrite Hidx, Z.add_0_l. rewrite Hmsg at 1. apply PyMore.slice_after.
  - intros Hno. apply negb_false_iff in Hno. by rewrite Hno.
Qed.

(** X12.  The template check decides on the similarity of the lines
    alone: at 1 or above the file passes with the DEBUG issue and an
    empty solution; below 1 the result is the failure of the rule, its
    description rendered from the percentage and from the lines of the
    diff joined by two tabs. *)
Theorem package_files_template_match_spec
    (package_name package_version path_file filename : string)
    (attr_dict : gmap string pyval) (w : World)
    (file_rendered : string) (file_contents : list string) :
  setup_env_and_render_jinja_file (files w) PACKAGE_TEMPLATE_PATH filename
    [("package_name", package_name); ("version", package_version);
     ("resilient_libraries_version", get_resilient_libraries_version_to_use (files w))]
  = Return file_rendered ->
  read_file (files w) path_file = Return file_contents ->
  let template_contents := Py.splitlines file_rendered in
  let comp_ratio := lines_ratio file_contents template_contents in
  let outcome :=
    fst (package_files_template_match package_name package_version path_file filename
           attr_dict w) in
  (Qle_bool 1 comp_ratio = true ->
   outcome = Return (mkIssue (get attr_dict "pass_name") (get attr_dict "pass_msg")
                       (Given (PSev SEVERITY_LEVEL_DEBUG)) (Given (PStr EmptyString))))
  /\ (Qle_bool 1 comp_ratio = false ->
      forall t d,
        get attr_dict "fail_msg" = PStr t ->
        Py.format t
          [str_float (comp_ratio * 100)%Q;
           Py.join (String Py.TAB (String Py.TAB EmptyString))
             (colored_unified_diff template_contents file_contents
                ("template_" +:+ filename) filename)] = Some d ->
        outcome = Return (mkIssue (get attr_dict "fail_name") (PStr d)
                            (Given (get attr_dict "fail_severity"))
                            (Given (get attr_dict "fail_solution")))).
Proof.
  intros Hrender Hread template_contents comp_ratio outcome. subst outcome.
  unfold package_files_template_match. cbv [bind reads]. rewrite Hrender, Hread.
  fold template_contents. fold comp_ratio. split.
  - intros ->. reflexivity.
  - intros -> t d Ht Hd. cbn [negb]. rewrite Ht. by rewrite (format_PStr _ _ _ _ Hd).
Qed.

End package_files_outcomes.

Section manifest_facts.
Context `{C : Collaborators}.
Import constants.

Lemma no_elements {A} (l : list A) : (forall x, x ∉ l) -> l = [].
Proof. destruct l as [|a l]; [done|]. intros H. destruct (H a). apply list_elem_of_here. Qed.

(** X13.  A MANIFEST.in that has every non-blank line of the rendered
    template, as it is there, passes, whatever else it has and in
    whatever order; this needs no more of the similarity measure than
    that a line is similar to itself at the cutoff. *)
Theorem package_files_manifest_pass
    (package_name path_file filename : string) (attr_dict : gmap string pyval)
    (w : World) (file_rendered : string) (file_contents : list string) :
  setup_env_and_render_jinja_file (files w) PACKAGE_TEMPLATE_PATH filename
    [("package_name", package_name)] = Return file_rendered ->
  read_file (files w) path_file = Return file_contents ->
  (forall line, line ∈ Py.splitlines file_rendered ->
                Qle_bool (9 # 10) (str_ratio line line) = true) ->
  (forall line, line ∈ Py.splitlines file_rendered -> Py.strip line <> EmptyString ->
                line ∈ file_contents) ->
  fst (package_files_manifest package_name path_file filename attr_dict w)
  = Return (mkIssue (get attr_dict "pass_name") (get attr_dict "pass_msg")
              (Given (PSev SEVERITY_LEVEL_DEBUG)) (Given (PStr EmptyString))).
Proof.
  intros Hrender Hread Hself Hall.
  unfold package_files_manifest. cbv [bind reads]. rewrite Hrender, Hread.
  rewrite (no_elements (manifest_diffs file_contents (Py.splitlines file_rendered)));
    [reflexivity|].
  intros s (line & Hline & [Hne Hfar] & _)%manifest_diffs_spec.
  specialize (Hfar line (Hall line Hline Hne)). rewrite (Hself line Hline) in Hfar.
  discriminate Hfar.
Qed.

(** X14.  What the manifest check reports: never a blank line; for an
    empty file every non-blank line of the template, stripped; and
    adding lines to the file adds nothing to the report. *)
Theorem manifest_diffs_report (template_contents : list string) :
  (forall file_contents s,
      s ∈ manifest_diffs file_contents template_contents -> s <> EmptyString)
  /\ (forall s,
        s ∈ manifest_diffs [] template_contents
        <-> exists line, line ∈ template_contents /\ Py.strip line <> EmptyString
                         /\ s = Py.strip line)
  /\ (forall file_contents file_contents' s,
        (forall x, x ∈ file_contents -> x ∈ file_contents') ->
        s ∈ manifest_diffs file_contents' template_contents ->
        s ∈ manifest_diffs file_contents template_contents).
Proof.
  repeat apply conj.
  - intros file_contents s (line & _ & [Hne _] & ->)%manifest_diffs_spec. done.
  - intros s. rewrite manifest_diffs_spec. unfold unmatched. split.
    + intros (line & Hline & [Hne _] & ->). by exists line.
    + intros (line & Hline & Hne & ->). exists line. split; [done|]. split; [|done].
      split; [done|]. intros x Hx. by apply elem_of_nil in Hx.
  - intros file_contents file_contents' s Hsub.
    rewrite !manifest_diffs_spec. intros (line & Hline & [Hne Hfar] & ->).
    exists line. split; [done|]. split; [|done]. split; [done|].
    intros x Hx. apply Hfar. by apply Hsub.
Qed.

End manifest_facts.

(** ** The other checks on concrete packages *)

Module demo_files.

(** Modelled from the spec: the rules of [package_files] for
    apikey_permissions.txt and for the files compared with their
    template; the catalogue is not among the sources.  The spec gives
    the severities, CRITICAL and WARNING; the texts stand for those of
    the catalogue. *)
Definition apikey : gmap string pyval :=
  list_to_map [
    ("fail_name", PStr "apikey_permissions.txt");
    ("fail_msg", PStr "Base permissions missing: {0}");
    ("fail_severity", PSev SEVERITY_LEVEL_CRITICAL);
    ("fail_solution", PStr "Add the base permissions");
    ("pass_name", PStr "apikey_permissions.txt");
    ("pass_msg", PStr "apikey_permissions.txt has the base permissions");
    ("pass_solution", PStr "Permissions found: {0}")
  ].

Definition template_match : gmap string pyval :=
  list_to_map [
    ("fail_name", PStr "Dockerfile");
    ("fail_msg", PStr "Dockerfile matches its template to {0}%: {1}");
    ("fail_severity", PSev SEVERITY_LEVEL_WARN);
    ("fail_solution", PStr "Run codegen --reload");
    ("pass_name", PStr "Dockerfile");
    ("pass_msg", PStr "Dockerfile matches its template")
  ].

(** A README link parser that rejects an image link that is not closed. *)
Definition parse_links (lines : list string) : result (list string) :=
  match List.find (fun l => Py.startswith l "![" && negb (Py.has_char ")" l)) lines with
  | Some l => Raise (SDKException ("Cannot parse link" +:+ String Py.LF (Py.strip l)))
  | None => Return (omap demo.screenshot lines)
  end.

(** The collaborators [C] with that parser and with [text] as the [str]
    of an [SDKException]. *)
Definition with_parser (C : Collaborators) (text : string -> string) : Collaborators := {|
  Version := Version;
  parse_version := parse_version;
  version_ge := version_ge;
  version_lt := version_lt;
  version_str := version_str;
  get_package_version := get_package_version;
  check_package_installed := check_package_installed;
  validate_file_paths := validate_file_paths;
  read_file := read_file;
  setup_env_and_render_jinja_file := setup_env_and_render_jinja_file;
  get_resilient_libraries_version_to_use := get_resilient_libraries_version_to_use;
  get_configs_from_config_py := get_configs_from_config_py;
  get_import_definition_from_customize_py := get_import_definition_from_customize_py;
  parse_file_paths_from_readme := parse_links;
  BASE_PERMISSIONS := BASE_PERMISSIONS;
  lines_ratio := lines_ratio;
  str_ratio := str_ratio;
  colored_unified_diff := colored_unified_diff;
  str_float := str_float;
  Popen := Popen;
  SDKException_str := text
|}.

Definition C : Collaborators :=
  with_parser demo_rules.C (SDKException_str (Collaborators := demo_rules.C)).

(** The same, with exceptions whose text is their message alone. *)
Definition plain : Collaborators := with_parser demo_rules.C id.

(** A package whose permissions file has one base permission commented
    out, whose Dockerfile has a line more than its template, whose
    MANIFEST.in has the lines of its template among others, whose
    README.md has a link that is not closed and whose second README
    links a screenshot twice that is not there. *)
Definition package : World :=
  demo.world [
    ("fn_demo/apikey_permissions.txt",
      [nl "# base permissions"; nl "  read_data"; nl "#read_function"; nl "edit_data"]);
    (demo_rules.template "Dockerfile", [nl "FROM base"; nl "RUN pip install fn_demo"]);
    ("fn_demo/Dockerfile", [nl "FROM base"; nl "RUN pip install fn_demo"; nl "USER 0"]);
    (demo_rules.template "MANIFEST.in", [nl "include a.txt"; nl EmptyString; nl "include b.txt"]);
    ("fn_demo/MANIFEST.in", [nl "include b.txt"; nl "include c.txt"; nl "include a.txt"]);
    (demo_rules.template "README.md", [nl "# TODO: title"]);
    ("fn_demo/README.md", [nl "# fn_demo"; nl "![shot](doc/a.png"]);
    ("fn_demo/README2.md",
      [nl "![shot](doc/missing.png)"; nl "![shot](doc/a.png)"; nl "![shot](doc/missing.png)"]);
    ("fn_demo/doc/a.png", []);
    ("fn_demo/fn_demo/util/config.py", [nl "[fake_config]"; "fake=fake"]);
    ("fn_demo/fn_demo/util/empty_config.py", [])
  ].

End demo_files.

Lemma package_files_apikey_pem_spec_witness :
  fst (package_files_apikey_pem (C := demo_files.C) "fn_demo/apikey_permissions.txt"
         demo_files.apikey demo_files.package)
  = Return (mkIssue (PStr "apikey_permissions.txt")
              (PStr "Base permissions missing: ['read_function']")
              (Given (PSev SEVERITY_LEVEL_CRITICAL))
              (Given (PStr "Add the base permissions"))).
Proof.
  pose proof (package_files_apikey_pem_spec (C := demo_files.C)
                "fn_demo/apikey_permissions.txt" demo_files.apikey demo_files.package
                [nl "# base permissions"; nl "  read_data"; nl "#read_function";
                 nl "edit_data"] eq_refl) as (_ & H & _).
  apply (H ltac:(vm_compute; discriminate) "Base permissions missing: {0}"
           "Base permissions missing: ['read_function']");
    vm_compute; reflexivity.
Defined.

Lemma package_files_validate_config_py_spec_witness :
  fst (package_files_validate_config_py (C := demo_files.C)
         "fn_demo/fn_demo/util/config.py" demo_rules.config_py demo_files.package)
  = Return (mkIssue (PStr "config.py") (PStr "config.py has configs")
              (Given (PSev SEVERITY_LEVEL_DEBUG))
              (Given (PStr ("[fake_config]" +:+ String Py.LF
                              (String Py.TAB (String Py.TAB "fake=fake"))))))
  /\ fst (package_files_validate_config_py (C := demo_files.C)
            "fn_demo/fn_demo/util/empty_config.py" demo_rules.config_py demo_files.package)
     = Return (mkIssue (PStr "config.py") (PStr "config.py has no configs")
                 (Given (PSev SEVERITY_LEVEL_INFO))
                 (Given (PStr "Add configs if the app needs them")))
  /\ fst (package_files_validate_config_py (C := demo_files.C)
            "fn_demo/fn_demo/util/no_config.py" demo_rules.config_py demo_files.package)
     = Return (mkIssue (PStr "config.py")
                 (PStr " resilient-sdk FAILED ERROR: Could not find file: fn_demo/fn_demo/util/no_config.py")
                 (Given (PSev SEVERITY_LEVEL_CRITICAL)) (Given (PStr "Fix config.py"))).
Proof.
  repeat apply conj.
  - apply (proj1 (package_files_validate_config_py_spec (C := demo_files.C)
                    "fn_demo/fn_demo/util/config.py" demo_rules.config_py demo_files.package)
             ("[fake_config]" +:+ String Py.LF "fake=fake") "{0}");
      vm_compute; (reflexivity || discriminate).
  - apply (proj1 (proj2 (package_files_validate_config_py_spec (C := demo_files.C)
                           "fn_demo/fn_demo/util/empty_config.py" demo_rules.config_py
                           demo_files.package))).
    vm_compute; reflexivity.
  - apply (proj1 (proj2 (proj2 (package_files_validate_config_py_spec (C := demo_files.C)
                                  "fn_demo/fn_demo/util/no_config.py" demo_rules.config_py
                                  demo_files.package)))
             "Could not find file: fn_demo/fn_demo/util/no_config.py" "{0}");
      vm_compute; reflexivity.
Defined.

Lemma package_files_validate_customize_py_errors_witness :
  fst (package_files_validate_customize_py (C := demo_files.plain)
         "fn_demo/fn_demo/util/customize.py" demo_rules.customize_py demo_rules.package)
  = Raise ValueError.
Proof.
  apply (proj1 (package_files_validate_customize_py_errors (C := demo_files.plain)
                  "fn_demo/fn_demo/util/customize.py" demo_rules.customize_py
                  demo_rules.package)
           (nl "bad import" +:+ "definition"));
    vm_compute; reflexivity.
Defined.

Lemma readme_invalid_paths_spec_witness :
  readme_invalid_paths (C := demo_files.C) "fn_demo"
    ["doc/missing.png"; "doc/a.png"; "doc/missing.png"] [] demo_files.package
  = (Return ["doc/missing.png"; "doc/missing.png"], demo_files.package).
Proof.
  apply (proj1 (readme_invalid_paths_spec (C := demo_files.C) "fn_demo" demo_files.package)
           ["doc/missing.png"; "doc/a.png"; "doc/missing.png"] []).
  repeat constructor; intros e; vm_compute; intros [= <-]; eauto.
Defined.

Lemma package_files_validate_readme_link_error_witness :
  exists before rest,
    " resilient-sdk FAILED ERROR: Cannot parse link ![shot](doc/a.png"
    = before +:+ "ERROR: " +:+ rest
    /\ fst (package_files_validate_readme (C := demo_files.C) "fn_demo" "fn_demo/README.md"
              "README.md" demo_rules.readme demo_files.package)
       = Return (mkIssue (PStr "README.md link syntax error") (PStr rest) Omitted Omitted).
Proof.
  destruct (proj1 (package_files_validate_readme_link_error (C := demo_files.C)
                     "fn_demo" "fn_demo/README.md" "README.md" demo_rules.readme
                     demo_files.package [nl "# fn_demo"; nl "![shot](doc/a.png"]
                     (nl "# TODO: title") ("Cannot parse link" +:+ String Py.LF "![shot](doc/a.png")
                     eq_refl eq_refl eq_refl eq_refl eq_refl eq_refl) eq_refl)
    as (before & rest & Hmsg & _ & Hout).
  exists before, rest. split; [exact Hmsg|exact Hout].
Defined.

Example readme_link_error_ex :
  fst (package_files_validate_readme (C := demo_files.C) "fn_demo" "fn_demo/README.md"
         "README.md" demo_rules.readme demo_files.package)
  = Return (mkIssue (PStr "README.md link syntax error")
              (PStr "Cannot parse link ![shot](doc/a.png") Omitted Omitted).
Proof. vm_compute. reflexivity. Qed.

Lemma package_files_template_match_spec_witness :
  fst (package_files_template_match (C := demo_files.C) "fn_demo" "1.0.0"
         "fn_demo/Dockerfile" "Dockerfile" demo_files.template_match demo_files.package)
  = Return (mkIssue (PStr "Dockerfile")
              (PStr ("Dockerfile matches its template to 0.0%: "
                     +:+ nl "FROM base" +:+ String Py.TAB (String Py.TAB EmptyString)
                     +:+ nl "RUN pip install fn_demo"
                     +:+ String Py.TAB (String Py.TAB EmptyString) +:+ nl "USER 0"))
              (Given (PSev SEVERITY_LEVEL_WARN)) (Given (PStr "Run codegen --reload"))).
Proof.
  apply (proj2 (package_files_template_match_spec (C := demo_files.C) "fn_demo" "1.0.0"
                  "fn_demo/Dockerfile" "Dockerfile" demo_files.template_match
                  demo_files.package
                  (Py.join EmptyString [nl "FROM base"; nl "RUN pip install fn_demo"])
                  [nl "FROM base"; nl "RUN pip install fn_demo"; nl "USER 0"]
                  eq_refl eq_refl) eq_refl
           "Dockerfile matches its template to {0}%: {1}");
    vm_compute; reflexivity.
Defined.

Lemma package_files_manifest_pass_witness :
  fst (package_files_manifest (C := demo_files.C) "fn_demo" "fn_demo/MANIFEST.in"
         "MANIFEST.in" demo_rules.manifest demo_files.package)
  = Return (mkIssue (PStr "MANIFEST.in") (PStr "MANIFEST.in has the template lines")
              (Given (PSev SEVERITY_LEVEL_DEBUG)) (Given (PStr EmptyString))).
Proof.
  apply (package_files_manifest_pass (C := demo_files.C) "fn_demo" "fn_demo/MANIFEST.in"
           "MANIFEST.in" demo_rules.manifest demo_files.package
           (Py.join EmptyString [nl "include a.txt"; nl EmptyString; nl "include b.txt"])
           [nl "include b.txt"; nl "include c.txt"; nl "include a.txt"] eq_refl eq_refl).
  - intros line _. cbn [str_ratio demo_files.C demo_files.with_parser demo_rules.C
                          demo.collaborators].
    unfold demo.eq_ratio. by rewrite decide_True.
  - intros line Hline Hne.
    change (line ∈ [nl "include a.txt"; nl EmptyString; nl "include b.txt"]) in Hline.
    apply elem_of_cons in Hline. destruct Hline as [->|Hline].
    { do 2 apply list_elem_of_further. apply list_elem_of_here. }
    apply elem_of_cons in Hline. destruct Hline as [->|Hline]; [by destruct Hne|].
    apply list_elem_of_singleton in Hline. subst line. apply list_elem_of_here.
Defined.

Lemma manifest_diffs_report_witness :
  "include b.txt"
  ∈ manifest_diffs (C := demo_files.C) []
      [nl "include a.txt"; nl EmptyString; nl "  include b.txt"].
Proof.
  apply (proj1 (proj2 (manifest_diffs_report (C := demo_files.C)
                         [nl "include a.txt"; nl EmptyString; nl "  include b.txt"]))).
  exists (nl "  include b.txt"). split; [set_solver|]. split; [discriminate|reflexivity].
Defined.

(** * sdk_validate_configs.py: the other predicates of the setup.py rules

    Each [fail_func] below is a [re.findall] on the value of the
    attribute; the rule fails when the list it returns is not empty. *)

Module re.

(** A character of the class [a-z_]. *)
Definition lower_or_underscore (c : ascii) : bool :=
  let n := Py.ord c in
  ((97 <=? n) && (n <=? 122) || (n =? 95))%N.

(** [re.findall(r"[^a-z_]+", s)]: from the left, the maximal runs of
    characters outside the class. *)
Fixpoint findall_outside (s : string) : list string :=
  match s with
  | EmptyString => []
  | String c r =>
      if lower_or_underscore c then findall_outside r
      else match r with
           | String d _ =>
               if lower_or_underscore d then String c EmptyString :: findall_outside r
               else match findall_outside r with
                    | m :: ms => String c m :: ms
                    | [] => [String c EmptyString]
                    end
           | EmptyString => [String c EmptyString]
           end
  end.

(** The alternative [>>$] of [^<<|>>$], tried at each position from the
    left: [$] is the end of the string or the place before a newline
    that ends the string. *)
Fixpoint findall_closing (s : string) : list string :=
  match s with
  | EmptyString => []
  | String _ r =>
      if bool_decide (s = ">>") || bool_decide (s = ">>" +:+ String Py.LF EmptyString)
      then [">>"]
      else findall_closing r
  end.

(** [re.findall(r"^<<|>>$", s)]: [^<<] can match at the start only, and
    the search goes on after it. *)
Definition findall_default_marks (s : string) : list string :=
  if Py.startswith s "<<" then "<<" :: findall_closing (Py.drop 2 s)
  else findall_closing s.

(** [re.findall] of a literal that cannot overlap itself: one match for
    each place where it starts. *)
Fixpoint findall_literal (lit s : string) : list string :=
  match s with
  | EmptyString => []
  | String _ r =>
      if Py.startswith s lit then lit :: findall_literal lit r
      else findall_literal lit r
  end.

(** [re.findall(r"^(prefix).+", s)]: the one group, when [s] starts with
    the prefix and goes on with a character that is not a newline. *)
Definition findall_prefix_more (prefix s : string) : list string :=
  if Py.startswith s prefix then
    match Py.drop (String.length prefix) s with
    | String c _ => if bool_decide (c = Py.LF) then [] else [prefix]
    | EmptyString => []
    end
  else [].

End re.

Module setup_py_patterns.

(** ["name"]["fail_func"] *)
Definition name_fail_func (x : string) : list string := re.findall_outside x.

(** ["display_name"]["fail_func"], and the same for ["license"] and
    ["author"] *)
Definition display_name_fail_func (x : string) : list string := re.findall_default_marks x.
Definition license_fail_func (x : string) : list string := re.findall_default_marks x.
Definition author_fail_func (x : string) : list string := re.findall_default_marks x.

(** ["author_email"]["fail_func"]; the dot of the pattern is escaped. *)
Definition author_email_fail_func (x : string) : list string :=
  re.findall_literal "@example.com" x.

(** ["description"]["fail_func"], and the same for ["long_description"] *)
Definition description_fail_func (x : string) : list string :=
  re.findall_prefix_more "Resilient Circuits Components" x.
Definition long_description_fail_func (x : string) : list string :=
  re.findall_prefix_more "Resilient Circuits Components" x.

Section entry_points.
(** [package_helpers.SUPPORTED_EP], which is not among the sources *)
Variable SUPPORTED_EP : list string.

(** ["entry_points"]["fail_msg_lambda_supplement"] *)
Definition entry_points_fail_msg_lambda_supplement (x : list string) : list string :=
  filter (fun ep => ep ∉ x) SUPPORTED_EP.

(** ["entry_points"]["fail_func"] *)
Definition entry_points_fail_func (x : list string) : bool :=
  if negb (existsb (fun ep => bool_decide (ep ∉ x)) SUPPORTED_EP) then false else true.
End entry_points.

End setup_py_patterns.

Example name_ok : setup_py_patterns.name_fail_func "test_name" = [].
Proof. reflexivity. Qed.

Example name_invalid :
  setup_py_patterns.name_fail_func "test_name_with invalid characters" = [" "; " "].
Proof. reflexivity. Qed.

Example name_runs : setup_py_patterns.name_fail_func "fn-My App2_x" = ["-M"; " A"; "2"].
Proof. reflexivity. Qed.

Example display_name_ok : setup_py_patterns.display_name_fail_func "This is My Display Name" = [].
Proof. reflexivity. Qed.

Example display_name_default :
  setup_py_patterns.display_name_fail_func "<<default display name>>" = ["<<"; ">>"].
Proof. reflexivity. Qed.

Example author_email_ok : setup_py_patterns.author_email_fail_func "ibm@ibm.com" = [].
Proof. reflexivity. Qed.

Example author_email_marks : setup_py_patterns.author_email_fail_func "<<default email>>" = [].
Proof. reflexivity. Qed.

Example author_email_example :
  setup_py_patterns.author_email_fail_func "example@example.com" = ["@example.com"].
Proof. reflexivity. Qed.

Example description_ok :
  setup_py_patterns.description_fail_func "My Custom Function is well described" = [].
Proof. reflexivity. Qed.

Example description_default :
  setup_py_patterns.description_fail_func "Resilient Circuits Components for fn_test"
  = ["Resilient Circuits Components"].
Proof. reflexivity. Qed.

(** ** The predicates of the setup.py rules, characterised *)

Section setup_py_pattern_facts.
Import re setup_py_patterns.

(** The characters of [s] outside [a-z_], in their order. *)
Fixpoint offending (s : string) : string :=
  match s with
  | EmptyString => EmptyString
  | String c r => if lower_or_underscore c then offending r else String c (offending r)
  end.

Lemma join_empty_cons (m : string) (ms : list string) :
  Py.join EmptyString (m :: ms) = m +:+ Py.join EmptyString ms.
Proof.
  destruct ms as [|m' ms]; [by rewrite PyFacts.app_empty_r|].
  rewrite PyMore.join_cons. by rewrite PyFacts.app_nil.
Qed.

Lemma findall_outside_join (s : string) :
  Py.join EmptyString (findall_outside s) = offending s.
Proof.
  induction s as [|c r IH]; [reflexivity|].
  cbn [findall_outside offending].
  destruct (lower_or_underscore c); [done|].
  destruct r as [|d r']; [reflexivity|].
  destruct (lower_or_underscore d) eqn:Ed.
  - rewrite join_empty_cons, IH. reflexivity.
  - destruct (findall_outside (String d r')) as [|m ms].
    + by rewrite <- IH.
    + rewrite join_empty_cons, PyFacts.app_cons, <- join_empty_cons. by rewrite IH.
Qed.

Lemma findall_outside_nil (s : string) :
  findall_outside s = [] <-> offending s = EmptyString.
Proof.
  induction s as [|c r IH]; [done|].
  cbn [findall_outside offending].
  destruct (lower_or_underscore c); [done|].
  split; [|done].
  destruct r as [|d r']; [done|].
  destruct (lower_or_underscore d); [done|].
  by destruct (findall_outside (String d r')).
Qed.

Lemma findall_outside_nonempty (s : string) :
  Forall (fun m => m <> EmptyString) (findall_outside s).
Proof.
  induction s as [|c r IH]; [constructor|].
  cbn [findall_outside].
  destruct (lower_or_underscore c); [done|].
  destruct r as [|d r']; [by repeat constructor|].
  destruct (lower_or_underscore d); [by constructor|].
  destruct (findall_outside (String d r')) as [|m ms]; [by repeat constructor|].
  apply Forall_cons in IH as [_ IH]. by constructor.
Qed.

Lemma offending_app (a b : string) : offending (a +:+ b) = offending a +:+ offending b.
Proof.
  induction a as [|c a IH]; [done|].
  rewrite PyFacts.app_cons. cbn [offending].
  destruct (lower_or_underscore c); [done|]. by rewrite PyFacts.app_cons, IH.
Qed.

(** X15.  The check of the package name returns the maximal runs of
    characters that are not a lowercase letter a-z or an underscore:
    put together they are those characters in their order, and no run is
    empty.  So a name passes exactly when it has no such character; a
    digit, a capital, a hyphen or a space anywhere makes it fail. *)
Theorem name_fail_func_spec (x : string) :
  Py.join EmptyString (name_fail_func x) = offending x
  /\ Forall (fun m => m <> EmptyString) (name_fail_func x)
  /\ (name_fail_func x = [] <-> offending x = EmptyString)
  /\ (forall a c b,
         x = a +:+ String c b -> lower_or_underscore c = false -> name_fail_func x <> []).
Proof.
  unfold name_fail_func. split; [apply findall_outside_join|].
  split; [apply findall_outside_nonempty|]. split; [apply findall_outside_nil|].
  intros a c b -> Hc. rewrite findall_outside_nil, offending_app. cbn [offending].
  rewrite Hc. by destruct (offending a).
Qed.

Lemma findall_closing_shape (s : string) :
  findall_closing s = [] \/ findall_closing s = [">>"].
Proof.
  induction s as [|c r IH]; [by left|]. cbn [findall_closing].
  destruct (_ || _); [by right|done].
Qed.

Lemma findall_closing_spec (s : string) :
  findall_closing s <> []
  <-> exists a, s = a +:+ ">>" \/ s = a +:+ ">>" +:+ String Py.LF EmptyString.
Proof.
  induction s as [|c r IH].
  - split; [done|]. intros [a [H|H]]; by destruct a.
  - cbn [findall_closing].
    destruct (bool_decide_reflect (String c r = ">>")) as [E1|E1]; cbn [orb].
    { split; [|done]. intros _. exists EmptyString. by left. }
    destruct (bool_decide_reflect (String c r = ">>" +:+ String Py.LF EmptyString))
      as [E2|E2].
    { split; [|done]. intros _. exists EmptyString. by right. }
    rewrite IH. split.
    + intros [a [-> | ->]]; exists (String c a); [by left|by right].
    + intros [[|c' a] H].
      * destruct H as [H|H]; rewrite PyFacts.app_nil in H; [by destruct E1|by destruct E2].
      * exists a. rewrite !PyFacts.app_cons in H.
        destruct H as [[= _ ->]|[= _ ->]]; [by left|by right].
Qed.

(** X16.  The check of display_name, license and author returns [<<]
    when the value starts with it, and [>>] when the value ends with it
    or with it and one newline; nothing else.  So the value fails
    exactly when it starts with [<<] or ends so; the marks in the middle
    of a value do not count. *)
Theorem display_name_fail_func_spec (x : string) :
  (display_name_fail_func x <> []
   <-> (exists t, x = "<<" +:+ t)
       \/ (exists a, x = a +:+ ">>" \/ x = a +:+ ">>" +:+ String Py.LF EmptyString))
  /\ display_name_fail_func x ∈ [[]; ["<<"]; [">>"]; ["<<"; ">>"]]
  /\ license_fail_func x = display_name_fail_func x
  /\ author_fail_func x = display_name_fail_func x.
Proof.
  unfold license_fail_func, author_fail_func, display_name_fail_func, findall_default_marks.
  split; [|split; [|done]].
  - destruct (Py.startswith x "<<") eqn:E.
    + split; [|done]. intros _. left. by apply PyFacts.startswith_spec.
    + rewrite findall_closing_spec. split; [by right|].
      intros [H|H]; [|done]. apply PyFacts.startswith_spec in H. congruence.
  - destruct (Py.startswith x "<<").
    + destruct (findall_closing_shape (Py.drop 2 x)) as [-> | ->]; set_solver.
    + destruct (findall_closing_shape x) as [-> | ->]; set_solver.
Qed.

Lemma findall_literal_spec (l : ascii) (lit s : string) :
  findall_literal (String l lit) s <> [] <-> PyFacts.occurs (String l lit) s = true.
Proof.
  induction s as [|c r IH]; [done|].
  cbn [findall_literal PyFacts.occurs].
  destruct (Py.startswith (String c r) (String l lit)); cbn [orb]; [done|].
  apply IH.
Qed.

(** X17.  The check of author_email fails exactly when [@example.com]
    occurs in the value, wherever it stands; each match is that text. *)
Theorem author_email_fail_func_spec (x : string) :
  (author_email_fail_func x <> [] <-> Py.contains "@example.com" x = true)
  /\ Forall (fun m => m = "@example.com") (author_email_fail_func x).
Proof.
  unfold author_email_fail_func. split.
  - by rewrite findall_literal_spec, PyFacts.contains_occurs.
  - induction x as [|c r IH]; [constructor|]. cbn [findall_literal].
    destruct (Py.startswith (String c r) "@example.com"); [by constructor|done].
Qed.

Lemma findall_prefix_more_spec (prefix x : string) :
  findall_prefix_more prefix x <> []
  <-> exists c rest, x = prefix +:+ String c rest /\ c <> Py.LF.
Proof.
  unfold findall_prefix_more. destruct (Py.startswith x prefix) eqn:E.
  - apply PyFacts.startswith_spec in E as [t ->]. rewrite PyFacts.drop_app.
    destruct t as [|c rest].
    + split; [done|]. intros (c & rest & H & _).
      apply (f_equal Py.len) in H. rewrite !PyFacts.len_app in H.
      unfold Py.len in H. cbn [String.length] in H. lia.
    + destruct (bool_decide_reflect (c = Py.LF)) as [->|Hc].
      * split; [done|]. intros (c & rest' & H & Hc).
        assert (String Py.LF rest = String c rest') as [= <- _]; [|done].
        rewrite <- (PyFacts.drop_app prefix (String Py.LF rest)).
        rewrite <- (PyFacts.drop_app prefix (String c rest')). by rewrite H.
      * split; [|done]. intros _. by exists c, rest.
  - split; [done|]. intros (c & rest & -> & _).
    by rewrite PyFacts.startswith_app in E.
Qed.

(** X18.  The check of description and long_description fails exactly
    when the value is [Resilient Circuits Components] followed by at
    least one more character that is not a newline; what it returns then
    is that prefix alone.  The bare prefix passes. *)
Theorem description_fail_func_spec (x : string) :
  (description_fail_func x <> []
   <-> exists c rest, x = "Resilient Circuits Components" +:+ String c rest /\ c <> Py.LF)
  /\ (description_fail_func x = []
      \/ description_fail_func x = ["Resilient Circuits Components"])
  /\ (Py.len x <= 29 -> description_fail_func x = [])
  /\ long_description_fail_func x = description_fail_func x.
Proof.
  unfold long_description_fail_func, description_fail_func.
  split; [apply findall_prefix_more_spec|]. split; [|split; [|done]].
  - unfold findall_prefix_more. destruct (Py.startswith _ _); [|by left].
    destruct (Py.drop _ _) as [|c r]; [by left|]. destruct (bool_decide _); [by left|by right].
  - intros Hlen.
    destruct (findall_prefix_more "Resilient Circuits Components" x) as [|m ms] eqn:E;
      [done|].
    assert (findall_prefix_more "Resilient Circuits Components" x <> []) as H
      by (by rewrite E).
    apply findall_prefix_more_spec in H as (c & rest & -> & _).
    rewrite PyFacts.len_app in Hlen. unfold Py.len in Hlen. cbn in Hlen. lia.
Qed.

Section entry_points_facts.
Variable SUPPORTED_EP : list string.

(** X19.  The check of entry_points fails exactly when its supplement,
    the list put into the message, is not empty.  That list has the
    supported entry points that are not among the given ones, in the
    order of [SUPPORTED_EP]; it is empty exactly when every supported
    entry point is given, as it is for [SUPPORTED_EP] itself. *)
Theorem entry_points_fail_func_spec (x : list string) :
  (entry_points_fail_func SUPPORTED_EP x = true
   <-> entry_points_fail_msg_lambda_supplement SUPPORTED_EP x <> [])
  /\ (forall ep,
         ep ∈ entry_points_fail_msg_lambda_supplement SUPPORTED_EP x
         <-> ep ∈ SUPPORTED_EP /\ ep ∉ x)
  /\ (entry_points_fail_func SUPPORTED_EP x = false <-> forall ep, ep ∈ SUPPORTED_EP -> ep ∈ x)
  /\ entry_points_fail_func SUPPORTED_EP SUPPORTED_EP = false.
Proof.
  assert (forall y, entry_points_fail_func SUPPORTED_EP y = false
                    <-> forall ep, ep ∈ SUPPORTED_EP -> ep ∈ y) as Hpass.
  { intros y. unfold entry_points_fail_func.
    destruct (existsb _ _) eqn:E; cbn [negb].
    - split; [done|]. intros H. apply existsb_exists in E as (ep & Hin & Hno).
      apply bool_decide_eq_true in Hno. destruct Hno. apply H.
      by apply list_elem_of_In.
    - split; [|done]. intros _ ep Hep.
      destruct (decide (ep ∈ y)) as [|Hno]; [done|].
      assert (existsb (fun ep => bool_decide (ep ∉ y)) SUPPORTED_EP = true) as H; [|congruence].
      apply existsb_exists. exists ep. split; [by apply list_elem_of_In|].
      by apply bool_decide_eq_true. }
  assert (forall ep, ep ∈ entry_points_fail_msg_lambda_supplement SUPPORTED_EP x
                     <-> ep ∈ SUPPORTED_EP /\ ep ∉ x) as Hsup.
  { intros ep. unfold entry_points_fail_msg_lambda_supplement.
    rewrite list_elem_of_filter. tauto. }
  split; [|split; [done|split; [done|by apply Hpass]]].
  split.
  - intros Hfail Hnil.
    assert (entry_points_fail_func SUPPORTED_EP x = false) as H; [|congruence].
    apply Hpass. intros ep Hep. destruct (decide (ep ∈ x)) as [|Hno]; [done|].
    assert (ep ∈ entry_points_fail_msg_lambda_supplement SUPPORTED_EP x) as H
      by (by apply Hsup).
    rewrite Hnil in H. by apply elem_of_nil in H.
  - intros Hne. destruct (entry_points_fail_func SUPPORTED_EP x) eqn:E; [done|].
    destruct Hne. apply no_elements. intros ep [Hep Hno]%Hsup.
    apply Hno. by apply (proj1 (Hpass x) E).
Qed.

End entry_points_facts.

End setup_py_pattern_facts.

Lemma name_fail_func_spec_witness :
  setup_py_patterns.name_fail_func "name_with_n0mb3rs" <> [].
Proof.
  apply (proj2 (proj2 (proj2 (name_fail_func_spec "name_with_n0mb3rs")))
           "name_with_n" "0"%char "mb3rs"); reflexivity.
Defined.

Lemma display_name_fail_func_spec_witness :
  setup_py_patterns.display_name_fail_func "My <<App>>" <> []
  /\ setup_py_patterns.display_name_fail_func "My <<App>> 2" = [].
Proof.
  split.
  - apply (proj2 (proj1 (display_name_fail_func_spec "My <<App>>"))).
    right. exists "My <<App". left. reflexivity.
  - destruct (setup_py_patterns.display_name_fail_func "My <<App>> 2") eqn:E; [done|].
    discriminate E.
Defined.

Lemma author_email_fail_func_spec_witness :
  setup_py_patterns.author_email_fail_func "me@example.com.au" <> [].
Proof.
  apply (proj2 (proj1 (author_email_fail_func_spec "me@example.com.au"))). reflexivity.
Defined.

Lemma description_fail_func_spec_witness :
  setup_py_patterns.description_fail_func "Resilient Circuits Components" = [].
Proof.
  apply (proj1 (proj2 (proj2 (description_fail_func_spec "Resilient Circuits Components")))).
  vm_compute. discriminate.
Defined.

Lemma entry_points_fail_func_spec_witness :
  let supported := ["resilient.circuits.components"; "resilient.circuits.configsection";
                    "resilient.circuits.customize"; "resilient.circuits.selftest"] in
  setup_py_patterns.entry_points_fail_func supported ["only_one_entry_point"] = true
  /\ setup_py_patterns.entry_points_fail_func supported
       ("console_scripts" :: reverse supported) = false.
Proof.
  intros supported. split.
  - apply (proj2 (proj1 (entry_points_fail_func_spec supported ["only_one_entry_point"]))).
    vm_compute. discriminate.
  - apply (proj2 (proj1 (proj2 (proj2 (entry_points_fail_func_spec supported
                                         ("console_scripts" :: reverse supported)))))).
    intros ep Hep. apply list_elem_of_further, elem_of_reverse. exact Hep.
Defined.

(** * resilient_circuits/app.py: the argument parser

    The class [keyring_arguments.ArgumentParser] and the configuration
    file are outside the sources: [getopt] and the three readers of the
    configuration are taken as given. *)

Module app.

(** [str.lower] on one character (code points below 256). *)
Definition lower_char (c : ascii) : ascii :=
  let n := Py.ord c in
  if ((65 <=? n) && (n <=? 90) || (192 <=? n) && (n <=? 222) && negb (n =? 215))%N
  then Ascii.ascii_of_N (n + 32)
  else c.

Fixpoint lower (s : string) : string :=
  match s with
  | EmptyString => EmptyString
  | String c r => String (lower_char c) (lower r)
  end.

(** [AppArgumentParser._is_true]; [None] is a value that is not there. *)
Definition _is_true (value : option string) : bool :=
  match value with
  | Some (String _ _ as value) =>
      match lower value with
      | String c _ => bool_decide (c ∈ ["1"; "t"; "y"]%char)
      | EmptyString => false
      end
  | _ => false
  end.

(** [a or b] on an optional string and a string. *)
Definition or_default (a : option string) (b : string) : string :=
  match a with
  | Some (String _ _ as a) => a
  | _ => b
  end.

Definition DEFAULT_NO_PROMPT_PASS : string := "False".

Section defaults.
(** [self.getopt(section, option)] *)
Variable getopt : string -> string -> option string.

(** The defaults of [--no-prompt-password] and [--test-actions] in
    [AppArgumentParser.__init__]. *)
Definition default_no_prompt_password : bool :=
  let default_no_prompt_password :=
    or_default (getopt "resilient" "no_prompt_password") DEFAULT_NO_PROMPT_PASS in
  _is_true (Some default_no_prompt_password).

Definition default_test_actions : bool :=
  _is_true (getopt "resilient" "test_actions") || false.
End defaults.

(** A value of the [opts] dictionary: what the command line gave, or
    the items of a section of the configuration file. *)
Inductive optval :=
| OValue (v : pyval)
| OItems (items : gmap string string).

(** [dict(pairs)]: a later pair replaces an earlier one with its key. *)
Definition dict (pairs : list (string * string)) : gmap string string :=
  foldl (fun d kv => <[kv.1 := kv.2]> d) ∅ pairs.

Section parse_args.
(** [self.config.sections()], [self.config.options(section)] and
    [self.config.get(section, item)] *)
Variable sections : list string.
Variable options : string -> list string.
Variable config_get : string -> string -> string.

Definition section_items (section : string) : gmap string string :=
  dict ((fun item => (lower item, config_get section item)) <$> options section).

(** [AppArgumentParser.parse_args], from the [opts] that the parser of
    the super class returns; [has_config] is [if self.config]. *)
Definition parse_args (has_config : bool) (opts : gmap string optval)
  : gmap string optval :=
  if has_config then
    foldl (fun opts section => <[section := OItems (section_items section)]> opts)
          opts sections
  else opts.
End parse_args.

End app.

Example is_true_yes : app._is_true (Some "Yes") = true.
Proof. reflexivity. Qed.

Example is_true_on : app._is_true (Some "on") = false.
Proof. reflexivity. Qed.

Example is_true_false : app._is_true (Some app.DEFAULT_NO_PROMPT_PASS) = false.
Proof. reflexivity. Qed.

(** ** The argument parser, characterised *)

Section app_facts.
Import app.

Lemma lower_char_truth (c : ascii) :
  bool_decide (lower_char c ∈ ["1"; "t"; "y"]%char)
  = bool_decide (c ∈ ["1"; "t"; "T"; "y"; "Y"]%char).
Proof. destruct c as [[] [] [] [] [] [] [] []]; vm_compute; reflexivity. Qed.

Lemma lower_char_idemp (c : ascii) : lower_char (lower_char c) = lower_char c.
Proof. destruct c as [[] [] [] [] [] [] [] []]; vm_compute; reflexivity. Qed.

Lemma lower_idemp (s : string) : lower (lower s) = lower s.
Proof. induction s as [|c r IH]; [done|]. cbn [lower]. by rewrite lower_char_idemp, IH. Qed.

(** X20.  [_is_true] looks at the first character alone, whatever its
    case: a value is true exactly when it starts with 1, t, T, y or Y;
    the empty string and a missing value are false.  The defaults of
    [--no-prompt-password] and [--test-actions] are [_is_true] of the
    configured option, so false when the option is missing or empty. *)
Theorem is_true_spec :
  (forall value,
      _is_true value = true
      <-> exists c rest, value = Some (String c rest) /\ c ∈ ["1"; "t"; "T"; "y"; "Y"]%char)
  /\ (forall getopt,
         default_no_prompt_password getopt = _is_true (getopt "resilient" "no_prompt_password"))
  /\ (forall getopt,
         default_test_actions getopt = _is_true (getopt "resilient" "test_actions")).
Proof.
  repeat apply conj.
  - intros [[|c rest]|]; cbn [_is_true lower].
    + split; [done|]. by intros (c & rest & [=] & _).
    + rewrite lower_char_truth, bool_decide_eq_true. split.
      * intros H. by exists c, rest.
      * by intros (c' & rest' & [= -> ->] & H).
    + split; [done|]. by intros (c & rest & [=] & _).
  - intros getopt. unfold default_no_prompt_password, or_default.
    by destruct (getopt "resilient" "no_prompt_password") as [[|c rest]|].
  - intros getopt. unfold default_test_actions. apply orb_false_r.
Qed.

Lemma foldl_insert_lookup {A} (f : string -> A) (l : list string) :
  forall (m : gmap string A) (k : string),
    foldl (fun m s => <[s := f s]> m) m l !! k
    = if decide (k ∈ l) then Some (f k) else m !! k.
Proof.
  induction l as [|a l IH]; intros m k; cbn [foldl].
  - rewrite decide_False; [done|]. apply not_elem_of_nil.
  - rewrite IH. destruct (decide (k ∈ l)) as [Hin|Hno].
    + rewrite decide_True; [done|]. by apply list_elem_of_further.
    + destruct (decide (k = a)) as [->|Hne].
      * rewrite decide_True by apply list_elem_of_here. apply lookup_insert_eq.
      * rewrite decide_False by (by intros [?|?]%elem_of_cons).
        by apply lookup_insert_ne.
Qed.

Lemma dict_snoc (pairs : list (string * string)) (kv : string * string) :
  dict (pairs ++ [kv]) = <[kv.1 := kv.2]> (dict pairs).
Proof. unfold dict. by rewrite foldl_app. Qed.

(** A key of [dict(pairs)] has the value of the last pair with it. *)
Lemma dict_lookup (pairs : list (string * string)) (k : string) :
  dict pairs !! k = snd <$> last (filter (fun kv => kv.1 = k) pairs).
Proof.
  induction pairs as [|kv pairs IH] using rev_ind; [done|].
  rewrite dict_snoc, filter_app, filter_cons, filter_nil.
  destruct (decide (kv.1 = k)) as [<-|Hne].
  - rewrite last_snoc. apply lookup_insert_eq.
  - rewrite app_nil_r, lookup_insert_ne by done. apply IH.
Qed.

Section parse_args_facts.
Variable sections : list string.
Variable options : string -> list string.
Variable config_get : string -> string -> string.

(** X21.  [parse_args] puts the items of each section of the
    configuration file into [opts] under the name of the section, in
    place of an option of that name, and leaves every other option as
    the command line gave it; without a configuration nothing changes,
    and parsing again changes nothing.  The items of a section are
    found under their names in lower case, and of two items whose names
    differ in case only the later one is kept. *)
Theorem parse_args_spec (opts : gmap string optval) :
  let parsed := parse_args sections options config_get true opts in
  (forall section,
      section ∈ sections ->
      parsed !! section = Some (OItems (section_items options config_get section)))
  /\ (forall k, k ∉ sections -> parsed !! k = opts !! k)
  /\ parse_args sections options config_get false opts = opts
  /\ parse_args sections options config_get true parsed = parsed
  /\ (forall section k,
         section_items options config_get section !! k
         = (fun item => config_get section item)
             <$> last (filter (fun item => lower item = k) (options section)))
  /\ (forall section k,
         is_Some (section_items options config_get section !! k) -> lower k = k).
Proof.
  intros parsed. subst parsed. unfold parse_args.
  assert (forall section k,
             section_items options config_get section !! k
             = (fun item => config_get section item)
                 <$> last (filter (fun item => lower item = k) (options section))) as Hitems.
  { intros section k. unfold section_items. rewrite dict_lookup.
    induction (options section) as [|item items IH] using rev_ind; [done|].
    rewrite fmap_app, !filter_app. cbn [fmap list_fmap]. rewrite !filter_cons, !filter_nil.
    cbn [fst]. destruct (decide (lower item = k)) as [E|E].
    - by rewrite !last_snoc.
    - by rewrite !app_nil_r. }
  repeat apply conj.
  - intros section Hin. rewrite foldl_insert_lookup. by rewrite decide_True.
  - intros k Hno. rewrite foldl_insert_lookup. by rewrite decide_False.
  - reflexivity.
  - apply map_eq. intros k. rewrite !foldl_insert_lookup.
    by destruct (decide (k ∈ sections)).
  - exact Hitems.
  - intros section k [v Hv]. rewrite Hitems in Hv.
    destruct (last _) as [item|] eqn:E; [|done].
    apply last_Some_elem_of, list_elem_of_filter in E as [<- _].
    apply lower_idemp.
Qed.

End parse_args_facts.

End app_facts.

(** * resilient_circuits/app.py: the lock file *)

Module posixpath.

(** [s.rstrip(c)] for one character *)
Fixpoint rstrip_char (c : ascii) (s : string) : string :=
  match s with
  | EmptyString => EmptyString
  | String x r =>
      match rstrip_char c r with
      | EmptyString => if decide (x = c) then EmptyString else String x EmptyString
      | r' => String x r'
      end
  end.

(** [s == c * len(s)] *)
Fixpoint all_char (c : ascii) (s : string) : bool :=
  match s with
  | EmptyString => true
  | String x r => bool_decide (x = c) && all_char c r
  end.

(** [os.path.dirname(p)] *)
Definition dirname (p : string) : string :=
  let i := Py.rfind p "/" + 1 in
  let head := Py.slice p None (Some i) in
  if negb (bool_decide (head = EmptyString)) && negb (all_char "/" head)
  then rstrip_char "/" head
  else head.

Section expanduser.
(** The home directory in the password database, of the current user
    ([None]) or of a named one; no answer stands for [KeyError]. *)
Variable pw_dir : option string -> option string.

(** [os.path.expanduser(path)] *)
Definition expanduser (environ : gmap string string) (path : string) : string :=
  if negb (Py.startswith path "~") then path
  else
    let i := Py.find_at (Py.drop 1 path) "/" 1 in
    let i := if i <? 0 then Py.len path else i in
    let userhome :=
      if i =? 1 then
        match environ !! "HOME" with
        | None => pw_dir None
        | Some home => Some home
        end
      else pw_dir (Some (Py.slice path (Some 1) (Some i))) in
    match userhome with
    | None => path
    | Some userhome =>
        let expanded := rstrip_char "/" userhome +:+ Py.slice path (Some i) None in
        if bool_decide (expanded = EmptyString) then "/" else expanded
    end.
End expanduser.

End posixpath.

Module app_lock.

Section get_lock.
Variable pw_dir : option string -> option string.
(** [os.makedirs(path)] on the set of the paths that exist; no answer
    stands for the [OSError] it can raise. *)
Variable makedirs : string -> gset string -> option (gset string).

(** [get_lock]: the path of the lock and the paths that exist
    afterwards.  [filelock.FileLock(lockfile)] opens nothing yet. *)
Definition get_lock (environ : gmap string string) (existing : gset string)
  : option (string * gset string) :=
  let app_lock_file := default EmptyString (environ !! "APP_LOCK_FILE") in
  if bool_decide (app_lock_file = EmptyString) then
    let lockfile :=
      posixpath.expanduser pw_dir environ
        (os_path.join (os_path.join "~" ".resilient") "resilient_circuits_lockfile") in
    let resilient_dir := posixpath.dirname lockfile in
    if negb (bool_decide (resilient_dir ∈ existing)) then
      existing ← makedirs resilient_dir existing;
      Some (lockfile, existing)
    else Some (lockfile, existing)
  else
    let lockfile := posixpath.expanduser pw_dir environ app_lock_file in
    Some (lockfile, existing).
End get_lock.

End app_lock.

Example dirname_ex : posixpath.dirname "/home/me/.resilient/lockfile" = "/home/me/.resilient".
Proof. reflexivity. Qed.

Example dirname_root : posixpath.dirname "/lockfile" = "/".
Proof. reflexivity. Qed.

Example expanduser_ex :
  posixpath.expanduser (fun _ => None) {["HOME" := "/home/me/"]} "~/locks/a" = "/home/me/locks/a".
Proof. vm_compute. reflexivity. Qed.

Example expanduser_other :
  posixpath.expanduser (fun _ => None) {["HOME" := "/home/me/"]} "~you/locks/a" = "~you/locks/a".
Proof. vm_compute. reflexivity. Qed.

(** ** The lock file, characterised *)

Section lock_facts.
Import posixpath app_lock.

Lemma slice_to (a t : string) : Py.slice (a +:+ t) None (Some (Py.len a)) = a.
Proof.
  unfold Py.slice, Py.bound. cbn [from_option].
  rewrite PyFacts.len_app.
  pose proof (PyFacts.len_nonneg a). pose proof (PyFacts.len_nonneg t).
  destruct (Z.ltb_spec (Py.len a) 0); [lia|].
  rewrite Z.min_l by lia. rewrite Z.sub_0_r. unfold Py.len. rewrite Nat2Z.id.
  cbn [Z.to_nat Py.drop]. apply PyFacts.take_app.
Qed.

Lemma rstrip_char_snoc (c : ascii) (a : string) :
  rstrip_char c (a +:+ String c EmptyString) = rstrip_char c a.
Proof.
  induction a as [|x a IH].
  - rewrite PyFacts.app_nil. cbn [rstrip_char]. by rewrite decide_True.
  - rewrite PyFacts.app_cons. cbn [rstrip_char]. by rewrite IH.
Qed.

Lemma rstrip_char_app (c : ascii) (a b : string) :
  rstrip_char c b <> EmptyString -> rstrip_char c (a +:+ b) = a +:+ rstrip_char c b.
Proof.
  intros Hb. induction a as [|x a IH]; [done|].
  rewrite !PyFacts.app_cons. cbn [rstrip_char]. rewrite IH.
  destruct (a +:+ rstrip_char c b) as [|y r] eqn:E; [|done].
  destruct a; [|done]. by rewrite PyFacts.app_nil in E.
Qed.

Lemma all_char_app (c : ascii) (a b : string) :
  all_char c (a +:+ b) = all_char c a && all_char c b.
Proof.
  induction a as [|x a IH]; [done|].
  rewrite PyFacts.app_cons. cbn [all_char]. by rewrite IH, andb_assoc.
Qed.

(** The directory of a file in a directory that is not a root and is
    written without a slash at its end. *)
Lemma dirname_file (a name : string) :
  all_char "/" a = false -> rstrip_char "/" a = a -> Py.rfind name "/" = -1 ->
  dirname (a +:+ "/" +:+ name) = a.
Proof.
  intros Hroot Hend Hname. unfold dirname.
  assert (Py.rfind (a +:+ "/" +:+ name) "/" = Py.len a) as ->.
  { apply (PyFacts.rfind_last "/" a "/" name); [apply (PyFacts.startswith_app "/")|done]. }
  replace (Py.len a + 1) with (Py.len (a +:+ "/")) by (by rewrite PyFacts.len_app).
  replace (a +:+ "/" +:+ name) with ((a +:+ "/") +:+ name) by apply PyFacts.app_assoc.
  rewrite slice_to, all_char_app, Hroot.
  rewrite bool_decide_eq_false_2; [|by destruct a].
  cbn [negb andb]. by rewrite rstrip_char_snoc.
Qed.

Lemma expanduser_home (pw_dir : option string -> option string)
    (environ : gmap string string) (home rest : string) :
  environ !! "HOME" = Some home ->
  expanduser pw_dir environ ("~/" +:+ rest) = rstrip_char "/" home +:+ "/" +:+ rest.
Proof.
  intros Hhome. unfold expanduser.
  change ("~/" +:+ rest) with (String "~" (String "/" rest)).
  assert (Py.startswith (String "~" (String "/" rest)) "~" = true) as ->
    by apply (PyFacts.startswith_app "~").
  cbn [negb Py.drop Py.find_at].
  assert (Py.startswith (String "/" rest) "/" = true) as ->
    by apply (PyFacts.startswith_app "/").
  change (1 <? 0) with false. cbv iota. change (1 =? 1) with true. cbv iota.
  rewrite Hhome.
  assert (Py.slice (String "~" (String "/" rest)) (Some 1) None = String "/" rest) as ->
    by apply (PyFacts.slice_from "~").
  rewrite bool_decide_eq_false_2; [done|]. by destruct (rstrip_char "/" home).
Qed.

(** X22.  [get_lock] takes the lock file from APP_LOCK_FILE when that is
    set and not empty: the path is the value with its home directory
    expanded, and no directory is made.  Otherwise, with HOME set, the
    lock is [resilient_circuits_lockfile] in the directory [.resilient]
    of the home, trailing slashes of HOME dropped; that directory is made
    when it is not there, and only then. *)
Theorem get_lock_spec (pw_dir : option string -> option string)
    (makedirs : string -> gset string -> option (gset string))
    (environ : gmap string string) (existing : gset string) :
  let lock := get_lock pw_dir makedirs environ existing in
  (forall app_lock_file,
      environ !! "APP_LOCK_FILE" = Some app_lock_file -> app_lock_file <> EmptyString ->
      lock = Some (expanduser pw_dir environ app_lock_file, existing))
  /\ (forall home,
         default EmptyString (environ !! "APP_LOCK_FILE") = EmptyString ->
         environ !! "HOME" = Some home ->
         let resilient_dir := rstrip_char "/" home +:+ "/.resilient" in
         let lockfile := resilient_dir +:+ "/resilient_circuits_lockfile" in
         (resilient_dir ∈ existing -> lock = Some (lockfile, existing))
         /\ (resilient_dir ∉ existing ->
             lock = (fun existing => (lockfile, existing)) <$> makedirs resilient_dir existing)).
Proof.
  intros lock. subst lock. unfold get_lock. split.
  - intros app_lock_file -> Hne. cbn [default]. by rewrite bool_decide_eq_false_2.
  - intros home -> Hhome.
    set (resilient_dir := rstrip_char "/" home +:+ "/.resilient").
    set (lockfile := resilient_dir +:+ "/resilient_circuits_lockfile").
    rewrite bool_decide_eq_true_2 by done.
    change (os_path.join (os_path.join "~" ".resilient") "resilient_circuits_lockfile")
      with ("~/" +:+ ".resilient/resilient_circuits_lockfile").
    rewrite (expanduser_home _ _ home) by done.
    assert (rstrip_char "/" home +:+ "/" +:+ ".resilient/resilient_circuits_lockfile"
            = lockfile) as ->.
    { unfold lockfile, resilient_dir. by rewrite PyFacts.app_assoc. }
    assert (dirname lockfile = resilient_dir) as ->.
    { apply dirname_file; [| |reflexivity]; unfold resilient_dir.
      - rewrite all_char_app. apply andb_false_r.
      - by apply rstrip_char_app. }
    split; intros Hdir.
    + by rewrite bool_decide_eq_true_2.
    + rewrite bool_decide_eq_false_2 by done. cbn [negb].
      by destruct (makedirs resilient_dir existing).
Qed.

End lock_facts.

Lemma is_true_spec_witness : app._is_true (Some "TRUE") = true.
Proof.
  apply (proj2 (proj1 is_true_spec (Some "TRUE"))).
  exists "T"%char, "RUE". split; [reflexivity|].
  do 2 apply list_elem_of_further. apply list_elem_of_here.
Defined.

Module demo_config.

(** A configuration file with two sections; the first has an option
    written twice, in two cases. *)
Definition sections : list string := ["resilient"; "fn_demo"].

Definition options (section : string) : list string :=
  if bool_decide (section = "resilient") then ["host"; "Email"; "email"]
  else if bool_decide (section = "fn_demo") then ["url"]
  else [].

Definition config_get (section item : string) : string := section +:+ "." +:+ item.

Definition opts : gmap string app.optval :=
  {["host" := app.OValue (PStr "localhost"); "fn_demo" := app.OValue (PStr "shadowed")]}.

End demo_config.

Lemma parse_args_spec_witness :
  let parsed := app.parse_args demo_config.sections demo_config.options
                  demo_config.config_get true demo_config.opts in
  parsed !! "fn_demo" = Some (app.OItems {["url" := "fn_demo.url"]})
  /\ parsed !! "host" = Some (app.OValue (PStr "localhost"))
  /\ app.section_items demo_config.options demo_config.config_get "resilient" !! "email"
     = Some "resilient.email".
Proof.
  pose proof (parse_args_spec demo_config.sections demo_config.options
                demo_config.config_get demo_config.opts) as (H1 & H2 & _ & _ & H3 & _).
  repeat apply conj.
  - rewrite (H1 "fn_demo") by (apply list_elem_of_further, list_elem_of_here).
    vm_compute. reflexivity.
  - rewrite (H2 "host"); [reflexivity|].
    intros H. apply elem_of_cons in H. destruct H as [H|H]; [discriminate H|].
    apply list_elem_of_singleton in H. discriminate H.
  - rewrite (H3 "resilient" "email"). reflexivity.
Defined.

Lemma get_lock_spec_witness :
  let makedirs := fun path (existing : gset string) => Some ({[path]} ∪ existing) in
  app_lock.get_lock (fun _ => None) makedirs {["HOME" := "/home/me/"]} ∅
  = Some ("/home/me/.resilient/resilient_circuits_lockfile", {["/home/me/.resilient"]} ∪ ∅)
  /\ app_lock.get_lock (fun _ => None) makedirs
       {["HOME" := "/home/me/"; "APP_LOCK_FILE" := "~/locks/second"]} ∅
     = Some ("/home/me/locks/second", ∅).
Proof.
  intros makedirs. split.
  - destruct (get_lock_spec (fun _ => None) makedirs {["HOME" := "/home/me/"]} ∅)
      as [_ H].
    apply (H "/home/me/"); [vm_compute; reflexivity|vm_compute; reflexivity|].
    apply not_elem_of_empty.
  - destruct (get_lock_spec (fun _ => None) makedirs
                {["HOME" := "/home/me/"; "APP_LOCK_FILE" := "~/locks/second"]} ∅)
      as [H _].
    rewrite (H "~/locks/second"); [|vm_compute; reflexivity|discriminate].
    vm_compute. reflexivity.
Defined.
